(** * MultiGrid MUX measurements: [Code/cluster.py]

    A shallow embedding of the word decoder [cluster_data] and of the
    calibration table builder [get_ADC_to_Ch], and the properties of both
    that the specification of the repository states.

    Conventions of the embedding:
    - a 32-bit mesytec word is a [Z]; Python's [&], [>>] are [Z.land],
      [Z.shiftr];
    - a Python [dict] is a [gmap]; a missing key raises [KeyError];
    - a numpy array and a Python [list] are a [list]; an index out of range
      raises [IndexError];
    - an exception aborts the call: a function that can raise returns a
      [result];
    - a float is the rational it stands for, an infinity or NaN
      ([scalar]); a Python int is the rational of the same value; a store
      in an array of [dtype=int] converts the value, and raises where the
      conversion does;
    - the delimiters are finite floats, rationals ([Q]) here, and
      [np.linspace] is computed exactly: this is what float64 arithmetic
      gives when the samples are floats, as they are for bounds that are
      integers with a difference that is a multiple of the number of
      samples, the only ranges whose samples the properties below compute;
    - [np.arange] gives the range asked for, whatever its length: memory
      is no limit here.  The properties that state that the builder returns
      take delimiters that are raw values ([raw_bounds]), for which the
      samples are finite and the ranges short. *)

From Stdlib Require Import ZArith QArith Qround Qabs Lqa String List Lia.
From stdpp Require Import base option list gmap strings fin_maps.

Close Scope Q_scope.
Local Open Scope string_scope.
Local Open Scope list_scope.
Local Open Scope Z_scope.

(** ** Exceptions *)

Inductive exn : Type := IndexError | KeyError | ValueError | OverflowError.

Inductive result (A : Type) : Type :=
| Ok (a : A)
| Raise (e : exn).

Arguments Ok {A} a.
Arguments Raise {A} e.

#[global] Instance result_ret : MRet result := λ A a, Ok a.
#[global] Instance result_bind : MBind result :=
  λ A B f m, match m with Ok a => f a | Raise e => Raise e end.

(** [l[i]] on a Python list: a negative index counts from the end. *)
Definition py_getitem {A : Type} (l : list A) (i : Z) : result A :=
  let n := Z.of_nat (length l) in
  let j := if i <? 0 then i + n else i in
  if (0 <=? j) && (j <? n)
  then match l !! Z.to_nat j with Some x => Ok x | None => Raise IndexError end
  else Raise IndexError.

(** [d[k]] on a dict. *)
Definition dict_getitem `{Countable K} {V : Type} (d : gmap K V) (k : K) : result V :=
  match d !! k with Some v => Ok v | None => Raise KeyError end.

(** ** Numbers

    A cell of a spreadsheet and an entry of the calibration dict hold a
    float: NaN, an infinity, or a number, given here by its value.  A
    Python int is the number of the same value. *)
Inductive scalar : Type :=
  | NaN
  | Inf (negative : bool)
  | Num (x : Q).

Definition of_int (z : Z) : scalar := Num (inject_Z z).
Coercion of_int : Z >-> scalar.

#[global] Instance Q_eq_dec : EqDecision Q.
Proof. solve_decision. Defined.

#[global] Instance scalar_eq_dec : EqDecision scalar.
Proof. solve_decision. Defined.

(** [np.isnan]. *)
Definition isnan (c : scalar) : bool :=
  match c with NaN => true | Inf _ | Num _ => false end.

(** [int(x)] of a float: the integer part, towards zero. *)
Definition py_int (x : Q) : Z := if Qle_bool 0 x then Qfloor x else Qceiling x.

(** What a store in an array of [dtype=int] (64 bits) keeps of a value:
    numpy converts the value with [int], which raises [ValueError] on NaN
    and [OverflowError] on an infinity, and raises [OverflowError] when the
    integer does not fit the cell. *)
Definition int64_of (v : scalar) : result Z :=
  match v with
  | NaN => Raise ValueError
  | Inf _ => Raise OverflowError
  | Num x =>
      let z := py_int x in
      if (- 2 ^ 63 <=? z) && (z <? 2 ^ 63) then Ok z else Raise OverflowError
  end.

(** [a[i] = v] on a numpy array of [dtype=int], for an index that is not
    negative: the index is checked, then the value converted. *)
Definition array_setitem (a : list Z) (i : nat) (v : scalar) : result (list Z) :=
  if decide (i < length a)%nat then z ← int64_of v; Ok (<[i:=z]> a)
  else Raise IndexError.

(** [events[key][i] = v]: the array stored under [key] is updated in place. *)
Definition events_setitem (events : gmap string (list Z)) (key : string) (i : nat)
    (v : scalar) : result (gmap string (list Z)) :=
  col ← dict_getitem events key;
  col' ← array_setitem col i v;
  Ok (<[key:=col']> events).

(** ** Masks, dictionary and bit shifts (lines 15-44) *)

Definition SignatureMask : Z := 0xC0000000.
Definition SubSignatureMask : Z := 0x3FE00000.

Definition ModuleMask : Z := 0x00FF0000.
Definition ChannelMask : Z := 0x001F0000.
Definition ADCMask : Z := 0x00003FFF.
Definition ExTsMask : Z := 0x0000FFFF.
Definition TimeStampMask : Z := 0x3FFFFFFF.
Definition WordCountMask : Z := 0x00000FFF.

Definition Header : Z := 0x40000000.
Definition Data : Z := 0x00000000.
Definition EoE : Z := 0xC0000000.

Definition DataEvent : Z := 0x04000000.
Definition DataExTs : Z := 0x04800000.

Definition ChannelShift : Z := 16.
Definition ModuleShift : Z := 16.
Definition ExTsShift : Z := 30.

(** ** The kind of a word

    [cluster_data] tests the signature of a word inline, in the order
    Header, Data, EoE; [classify] is that chain of tests with the fields
    each branch extracts. *)

Inductive WordKind : Type :=
| KHeader (module : Z)
| KData (channel adc : Z)
| KEndOfEvent (timeOfFlight : Z)
| KOther.

Definition classify (word : Z) : WordKind :=
  if Z.land word SignatureMask =? Header then
    KHeader (Z.shiftr (Z.land word ModuleMask) ModuleShift)
  else if Z.land word SignatureMask =? Data then
    KData (Z.shiftr (Z.land word ChannelMask) ChannelShift) (Z.land word ADCMask)
  else if Z.land word SignatureMask =? EoE then
    KEndOfEvent (Z.land word TimeStampMask)
  else KOther.

(** ** [cluster_data] (lines 51-140) *)

(** Python slices of an attribute name: [s[:1]], [s[0:3]], [s[-2:]]. *)
Definition slice_first (s : string) : string := String.substring 0 1 s.
Definition slice_0_3 (s : string) : string := String.substring 0 3 s.
Definition slice_last2 (s : string) : string :=
  String.substring (String.length s - 2) 2 s.

(** Lines 85-94: the two layouts, selected by [window.MG_CNCS.isChecked()]. *)
Definition attributes (MG_CNCS : bool) : list string :=
  if MG_CNCS then
    ["wADC_1"; "wADC_2"; "wChADC_1"; "wChADC_2";
     "gADC_1"; "gADC_2"; "gChADC_1"; "gChADC_2"]
  else
    ["gADC_1"; "gADC_2"; "gChADC_1"; "gChADC_2";
     "wADC_1"; "wADC_2"; "wChADC_1"; "wChADC_2";
     "wADC_3"; "wADC_4"; "wChADC_3"; "wChADC_4"].

Definition channels (MG_CNCS : bool) : list string :=
  if MG_CNCS then ["wCh_1"; "wCh_2"; "gCh_1"; "gCh_2"]
  else ["wCh_1"; "wCh_2"; "wCh_3"; "wCh_4"; "gCh_1"; "gCh_2"].

(** Lines 98-101: [events.update({name: np.zeros([size], dtype=int)})] for
    each name in turn. *)
Definition add_columns (names : list string) (size : nat)
    (events : gmap string (list Z)) : gmap string (list Z) :=
  foldl (λ ev name, <[name:=replicate size 0]> ev) events names.

(** Lines 95-101. *)
Definition initial_events (MG_CNCS : bool) (size : nat) : gmap string (list Z) :=
  add_columns (channels MG_CNCS) size
    (add_columns (attributes MG_CNCS) size
       (<["ToF":=replicate size 0]> (<["Module":=replicate size 0]> ∅))).

(** Line 103. *)
Definition wires_or_grids : gmap string string :=
  <["g":="Grids"]> (<["w":="Wires"]> ∅).

(** The variables the loop updates. *)
Record state : Type := State {
  events : gmap string (list Z);
  isOpen : bool;
  index : nat
}.

(** Lines 109-134: the body of the loop, for one word. *)
Definition body (MG_CNCS : bool) (ADC_to_Ch : gmap string (gmap Z scalar))
    (st : state) (word : Z) : result state :=
  if Z.land word SignatureMask =? Header then
    let Module := Z.shiftr (Z.land word ModuleMask) ModuleShift in
    ev ← events_setitem (events st) "Module" (index st) Module;
    Ok (State ev true (index st))
  else if (Z.land word SignatureMask =? Data) && isOpen st then
    let ADC := Z.land word ADCMask in
    let Channel := Z.shiftr (Z.land word ChannelMask) ChannelShift in
    attribute ← py_getitem (attributes MG_CNCS) Channel;
    ev ← events_setitem (events st) attribute (index st) ADC;
    w_or_g ← dict_getitem wires_or_grids (slice_first attribute);
    if (String.length attribute =? 8)%nat then
      table ← dict_getitem ADC_to_Ch w_or_g;
      physical_Ch ← dict_getitem table ADC;
      let channel_attribute :=
        String.append (slice_0_3 attribute) (slice_last2 attribute) in
      ev' ← events_setitem ev channel_attribute (index st) physical_Ch;
      Ok (State ev' (isOpen st) (index st))
    else Ok (State ev (isOpen st) (index st))
  else if (Z.land word SignatureMask =? EoE) && isOpen st then
    let ToF := Z.land word TimeStampMask in
    ev ← events_setitem (events st) "ToF" (index st) ToF;
    Ok (State ev false (S (index st)))
  else Ok st.

(** Line 108: [for i, word in enumerate(data)]. *)
Fixpoint loop (MG_CNCS : bool) (ADC_to_Ch : gmap string (gmap Z scalar))
    (st : state) (data : list Z) : result state :=
  match data with
  | [] => Ok st
  | word :: rest =>
      st' ← body MG_CNCS ADC_to_Ch st word;
      loop MG_CNCS ADC_to_Ch st' rest
  end.

(** Lines 84-140.  The result is the dict of columns the DataFrame is made
    of, each cut to its first [index] cells. *)
Definition cluster_data (data : list Z) (ADC_to_Ch : gmap string (gmap Z scalar))
    (MG_CNCS : bool) : result (gmap string (list Z)) :=
  let size := length data in
  st ← loop MG_CNCS ADC_to_Ch (State (initial_events MG_CNCS size) false 0) data;
  Ok (take (index st) <$> events st).

(** ** [get_ADC_to_Ch] (lines 162-187)

    The two tables the function imports from spreadsheets (lines 165-166)
    are its arguments here: [delimiters_table] with its items in order and
    delimiters that are finite, and [channel_mapping], whose channels are
    any floats.  Line 167 prints [channel_mapping['Wires']], and raises
    [KeyError] before anything else when the mapping has no such key. *)

(** [round(x)] of Python 3 on a float: the nearest integer, a tie going to
    the even one. *)
Definition py_round (x : Q) : Z :=
  let f := Qfloor x in
  match Qcompare (x - inject_Z f) (1 # 2) with
  | Lt => f
  | Gt => f + 1
  | Eq => if Z.even f then f else f + 1
  end.

(** [np.linspace(start, stop, num)]: [arange(0, num) * step + start] with
    [step = (stop - start) / (num - 1)], the last sample set to [stop]. *)
Definition linspace (start stop : Q) (num : nat) : list Q :=
  match num with
  | O => []
  | 1%nat => [start]
  | _ =>
      let div := (num - 1)%nat in
      let step := ((stop - start) / inject_Z (Z.of_nat div))%Q in
      let y := map (λ j, (inject_Z (Z.of_nat j) * step + start)%Q) (seq 0 num) in
      <[div:=stop]> y
  end.

(** Line 164. *)
Definition layers_dict : gmap string nat :=
  <["Grids":=12%nat]> (<["Wires":=16%nat]> ∅).

(** Line 168: [{i: -1 for i in range(4096)}]. *)
Definition unmapped_table : gmap Z scalar :=
  foldl (λ t i, <[i:=of_int (-1)]> t) ∅ (seqZ 0 4096).

(** Lines 168-169. *)
Definition initial_ADC_to_Ch : gmap string (gmap Z scalar) :=
  <["Grids":=unmapped_table]> (<["Wires":=unmapped_table]> ∅).

(** Line 185: [ADC_to_Ch[key][k] = channel]. *)
Definition ADC_to_Ch_setitem (ADC_to_Ch : gmap string (gmap Z scalar)) (key : string)
    (k : Z) (channel : scalar) : result (gmap string (gmap Z scalar)) :=
  table ← dict_getitem ADC_to_Ch key;
  Ok (<[key:=<[k:=channel]> table]> ADC_to_Ch).

(** Lines 184-185: [for k in np.arange(start, stop, 1)]. *)
Fixpoint assign_loop (ADC_to_Ch : gmap string (gmap Z scalar)) (key : string)
    (channel : scalar) (ks : list Z) : result (gmap string (gmap Z scalar)) :=
  match ks with
  | [] => Ok ADC_to_Ch
  | k :: rest =>
      ADC_to_Ch' ← ADC_to_Ch_setitem ADC_to_Ch key k channel;
      assign_loop ADC_to_Ch' key channel rest
  end.

(** Lines 179-186: [for j, value in enumerate(small_delimiters[1:])]. *)
Fixpoint small_delimiters_loop (channel_mapping : gmap string (list scalar))
    (key : string) (layers i j : nat) (previous_value : Q) (values : list Q)
    (ADC_to_Ch : gmap string (gmap Z scalar)) : result (gmap string (gmap Z scalar)) :=
  match values with
  | [] => Ok ADC_to_Ch
  | value :: rest =>
      mapping ← dict_getitem channel_mapping key;
      channel ← py_getitem mapping (Z.of_nat (i * layers + j));
      let start := py_round previous_value in
      let stop := py_round value in
      ADC_to_Ch' ← assign_loop ADC_to_Ch key channel (seqZ start (stop - start));
      small_delimiters_loop channel_mapping key layers i (S j) value rest ADC_to_Ch'
  end.

(** Lines 173-186: [for i, (start, stop) in enumerate(delimiters)], for one
    key and its number of layers. *)
Fixpoint delimiters_loop (channel_mapping : gmap string (list scalar))
    (key : string) (layers i : nat) (delimiters : list (Q * Q))
    (ADC_to_Ch : gmap string (gmap Z scalar)) : result (gmap string (gmap Z scalar)) :=
  match delimiters with
  | [] => Ok ADC_to_Ch
  | (start, stop) :: rest =>
      mapping ← dict_getitem channel_mapping key;
      channel ← py_getitem mapping (Z.of_nat i);
      let small_delimiters := linspace start stop (layers + 1) in
      previous_value ← py_getitem small_delimiters 0;
      ADC_to_Ch' ← small_delimiters_loop channel_mapping key layers i 0
                     previous_value (drop 1 small_delimiters) ADC_to_Ch;
      delimiters_loop channel_mapping key layers (S i) rest ADC_to_Ch'
  end.

(** Lines 170-186: [for key, delimiters in delimiters_table.items()]. *)
Fixpoint keys_loop (channel_mapping : gmap string (list scalar))
    (items : list (string * list (Q * Q)))
    (ADC_to_Ch : gmap string (gmap Z scalar)) : result (gmap string (gmap Z scalar)) :=
  match items with
  | [] => Ok ADC_to_Ch
  | (key, delimiters) :: rest =>
      layers ← dict_getitem layers_dict key;
      ADC_to_Ch' ← delimiters_loop channel_mapping key layers 0 delimiters ADC_to_Ch;
      keys_loop channel_mapping rest ADC_to_Ch'
  end.

(** Lines 162-187.  Line 167, [print(channel_mapping['Wires'])], reads the
    mapping of the wires before the dict is made. *)
Definition get_ADC_to_Ch (delimiters_table : list (string * list (Q * Q)))
    (channel_mapping : gmap string (list scalar)) : result (gmap string (gmap Z scalar)) :=
  _ ← dict_getitem channel_mapping "Wires";
  keys_loop channel_mapping delimiters_table initial_ADC_to_Ch.

(** ** [import_channel_mappings] and [import_delimiter_table] (lines 190-211)

    The spreadsheet each function reads is its argument here: [matrix] is
    [pd.read_excel(path).values], a list of rows of cells; a cell holds a
    number, or NaN where the sheet is empty. *)

(** Lines 195-198: [for row in matrix[1:]], with the lists [wires] and
    [grids] built so far. *)
Fixpoint channel_mappings_loop (rows : list (list scalar)) (wires grids : list scalar)
  : result (list scalar * list scalar) :=
  match rows with
  | [] => Ok (wires, grids)
  | row :: rest =>
      w ← py_getitem row 1;
      let wires := wires ++ [w] in
      g ← py_getitem row 3;
      if negb (isnan g) then channel_mappings_loop rest wires (grids ++ [g])
      else channel_mappings_loop rest wires grids
  end.

(** Lines 190-199. *)
Definition import_channel_mappings (matrix : list (list scalar))
  : result (gmap string (list scalar)) :=
  wg ← channel_mappings_loop (drop 1 matrix) [] [];
  Ok (<["Grids":=wg.2]> (<["Wires":=wg.1]> ∅)).

(** Lines 207-210. *)
Fixpoint delimiter_table_loop (rows : list (list scalar)) (wires grids : list (scalar * scalar))
  : result (list (scalar * scalar) * list (scalar * scalar)) :=
  match rows with
  | [] => Ok (wires, grids)
  | row :: rest =>
      w0 ← py_getitem row 0;
      w1 ← py_getitem row 1;
      let wires := wires ++ [(w0, w1)] in
      g0 ← py_getitem row 2;
      if negb (isnan g0) then
        g2 ← py_getitem row 2;
        g3 ← py_getitem row 3;
        delimiter_table_loop rest wires (grids ++ [(g2, g3)])
      else delimiter_table_loop rest wires grids
  end.

(** Lines 202-211. *)
Definition import_delimiter_table (matrix : list (list scalar))
  : result (gmap string (list (scalar * scalar))) :=
  wg ← delimiter_table_loop (drop 1 matrix) [] [];
  Ok (<["Grids":=wg.2]> (<["Wires":=wg.1]> ∅)).


(** ** Words, streams and tables: the vocabulary of the properties *)

Definition is_Header (word : Z) : bool := Z.land word SignatureMask =? Header.
Definition is_Data (word : Z) : bool := Z.land word SignatureMask =? Data.
Definition is_EoE (word : Z) : bool := Z.land word SignatureMask =? EoE.

Definition get_Module (word : Z) : Z := Z.shiftr (Z.land word ModuleMask) ModuleShift.
Definition get_Channel (word : Z) : Z := Z.shiftr (Z.land word ChannelMask) ChannelShift.
Definition get_ADC (word : Z) : Z := Z.land word ADCMask.
Definition get_ToF (word : Z) : Z := Z.land word TimeStampMask.

(** What the loop body does with a word of each kind. *)
Definition handle (MG_CNCS : bool) (ADC_to_Ch : gmap string (gmap Z scalar))
    (st : state) (kind : WordKind) : result state :=
  match kind with
  | KHeader Module =>
      ev ← events_setitem (events st) "Module" (index st) Module;
      Ok (State ev true (index st))
  | KData Channel ADC =>
      if isOpen st then
        attribute ← py_getitem (attributes MG_CNCS) Channel;
        ev ← events_setitem (events st) attribute (index st) ADC;
        w_or_g ← dict_getitem wires_or_grids (slice_first attribute);
        if (String.length attribute =? 8)%nat then
          table ← dict_getitem ADC_to_Ch w_or_g;
          physical_Ch ← dict_getitem table ADC;
          let channel_attribute :=
            String.append (slice_0_3 attribute) (slice_last2 attribute) in
          ev' ← events_setitem ev channel_attribute (index st) physical_Ch;
          Ok (State ev' (isOpen st) (index st))
        else Ok (State ev (isOpen st) (index st))
      else Ok st
  | KEndOfEvent ToF =>
      if isOpen st then
        ev ← events_setitem (events st) "ToF" (index st) ToF;
        Ok (State ev false (S (index st)))
      else Ok st
  | KOther => Ok st
  end.

(** The keys of [events], in the order lines 95-101 create them. *)
Definition columns (MG_CNCS : bool) : list string :=
  "Module" :: "ToF" :: attributes MG_CNCS ++ channels MG_CNCS.

(** Every attribute is a column and starts with [w] or [g]; one with an
    eight-character name has its channel column, which is another column. *)
Definition attribute_ok (MG_CNCS : bool) (attribute : string) : Prop :=
  attribute ∈ columns MG_CNCS ∧
  attribute ≠ "Module" ∧ attribute ≠ "ToF" ∧
  is_Some (wires_or_grids !! slice_first attribute) ∧
  ((String.length attribute =? 8)%nat = true →
   let channel_attribute := String.append (slice_0_3 attribute) (slice_last2 attribute) in
   channel_attribute ∈ columns MG_CNCS ∧ channel_attribute ≠ attribute ∧
   channel_attribute ≠ "Module" ∧ channel_attribute ≠ "ToF").

(** Number of rows of a table, and the cell of column [key] in row [i]. *)
Definition nrows (t : gmap string (list Z)) : nat :=
  match t !! "Module" with Some col => length col | None => O end.

Definition cell (t : gmap string (list Z)) (key : string) (i : nat) : option Z :=
  col ← t !! key; col !! i.

(** Number of End-of-Event words of a stream. *)
Definition count_EoE (data : list Z) : nat := length (filter (λ w, is_EoE w = true) data).

(** The value of [isOpen] after the words of [data], when it was [o]
    before them: a Header sets it, an End-of-Event clears it. *)
Fixpoint open_after (o : bool) (data : list Z) : bool :=
  match data with
  | [] => o
  | word :: rest =>
      open_after (if is_Header word then true else if is_EoE word then false else o) rest
  end.

(** A stream is well formed when Headers and End-of-Event words alternate:
    a Header only when no event is open, an End-of-Event only when one is,
    and none left open at the end. *)
Fixpoint well_formed_from (o : bool) (data : list Z) : bool :=
  match data with
  | [] => negb o
  | word :: rest =>
      if is_Header word then negb o && well_formed_from true rest
      else if is_EoE word then o && well_formed_from false rest
      else well_formed_from o rest
  end.

Definition well_formed (data : list Z) : bool := well_formed_from false data.

(** The well-formedness the specification words: each Header is followed
    by exactly one End-of-Event before the next Header or the end of the
    stream; [n] is the number of End-of-Event words seen since the last
    Header, [None] before the first Header. *)
Fixpoint headers_closed_from (n : option nat) (data : list Z) : bool :=
  match data with
  | [] => match n with Some k => (k =? 1)%nat | None => true end
  | word :: rest =>
      if is_Header word then
        match n with Some k => (k =? 1)%nat | None => true end
        && headers_closed_from (Some O) rest
      else if is_EoE word then headers_closed_from (S <$> n) rest
      else headers_closed_from n rest
  end.

Definition headers_closed (data : list Z) : bool := headers_closed_from None data.

(** The exception the Data branch (lines 117-127) raises on a word, [None]
    when it raises none: [IndexError] when the channel selects no attribute
    and, for an attribute with a name of eight characters, [KeyError] when
    the ADC value is not a key of the table of the attribute's group,
    [ValueError] when the entry is NaN and [OverflowError] when it is
    infinite or does not fit the cell. *)
Definition data_word_exn (MG_CNCS : bool) (ADC_to_Ch : gmap string (gmap Z scalar))
    (word : Z) : option exn :=
  match attributes MG_CNCS !! Z.to_nat (get_Channel word) with
  | None => Some IndexError
  | Some attribute =>
      if (String.length attribute =? 8)%nat then
        match wires_or_grids !! slice_first attribute with
        | None => Some KeyError
        | Some w_or_g =>
            match ADC_to_Ch !! w_or_g with
            | None => Some KeyError
            | Some table =>
                match table !! get_ADC word with
                | None => Some KeyError
                | Some physical_Ch =>
                    match int64_of physical_Ch with
                    | Ok _ => None
                    | Raise e => Some e
                    end
                end
            end
        end
      else None
  end.

(** A Data word that the loop body handles without raising: its channel
    selects an attribute and, when the name of the attribute has eight
    characters, its ADC value is a key of the table of the attribute's
    group, with an entry that a cell of the table can hold. *)
Definition data_word_ok (MG_CNCS : bool) (ADC_to_Ch : gmap string (gmap Z scalar))
    (word : Z) : bool :=
  match data_word_exn MG_CNCS ADC_to_Ch word with
  | None => true
  | Some _ => false
  end.

(** No Data word that arrives while an event is open raises. *)
Fixpoint decodable_from (MG_CNCS : bool) (ADC_to_Ch : gmap string (gmap Z scalar))
    (o : bool) (data : list Z) : bool :=
  match data with
  | [] => true
  | word :: rest =>
      if is_Header word then decodable_from MG_CNCS ADC_to_Ch true rest
      else if is_Data word && o then
        data_word_ok MG_CNCS ADC_to_Ch word && decodable_from MG_CNCS ADC_to_Ch o rest
      else if is_EoE word then decodable_from MG_CNCS ADC_to_Ch false rest
      else decodable_from MG_CNCS ADC_to_Ch o rest
  end.

Definition decodable (MG_CNCS : bool) (ADC_to_Ch : gmap string (gmap Z scalar))
    (data : list Z) : bool := decodable_from MG_CNCS ADC_to_Ch false data.

(** The stream cut after each End-of-Event word: span [i] ends with the
    [i]-th End-of-Event; the words after the last one belong to no span. *)
Fixpoint event_spans (data : list Z) : list (list Z) :=
  match data with
  | [] => []
  | word :: rest =>
      if is_EoE word then [word] :: event_spans rest
      else match event_spans rest with
           | [] => []
           | span :: spans => (word :: span) :: spans
           end
  end.

(** The values of a calibration table: -1, for a raw value that was
    assigned no channel, or a channel of the channel mapping. *)
Definition channel_value (channel_mapping : gmap string (list scalar)) (ch : scalar) : Prop :=
  ch = of_int (-1) ∨ ∃ key mapping, channel_mapping !! key = Some mapping ∧ ch ∈ mapping.

(** A calibration dict with an entry for every raw value from 0 to 4095,
    for the wires and for the grids. *)
Definition full_range (channel_mapping : gmap string (list scalar))
    (ADC_to_Ch : gmap string (gmap Z scalar)) : Prop :=
  ∀ w_or_g, w_or_g = "Wires" ∨ w_or_g = "Grids" →
    ∃ table, ADC_to_Ch !! w_or_g = Some table ∧
      ∀ adc, 0 ≤ adc < 4096 →
        ∃ ch, table !! adc = Some ch ∧ channel_value channel_mapping ch.

(** Tables for the examples: one range of raw values for the sixteen
    wire channels 100..115 and one for the twelve grid channels 200..211. *)
Definition demo_delimiters_table : list (string * list (Q * Q)) :=
  [("Wires", [(0%Q, 64%Q)]); ("Grids", [(0%Q, 48%Q)])].

Definition demo_channel_mapping : gmap string (list scalar) :=
  <["Grids":=of_int <$> seqZ 200 12]> (<["Wires":=of_int <$> seqZ 100 16]> ∅).

(** The states the loop of [cluster_data] reaches on a stream of [size]
    words, before its last word. *)
Definition reachable (MG_CNCS : bool) (ADC_to_Ch : gmap string (gmap Z scalar))
    (size : nat) (st : state) : Prop :=
  ∃ pre : list Z, (length pre < size)%nat ∧
    loop MG_CNCS ADC_to_Ch (State (initial_events MG_CNCS size) false 0) pre = Ok st.

(** ** The rows behind the arrays

    The loop seen row by row: the rows committed so far, the row being
    filled (a cell that was never written holds 0) and the flag.  It raises
    where the loop body raises. *)

Record rstate : Type := RState {
  rows : list (gmap string Z);
  cur : gmap string Z;
  ropen : bool
}.

Definition row_get (row : gmap string Z) (key : string) : Z := default 0 (row !! key).

Definition row_setitem (MG_CNCS : bool) (row : gmap string Z) (key : string) (v : scalar)
  : result (gmap string Z) :=
  if decide (key ∈ columns MG_CNCS) then z ← int64_of v; Ok (<[key:=z]> row)
  else Raise KeyError.

(** The Data branch, on the row being filled. *)
Definition row_data (MG_CNCS : bool) (ADC_to_Ch : gmap string (gmap Z scalar))
    (c : gmap string Z) (word : Z) : result (gmap string Z) :=
  let ADC := Z.land word ADCMask in
  let Channel := Z.shiftr (Z.land word ChannelMask) ChannelShift in
  attribute ← py_getitem (attributes MG_CNCS) Channel;
  c ← row_setitem MG_CNCS c attribute ADC;
  w_or_g ← dict_getitem wires_or_grids (slice_first attribute);
  if (String.length attribute =? 8)%nat then
    table ← dict_getitem ADC_to_Ch w_or_g;
    physical_Ch ← dict_getitem table ADC;
    let channel_attribute :=
      String.append (slice_0_3 attribute) (slice_last2 attribute) in
    row_setitem MG_CNCS c channel_attribute physical_Ch
  else Ok c.

Definition row_body (MG_CNCS : bool) (ADC_to_Ch : gmap string (gmap Z scalar))
    (a : rstate) (word : Z) : result rstate :=
  if Z.land word SignatureMask =? Header then
    let Module := Z.shiftr (Z.land word ModuleMask) ModuleShift in
    c ← row_setitem MG_CNCS (cur a) "Module" Module;
    Ok (RState (rows a) c true)
  else if (Z.land word SignatureMask =? Data) && ropen a then
    c ← row_data MG_CNCS ADC_to_Ch (cur a) word;
    Ok (RState (rows a) c (ropen a))
  else if (Z.land word SignatureMask =? EoE) && ropen a then
    let ToF := Z.land word TimeStampMask in
    c ← row_setitem MG_CNCS (cur a) "ToF" ToF;
    Ok (RState (rows a ++ [c]) ∅ false)
  else Ok a.

Fixpoint row_loop (MG_CNCS : bool) (ADC_to_Ch : gmap string (gmap Z scalar))
    (a : rstate) (data : list Z) : result rstate :=
  match data with
  | [] => Ok a
  | word :: rest =>
      a' ← row_body MG_CNCS ADC_to_Ch a word;
      row_loop MG_CNCS ADC_to_Ch a' rest
  end.

(** The column of [key] in an array of [size] cells: the committed rows,
    the row being filled, zeros. *)
Definition column_of (size : nat) (rs : list (gmap string Z)) (c : gmap string Z)
    (key : string) : list Z :=
  take size (((λ r, row_get r key) <$> rs) ++ row_get c key :: replicate size 0).

(** The table of a list of rows: one column for each key of [events]. *)
Definition table_of (MG_CNCS : bool) (rs : list (gmap string Z)) : gmap string (list Z) :=
  map_imap (λ key _, Some ((λ r, row_get r key) <$> rs)) (initial_events MG_CNCS 0).

(** [ev] holds the columns of the rows [rs] and of the row [c]. *)
Definition represents (MG_CNCS : bool) (size : nat) (rs : list (gmap string Z))
    (c : gmap string Z) (ev : gmap string (list Z)) : Prop :=
  ∀ key, ev !! key =
    if decide (key ∈ columns MG_CNCS) then Some (column_of size rs c key) else None.

Definition refines (MG_CNCS : bool) (size : nat) (st : state) (a : rstate) : Prop :=
  index st = length (rows a) ∧ isOpen st = ropen a ∧
  represents MG_CNCS size (rows a) (cur a) (events st).

(** ** More vocabulary: events of a stream, tables side by side *)

Definition count_Header (data : list Z) : nat :=
  length (filter (λ w, is_Header w = true) data).

(** The events a stream closes, in order: the module of the last Header
    before the End-of-Event and the time of flight of the End-of-Event; [m]
    is the module of the open event, [None] when no event is open. *)
Fixpoint closed_events (m : option Z) (data : list Z) : list (Z * Z) :=
  match data with
  | [] => []
  | word :: rest =>
      if is_Header word then closed_events (Some (get_Module word)) rest
      else if is_EoE word then
        match m with
        | Some module => (module, get_ToF word) :: closed_events None rest
        | None => closed_events None rest
        end
      else closed_events m rest
  end.

(** A word with one of the three signatures the loop tests. *)
Definition has_signature (word : Z) : bool :=
  is_Header word || is_Data word || is_EoE word.

(** The rows of [t2] under the rows of [t1], column by column. *)
Definition stack (t1 t2 : gmap string (list Z)) : gmap string (list Z) :=
  map_zip_with app t1 t2.

(** What a cell of column [key] may hold: a Module is an 8-bit value, a ToF
    a 30-bit value, an attribute a 14-bit adc, and a channel column 0 or
    the integer of an entry of one of the tables of [ADC_to_Ch] at a 14-bit
    adc. *)
Definition value_ok (MG_CNCS : bool) (ADC_to_Ch : gmap string (gmap Z scalar))
    (key : string) (v : Z) : Prop :=
  (key = "Module" → 0 ≤ v < 2 ^ 8) ∧
  (key = "ToF" → 0 ≤ v < 2 ^ 30) ∧
  (key ∈ attributes MG_CNCS → 0 ≤ v < 2 ^ 14) ∧
  (key ∈ channels MG_CNCS →
   v = 0 ∨ ∃ w_or_g table adc physical_Ch,
     ADC_to_Ch !! w_or_g = Some table ∧ 0 ≤ adc < 2 ^ 14 ∧
     table !! adc = Some physical_Ch ∧ int64_of physical_Ch = Ok v).

(** What a cell holds after [v] is stored in it, when the store does not
    raise. *)
Definition stored (v : scalar) : option Z :=
  match int64_of v with Ok z => Some z | Raise _ => None end.

(** The last Data word of [body] whose channel is [k]. *)
Definition last_Data (k : nat) (body : list Z) : option Z :=
  last (filter (λ d, is_Data d = true ∧ Z.to_nat (get_Channel d) = k) body).

(** [ADC_to_Ch'] differs from [ADC_to_Ch] at most in the table of [key],
    and has the same keys. *)
Definition same_but (key : string) (ADC_to_Ch ADC_to_Ch' : gmap string (gmap Z scalar)) : Prop :=
  ∀ k, (k ≠ key → ADC_to_Ch' !! k = ADC_to_Ch !! k) ∧
       (is_Some (ADC_to_Ch' !! k) ↔ is_Some (ADC_to_Ch !! k)).

(** The bounds of the delimiters are raw values, within the fourteen bits
    of an ADC value.  On such bounds [np.linspace] gives finite samples and
    [np.arange] ranges of at most 2^14 values. *)
Definition raw_bounds (delimiters_table : list (string * list (Q * Q))) : Prop :=
  Forall (λ item : string * list (Q * Q),
            Forall (λ d : Q * Q, (0 <= d.1 <= 16384)%Q ∧ (0 <= d.2 <= 16384)%Q) item.2)
         delimiters_table.

(** What [get_ADC_to_Ch] needs of an item of the delimiters table: a key
    of [layers_dict] and, when there are delimiters, a channel for every
    layer of every delimiter. *)
Definition item_ok (channel_mapping : gmap string (list scalar))
    (item : string * list (Q * Q)) : Prop :=
  ∃ layers, layers_dict !! item.1 = Some layers ∧
    (item.2 = [] ∨
     ∃ mapping, channel_mapping !! item.1 = Some mapping ∧
       (length item.2 * layers ≤ length mapping)%nat).

(** * Properties *)

(** ** The result monad *)


Lemma bind_Ok {A B : Type} (f : A → result B) (a : A) : Ok a ≫= f = f a.
Proof. reflexivity. Qed.

Lemma bind_Raise {A B : Type} (f : A → result B) (e : exn) : Raise e ≫= f = Raise e.
Proof. reflexivity. Qed.

Lemma bind_Ok_inv {A B : Type} (f : A → result B) (m : result A) (b : B) :
  m ≫= f = Ok b → ∃ a, m = Ok a ∧ f a = Ok b.
Proof. destruct m as [a|e]; [eauto | discriminate]. Qed.

(** ** The columns of the initial dict *)

Lemma add_columns_lookup (names : list string) (size : nat)
    (ev : gmap string (list Z)) (key : string) :
  add_columns names size ev !! key =
    if decide (key ∈ names) then Some (replicate size 0) else ev !! key.
Proof.
  revert ev. induction names as [|name names IH]; intros ev.
  - rewrite decide_False; [done | apply not_elem_of_nil].
  - change (add_columns (name :: names) size ev)
      with (add_columns names size (<[name:=replicate size 0]> ev)).
    rewrite IH.
    destruct (decide (key ∈ names)) as [Hin|Hnin].
    + rewrite decide_True; [done | by right].
    + destruct (decide (key = name)) as [->|Hne].
      * rewrite lookup_insert_eq. rewrite decide_True; [done | by left].
      * rewrite lookup_insert_ne by done.
        rewrite decide_False; [done |]. intros [?|?]%elem_of_cons; done.
Qed.

Lemma elem_of_columns (MG_CNCS : bool) (key : string) :
  key ∈ columns MG_CNCS ↔
    key = "Module" ∨ key = "ToF" ∨ key ∈ attributes MG_CNCS ∨ key ∈ channels MG_CNCS.
Proof. unfold columns. rewrite !elem_of_cons, elem_of_app. tauto. Qed.

Lemma initial_events_lookup (MG_CNCS : bool) (size : nat) (key : string) :
  initial_events MG_CNCS size !! key =
    if decide (key ∈ columns MG_CNCS) then Some (replicate size 0) else None.
Proof.
  unfold initial_events. rewrite !add_columns_lookup.
  destruct (decide (key ∈ channels MG_CNCS)) as [Hc|Hc].
  { rewrite decide_True; [done | apply elem_of_columns; tauto]. }
  destruct (decide (key ∈ attributes MG_CNCS)) as [Ha|Ha].
  { rewrite decide_True; [done | apply elem_of_columns; tauto]. }
  destruct (decide (key = "ToF")) as [->|Ht].
  { rewrite lookup_insert_eq. rewrite decide_True; [done | apply elem_of_columns; tauto]. }
  rewrite lookup_insert_ne by done.
  destruct (decide (key = "Module")) as [->|Hm].
  { rewrite lookup_insert_eq. rewrite decide_True; [done | apply elem_of_columns; tauto]. }
  rewrite lookup_insert_ne by done. rewrite lookup_empty.
  rewrite decide_False; [done | rewrite elem_of_columns; tauto].
Qed.

(** ** Columns of rows *)

Lemma take_app_zeros (l : list Z) (n m : nat) :
  (n ≤ m)%nat → take n (l ++ replicate m 0) = take n (l ++ replicate n 0).
Proof.
  intros Hnm. rewrite !take_app, !take_replicate. do 2 f_equal. lia.
Qed.

Lemma column_of_length (size : nat) (rs : list (gmap string Z)) (c : gmap string Z)
    (key : string) : length (column_of size rs c key) = size.
Proof.
  unfold column_of. rewrite length_take, length_app. simpl.
  rewrite length_replicate. lia.
Qed.

Lemma column_of_insert (size : nat) (rs : list (gmap string Z)) (c : gmap string Z)
    (key : string) (v : Z) :
  (length rs < size)%nat →
  <[length rs:=v]> (column_of size rs c key) = column_of size rs (<[key:=v]> c) key.
Proof.
  intros Hlt. unfold column_of, row_get at 2 4. rewrite lookup_insert_eq. simpl.
  rewrite <- take_insert_lt by lia. f_equal.
  rewrite insert_app_r_alt by (rewrite length_fmap; lia).
  rewrite length_fmap, Nat.sub_diag. done.
Qed.

Lemma column_of_insert_ne (size : nat) (rs : list (gmap string Z)) (c : gmap string Z)
    (key key' : string) (v : Z) :
  key' ≠ key → column_of size rs (<[key':=v]> c) key = column_of size rs c key.
Proof.
  intros Hne. unfold column_of, row_get. by rewrite lookup_insert_ne.
Qed.

Lemma column_of_commit (size : nat) (rs : list (gmap string Z)) (c : gmap string Z)
    (key : string) :
  column_of size (rs ++ [c]) ∅ key = column_of size rs c key.
Proof.
  unfold column_of. rewrite fmap_app. simpl. rewrite <- app_assoc. simpl.
  unfold row_get at 3. rewrite lookup_empty. simpl.
  change (?l ++ ?x :: 0 :: replicate size 0)
    with (l ++ [x] ++ replicate (S size) 0).
  change (?l ++ ?x :: replicate size 0) with (l ++ [x] ++ replicate size 0).
  rewrite !app_assoc. apply take_app_zeros. lia.
Qed.

Lemma column_of_take (size : nat) (rs : list (gmap string Z)) (c : gmap string Z)
    (key : string) :
  (length rs ≤ size)%nat →
  take (length rs) (column_of size rs c key) = (λ r, row_get r key) <$> rs.
Proof.
  intros Hle. unfold column_of. rewrite take_take, Nat.min_l by done.
  apply take_app_length'. by rewrite length_fmap.
Qed.

(** ** The arrays hold the rows *)

Lemma represents_initial (MG_CNCS : bool) (size : nat) :
  represents MG_CNCS size [] ∅ (initial_events MG_CNCS size).
Proof.
  intros key. rewrite initial_events_lookup. case_decide; [|done].
  f_equal. unfold column_of, row_get. rewrite lookup_empty. simpl.
  change (0 :: replicate size 0) with (replicate (S size) 0).
  rewrite take_replicate. f_equal. lia.
Qed.

Lemma setitem_represents (MG_CNCS : bool) (size : nat) (rs : list (gmap string Z))
    (c : gmap string Z) (ev : gmap string (list Z)) (key : string) (v : scalar) :
  represents MG_CNCS size rs c ev → (length rs < size)%nat →
  match row_setitem MG_CNCS c key v with
  | Ok c' => ∃ ev', events_setitem ev key (length rs) v = Ok ev' ∧
                    represents MG_CNCS size rs c' ev'
  | Raise e => events_setitem ev key (length rs) v = Raise e
  end.
Proof.
  intros Hrep Hlt. unfold row_setitem, events_setitem, dict_getitem.
  rewrite (Hrep key). destruct (decide (key ∈ columns MG_CNCS)) as [Hin|Hnin]; [|done].
  rewrite bind_Ok. unfold array_setitem.
  rewrite decide_True by (rewrite column_of_length; lia).
  destruct (int64_of v) as [z|e]; [|done].
  rewrite !bind_Ok. eexists; split; [done|].
  intros key'. destruct (decide (key = key')) as [<-|Hne].
  - rewrite lookup_insert_eq, decide_True by done.
    by rewrite column_of_insert.
  - rewrite lookup_insert_ne by done. rewrite (Hrep key').
    case_decide; [|done]. by rewrite column_of_insert_ne.
Qed.

Lemma represents_commit (MG_CNCS : bool) (size : nat) (rs : list (gmap string Z))
    (c : gmap string Z) (ev : gmap string (list Z)) :
  represents MG_CNCS size rs c ev → represents MG_CNCS size (rs ++ [c]) ∅ ev.
Proof.
  intros Hrep key. rewrite (Hrep key). case_decide; [|done].
  by rewrite column_of_commit.
Qed.

(** ** The loop on arrays and the loop on rows agree *)

Lemma row_body_rows (MG_CNCS : bool) (ADC_to_Ch : gmap string (gmap Z scalar))
    (a a' : rstate) (word : Z) :
  row_body MG_CNCS ADC_to_Ch a word = Ok a' →
  rows a' = rows a ∨ ∃ c, rows a' = rows a ++ [c] ∧ cur a' = ∅ ∧ ropen a' = false.
Proof.
  unfold row_body.
  destruct (Z.land word SignatureMask =? Header).
  { destruct (row_setitem _ _ _ _); simpl; [|done]. intros [= <-]. by left. }
  destruct ((Z.land word SignatureMask =? Data) && ropen a).
  { destruct (row_data _ _ _ _); simpl; [|done]. intros [= <-]. by left. }
  destruct ((Z.land word SignatureMask =? EoE) && ropen a).
  { destruct (row_setitem _ _ _ _); simpl; [|done]. intros [= <-]. right. eauto. }
  intros [= <-]. by left.
Qed.

Lemma row_body_length (MG_CNCS : bool) (ADC_to_Ch : gmap string (gmap Z scalar))
    (a a' : rstate) (word : Z) :
  row_body MG_CNCS ADC_to_Ch a word = Ok a' →
  (length (rows a') ≤ S (length (rows a)))%nat.
Proof.
  intros [->|(c & -> & _)]%row_body_rows; [lia|].
  rewrite length_app. simpl. lia.
Qed.

Local Opaque row_setitem events_setitem py_getitem dict_getitem.

Local Ltac close_refines :=
  simpl; eexists; split; [reflexivity|]; simpl; split_and!; done.

Lemma body_refines (MG_CNCS : bool) (ADC_to_Ch : gmap string (gmap Z scalar))
    (size : nat) (st : state) (a : rstate) (word : Z) :
  refines MG_CNCS size st a → (length (rows a) < size)%nat →
  match row_body MG_CNCS ADC_to_Ch a word with
  | Ok a' => ∃ st', body MG_CNCS ADC_to_Ch st word = Ok st' ∧ refines MG_CNCS size st' a'
  | Raise e => body MG_CNCS ADC_to_Ch st word = Raise e
  end.
Proof.
  destruct st as [ev o i], a as [rs c o']. unfold refines. simpl.
  intros (-> & -> & Hrep) Hlt. unfold body, row_body. simpl.
  destruct (Z.land word SignatureMask =? Header).
  { pose proof (setitem_represents _ _ _ _ _ "Module"
      (Z.shiftr (Z.land word ModuleMask) ModuleShift) Hrep Hlt) as Hs.
    destruct (row_setitem _ _ _ _) as [c'|e]; simpl.
    - destruct Hs as (ev' & -> & Hrep'). close_refines.
    - by rewrite Hs. }
  destruct ((Z.land word SignatureMask =? Data) && o').
  { unfold row_data. simpl.
    destruct (py_getitem _ _) as [attribute|e]; simpl; [|done].
    pose proof (setitem_represents _ _ _ _ _ attribute
      (Z.land word ADCMask) Hrep Hlt) as Hs.
    destruct (row_setitem _ _ _ _) as [c'|e]; simpl; [|by rewrite Hs].
    destruct Hs as (ev' & -> & Hrep'). simpl.
    destruct (dict_getitem wires_or_grids _) as [w_or_g|e]; simpl; [|done].
    destruct (String.length attribute =? 8)%nat; [|close_refines].
    destruct (dict_getitem ADC_to_Ch _) as [table|e]; simpl; [|done].
    destruct (dict_getitem table _) as [physical_Ch|e]; simpl; [|done].
    pose proof (setitem_represents _ _ _ _ _
      (String.append (slice_0_3 attribute) (slice_last2 attribute))
      physical_Ch Hrep' Hlt) as Hs.
    destruct (row_setitem _ _ _ _) as [c''|e]; simpl; [|by rewrite Hs].
    destruct Hs as (ev'' & -> & Hrep''). close_refines. }
  destruct ((Z.land word SignatureMask =? EoE) && o').
  { pose proof (setitem_represents _ _ _ _ _ "ToF"
      (Z.land word TimeStampMask) Hrep Hlt) as Hs.
    destruct (row_setitem _ _ _ _) as [c'|e]; simpl; [|by rewrite Hs].
    destruct Hs as (ev' & -> & Hrep'). simpl.
    eexists; split; [done|]. simpl. rewrite length_app. simpl.
    split_and!; [lia | done | by apply represents_commit]. }
  simpl. eauto.
Qed.

Local Transparent row_setitem events_setitem py_getitem dict_getitem.

Lemma loop_refines (MG_CNCS : bool) (ADC_to_Ch : gmap string (gmap Z scalar))
    (size : nat) (data : list Z) (st : state) (a : rstate) :
  refines MG_CNCS size st a → (length (rows a) + length data ≤ size)%nat →
  match row_loop MG_CNCS ADC_to_Ch a data with
  | Ok a' => ∃ st', loop MG_CNCS ADC_to_Ch st data = Ok st' ∧ refines MG_CNCS size st' a'
  | Raise e => loop MG_CNCS ADC_to_Ch st data = Raise e
  end.
Proof.
  revert st a. induction data as [|word rest IH]; intros st a Href Hlen; simpl.
  { eauto. }
  simpl in Hlen.
  pose proof (body_refines MG_CNCS ADC_to_Ch size st a word Href) as Hb.
  destruct (row_body MG_CNCS ADC_to_Ch a word) as [a'|e] eqn:Hrow; simpl.
  - destruct Hb as (st' & -> & Href'); [lia|]. simpl.
    apply IH; [done|]. apply row_body_length in Hrow. lia.
  - rewrite Hb by lia. done.
Qed.

Lemma row_loop_length (MG_CNCS : bool) (ADC_to_Ch : gmap string (gmap Z scalar))
    (data : list Z) (a a' : rstate) :
  row_loop MG_CNCS ADC_to_Ch a data = Ok a' →
  (length (rows a') ≤ length (rows a) + length data)%nat.
Proof.
  revert a. induction data as [|word rest IH]; intros a; simpl.
  - intros [= <-]. lia.
  - intros (a1 & Hb & Hl)%bind_Ok_inv. apply row_body_length in Hb.
    apply IH in Hl. lia.
Qed.

Lemma table_of_lookup (MG_CNCS : bool) (rs : list (gmap string Z)) (key : string) :
  table_of MG_CNCS rs !! key =
    if decide (key ∈ columns MG_CNCS) then Some ((λ r, row_get r key) <$> rs) else None.
Proof.
  unfold table_of. rewrite map_lookup_imap, initial_events_lookup.
  by case_decide.
Qed.

(** [cluster_data] returns the table of the rows of the loop on rows, and
    raises where that loop raises. *)
Lemma cluster_data_rows (data : list Z) (ADC_to_Ch : gmap string (gmap Z scalar))
    (MG_CNCS : bool) :
  cluster_data data ADC_to_Ch MG_CNCS =
    (a ← row_loop MG_CNCS ADC_to_Ch (RState [] ∅ false) data;
     Ok (table_of MG_CNCS (rows a))).
Proof.
  unfold cluster_data.
  pose proof (loop_refines MG_CNCS ADC_to_Ch (length data) data
    (State (initial_events MG_CNCS (length data)) false 0) (RState [] ∅ false)) as Hl.
  destruct (row_loop _ _ _ _) as [a|e] eqn:Hrow; simpl.
  - destruct Hl as (st & -> & Hi & _ & Hrep).
    { split_and!; [done | done | apply represents_initial]. }
    { simpl. lia. }
    simpl. f_equal. apply map_eq. intros key.
    rewrite lookup_fmap, (Hrep key), table_of_lookup.
    case_decide; [|done]. simpl. f_equal. rewrite Hi.
    apply column_of_take. apply row_loop_length in Hrow. simpl in Hrow. lia.
  - rewrite Hl; [done | | simpl; lia].
    split_and!; [done | done | apply represents_initial].
Qed.

(** ** Bit fields *)

Lemma get_ADC_spec (w : Z) : get_ADC w = w mod 2 ^ 14.
Proof.
  unfold get_ADC, ADCMask. change 0x00003FFF with (Z.ones 14).
  apply Z.land_ones. lia.
Qed.

Lemma get_ToF_spec (w : Z) : get_ToF w = w mod 2 ^ 30.
Proof.
  unfold get_ToF, TimeStampMask. change 0x3FFFFFFF with (Z.ones 30).
  apply Z.land_ones. lia.
Qed.

Lemma get_Channel_spec (w : Z) : get_Channel w = (w / 2 ^ 16) mod 2 ^ 5.
Proof.
  unfold get_Channel, ChannelMask, ChannelShift. rewrite Z.shiftr_land.
  change (Z.shiftr 0x001F0000 16) with (Z.ones 5).
  rewrite Z.land_ones, Z.shiftr_div_pow2 by lia. done.
Qed.

Lemma get_Module_spec (w : Z) : get_Module w = (w / 2 ^ 16) mod 2 ^ 8.
Proof.
  unfold get_Module, ModuleMask, ModuleShift. rewrite Z.shiftr_land.
  change (Z.shiftr 0x00FF0000 16) with (Z.ones 8).
  rewrite Z.land_ones, Z.shiftr_div_pow2 by lia. done.
Qed.

Lemma get_Channel_range (w : Z) : 0 ≤ get_Channel w < 32.
Proof. rewrite get_Channel_spec. apply Z.mod_pos_bound. lia. Qed.

Lemma get_ADC_range (w : Z) : 0 ≤ get_ADC w < 16384.
Proof. rewrite get_ADC_spec. apply Z.mod_pos_bound. lia. Qed.

Lemma get_Module_range (w : Z) : 0 ≤ get_Module w < 256.
Proof. rewrite get_Module_spec. apply Z.mod_pos_bound. lia. Qed.

Lemma get_ToF_range (w : Z) : 0 ≤ get_ToF w < 2 ^ 30.
Proof. rewrite get_ToF_spec. apply Z.mod_pos_bound. lia. Qed.

(** A mask [m] shifted by [n] bits keeps the bits [n] and up that [m]
    selects. *)
Lemma land_shiftl_mask (w m n : Z) :
  0 ≤ n → Z.land w (Z.shiftl m n) = Z.shiftl (Z.land (Z.shiftr w n) m) n.
Proof.
  intros Hn. apply Z.bits_inj'. intros i Hi.
  rewrite Z.land_spec. destruct (Z.lt_ge_cases i n) as [Hlt|Hge].
  - rewrite !Z.shiftl_spec_low by lia. apply andb_false_r.
  - rewrite !Z.shiftl_spec by lia. rewrite Z.land_spec, Z.shiftr_spec by lia.
    do 2 f_equal. lia.
Qed.

(** The signature keeps bits 30 and 31. *)
Lemma signature_spec (w : Z) :
  Z.land w SignatureMask = Z.shiftl (Z.land (Z.shiftr w 30) 3) 30.
Proof.
  unfold SignatureMask. change 0xC0000000 with (Z.shiftl 3 30).
  by apply land_shiftl_mask.
Qed.

Lemma signature_word32 (w : Z) :
  0 ≤ w < 2 ^ 32 → Z.land w SignatureMask = w / 2 ^ 30 * 2 ^ 30 ∧ 0 ≤ w / 2 ^ 30 < 4.
Proof.
  intros Hw. rewrite signature_spec, Z.shiftr_div_pow2 by lia.
  assert (0 ≤ w / 2 ^ 30 < 4) as Hq.
  { split; [apply Z.div_pos; lia | apply Z.div_lt_upper_bound; lia]. }
  split; [|done].
  change 3 with (Z.ones 2). rewrite Z.land_ones by lia.
  rewrite Z.mod_small by lia. rewrite Z.shiftl_mul_pow2 by lia. done.
Qed.

(** An Extended-Timestamp word: the sub-signature [DataExTs] and a payload
    of sixteen bits. *)
Lemma ExTs_word_fields (p : Z) :
  0 ≤ p < 2 ^ 16 →
  Z.land (DataExTs + p) SignatureMask = Data ∧
  Z.land (DataExTs + p) SubSignatureMask = DataExTs ∧
  get_Channel (DataExTs + p) = 0 ∧ get_ADC (DataExTs + p) = p mod 2 ^ 14.
Proof.
  intros Hp. unfold DataExTs. change (2 ^ 16) with 65536 in Hp.
  assert (∀ k q, 0 < k → 0x04800000 = q * k → 65536 ≤ k →
            (0x04800000 + p) / k = q) as Hdiv.
  { intros k q Hk Hq Hle. symmetry. apply Z.div_unique with (r := p); lia. }
  split_and!.
  - rewrite signature_spec, Z.shiftr_div_pow2 by lia.
    rewrite Z.div_small by lia. reflexivity.
  - unfold SubSignatureMask. change 0x3FE00000 with (Z.shiftl 511 21).
    rewrite land_shiftl_mask, Z.shiftr_div_pow2 by lia.
    rewrite (Hdiv (2 ^ 21) 36) by lia. reflexivity.
  - rewrite get_Channel_spec. rewrite (Hdiv (2 ^ 16) 1152) by lia. reflexivity.
  - rewrite get_ADC_spec. change 0x04800000 with (4608 * 2 ^ 14).
    rewrite Z.add_comm. apply Z.mod_add. lia.
Qed.

Lemma body_classify (MG_CNCS : bool) (ADC_to_Ch : gmap string (gmap Z scalar))
    (st : state) (w : Z) :
  body MG_CNCS ADC_to_Ch st w = handle MG_CNCS ADC_to_Ch st (classify w).
Proof.
  unfold body, classify, handle.
  destruct (Z.land w SignatureMask =? Header); [done|].
  destruct (Z.land w SignatureMask =? Data); simpl.
  { destruct (isOpen st); [done|]. by rewrite andb_false_r. }
  destruct (Z.land w SignatureMask =? EoE); simpl; [|done].
  by destruct (isOpen st).
Qed.

(** C1. The kind of a 32-bit word is decided by its two top bits alone:
    01 is a Header, 00 a Data word, 11 an End-of-Event and 10 none of
    them; the fields are the masked and shifted bits of the word, that is
    module = bits 16-23, channel = bits 16-20, adc = bits 0-13 and
    timeOfFlight = bits 0-29; and the loop body of [cluster_data] acts on a
    word through its kind. *)
Theorem classify_word32 (w : Z) :
  0 ≤ w < 2 ^ 32 →
  classify w =
    (if Z.land w 0xC0000000 =? 0x40000000 then
       KHeader (Z.shiftr (Z.land w 0x00FF0000) 16)
     else if Z.land w 0xC0000000 =? 0x00000000 then
       KData (Z.shiftr (Z.land w 0x001F0000) 16) (Z.land w 0x00003FFF)
     else if Z.land w 0xC0000000 =? 0xC0000000 then
       KEndOfEvent (Z.land w 0x3FFFFFFF)
     else KOther)
  ∧ classify w =
    match w / 2 ^ 30 with
    | 0 => KData ((w / 2 ^ 16) mod 2 ^ 5) (w mod 2 ^ 14)
    | 1 => KHeader ((w / 2 ^ 16) mod 2 ^ 8)
    | 3 => KEndOfEvent (w mod 2 ^ 30)
    | _ => KOther
    end
  ∧ ∀ MG_CNCS ADC_to_Ch st,
      body MG_CNCS ADC_to_Ch st w = handle MG_CNCS ADC_to_Ch st (classify w).
Proof.
  intros Hw. split; [reflexivity|]. split; [|intros; apply body_classify].
  unfold classify. destruct (signature_word32 w Hw) as [-> Hq].
  fold (get_Module w) (get_Channel w) (get_ADC w) (get_ToF w).
  rewrite get_Module_spec, get_Channel_spec, get_ADC_spec, get_ToF_spec.
  assert (w / 2 ^ 30 = 0 ∨ w / 2 ^ 30 = 1 ∨ w / 2 ^ 30 = 2 ∨ w / 2 ^ 30 = 3)
    as [-> | [-> | [-> | ->]]] by lia; reflexivity.
Qed.

Lemma classify_word32_witness :
  0 ≤ 0x40050000 < 2 ^ 32 ∧ classify 0x40050000 = KHeader 5.
Proof.
  split; [lia|].
  destruct (classify_word32 0x40050000) as (_ & -> & _); [lia | reflexivity].
Defined.

(** ** Signatures exclude each other *)

Lemma is_Header_true (w : Z) : is_Header w = true → is_Data w = false ∧ is_EoE w = false.
Proof.
  unfold is_Header, is_Data, is_EoE. intros ->%Z.eqb_eq. done.
Qed.

Lemma is_Data_true (w : Z) : is_Data w = true → is_Header w = false ∧ is_EoE w = false.
Proof.
  unfold is_Header, is_Data, is_EoE. intros ->%Z.eqb_eq. done.
Qed.

Lemma is_EoE_true (w : Z) : is_EoE w = true → is_Header w = false ∧ is_Data w = false.
Proof.
  unfold is_Header, is_Data, is_EoE. intros ->%Z.eqb_eq. done.
Qed.

(** ** The layouts *)

Lemma py_getitem_nonneg {A : Type} (l : list A) (i : Z) :
  0 ≤ i →
  py_getitem l i = match l !! Z.to_nat i with Some x => Ok x | None => Raise IndexError end.
Proof.
  intros Hi. unfold py_getitem.
  destruct (i <? 0) eqn:Hneg; [lia|].
  destruct (0 <=? i) eqn:Hpos; [|lia]. simpl.
  destruct (i <? Z.of_nat (length l)) eqn:Hlt; [done|].
  rewrite lookup_ge_None_2; [done | lia].
Qed.

Lemma attributes_getitem (MG_CNCS : bool) (w : Z) :
  py_getitem (attributes MG_CNCS) (get_Channel w) =
    match attributes MG_CNCS !! Z.to_nat (get_Channel w) with
    | Some attribute => Ok attribute
    | None => Raise IndexError
    end.
Proof. apply py_getitem_nonneg. apply get_Channel_range. Qed.

Lemma attributes_ok (MG_CNCS : bool) : Forall (attribute_ok MG_CNCS) (attributes MG_CNCS).
Proof.
  destruct MG_CNCS; repeat constructor; try discriminate;
    try (by eexists); try (apply bool_decide_unpack; vm_compute; exact I).
Qed.

(** ** One word, on rows *)

Lemma py_int_inject_Z (z : Z) : py_int (inject_Z z) = z.
Proof.
  unfold py_int. rewrite Qfloor_Z, Qceiling_Z. by destruct (Qle_bool 0 (inject_Z z)).
Qed.

(** A Python int that fits the cell is stored as it is. *)
Lemma int64_of_int (z : Z) : - 2 ^ 63 ≤ z < 2 ^ 63 → int64_of (of_int z) = Ok z.
Proof.
  intros [Hlo Hhi]. unfold int64_of, of_int. rewrite py_int_inject_Z.
  apply Z.leb_le in Hlo. apply Z.ltb_lt in Hhi. by rewrite Hlo, Hhi.
Qed.

(** The integer a store keeps fits the cell. *)
Lemma int64_of_range (v : scalar) (z : Z) : int64_of v = Ok z → - 2 ^ 63 ≤ z < 2 ^ 63.
Proof.
  destruct v as [| |x]; [done..|]. unfold int64_of.
  destruct (- 2 ^ 63 <=? py_int x) eqn:Hlo; [|done].
  destruct (py_int x <? 2 ^ 63) eqn:Hhi; [|done].
  intros [= <-]. apply Z.leb_le in Hlo. apply Z.ltb_lt in Hhi. done.
Qed.

Lemma row_setitem_column (MG_CNCS : bool) (c : gmap string Z) (key : string) (v : scalar) :
  key ∈ columns MG_CNCS →
  row_setitem MG_CNCS c key v = (z ← int64_of v; Ok (<[key:=z]> c)).
Proof. intros Hin. unfold row_setitem. by rewrite decide_True. Qed.

Lemma row_setitem_int (MG_CNCS : bool) (c : gmap string Z) (key : string) (z : Z) :
  key ∈ columns MG_CNCS → - 2 ^ 63 ≤ z < 2 ^ 63 →
  row_setitem MG_CNCS c key z = Ok (<[key:=z]> c).
Proof. intros Hin Hz. by rewrite row_setitem_column, int64_of_int. Qed.

Lemma row_setitem_ADC (MG_CNCS : bool) (c : gmap string Z) (key : string) (w : Z) :
  key ∈ columns MG_CNCS →
  row_setitem MG_CNCS c key (get_ADC w) = Ok (<[key:=get_ADC w]> c).
Proof. intros Hin. apply row_setitem_int; [done|]. pose proof (get_ADC_range w). lia. Qed.

Lemma row_body_Header (MG_CNCS : bool) (ADC_to_Ch : gmap string (gmap Z scalar))
    (a : rstate) (w : Z) :
  is_Header w = true →
  row_body MG_CNCS ADC_to_Ch a w =
    Ok (RState (rows a) (<["Module":=get_Module w]> (cur a)) true).
Proof.
  unfold is_Header, row_body. intros ->. fold (get_Module w).
  rewrite row_setitem_int; [done | apply elem_of_columns; tauto |].
  pose proof (get_Module_range w). lia.
Qed.

Lemma row_body_Data (MG_CNCS : bool) (ADC_to_Ch : gmap string (gmap Z scalar))
    (a : rstate) (w : Z) :
  is_Data w = true → ropen a = true →
  row_body MG_CNCS ADC_to_Ch a w =
    (c ← row_data MG_CNCS ADC_to_Ch (cur a) w; Ok (RState (rows a) c true)).
Proof.
  intros Hd Ho. destruct (is_Data_true w Hd) as [Hh _].
  unfold is_Header, is_Data in *. unfold row_body. by rewrite Hh, Hd, Ho.
Qed.

Lemma row_body_EoE (MG_CNCS : bool) (ADC_to_Ch : gmap string (gmap Z scalar))
    (a : rstate) (w : Z) :
  is_EoE w = true → ropen a = true →
  row_body MG_CNCS ADC_to_Ch a w =
    Ok (RState (rows a ++ [<["ToF":=get_ToF w]> (cur a)]) ∅ false).
Proof.
  intros He Ho. destruct (is_EoE_true w He) as [Hh Hd].
  unfold is_Header, is_Data, is_EoE in *. unfold row_body.
  rewrite Hh, Hd, He, Ho. cbn [andb]. fold (get_ToF w).
  rewrite row_setitem_int; [done | apply elem_of_columns; tauto |].
  pose proof (get_ToF_range w). lia.
Qed.

Lemma row_body_closed (MG_CNCS : bool) (ADC_to_Ch : gmap string (gmap Z scalar))
    (a : rstate) (w : Z) :
  is_Header w = false → ropen a = false → row_body MG_CNCS ADC_to_Ch a w = Ok a.
Proof.
  unfold is_Header, row_body. intros -> ->. by rewrite !andb_false_r.
Qed.

Lemma row_body_Other (MG_CNCS : bool) (ADC_to_Ch : gmap string (gmap Z scalar))
    (a : rstate) (w : Z) :
  is_Header w = false → is_Data w = false → is_EoE w = false →
  row_body MG_CNCS ADC_to_Ch a w = Ok a.
Proof. unfold is_Header, is_Data, is_EoE, row_body. by intros -> -> ->. Qed.

Lemma dict_getitem_Some `{Countable K} {V : Type} (d : gmap K V) (k : K) (v : V) :
  d !! k = Some v → dict_getitem d k = Ok v.
Proof. unfold dict_getitem. by intros ->. Qed.

Lemma dict_getitem_None `{Countable K} {V : Type} (d : gmap K V) (k : K) :
  d !! k = None → dict_getitem d k = Raise KeyError.
Proof. unfold dict_getitem. by intros ->. Qed.

(** The Data branch, written out: the raw value goes to the column of the
    attribute and, for an attribute with a name of eight characters, the
    entry of the calibration dict to its channel column. *)
Lemma row_data_eq (MG_CNCS : bool) (ADC_to_Ch : gmap string (gmap Z scalar))
    (c : gmap string Z) (w : Z) (attribute w_or_g : string) :
  attributes MG_CNCS !! Z.to_nat (get_Channel w) = Some attribute →
  wires_or_grids !! slice_first attribute = Some w_or_g →
  row_data MG_CNCS ADC_to_Ch c w =
    if (String.length attribute =? 8)%nat then
      match ADC_to_Ch !! w_or_g ≫= (λ table, table !! get_ADC w) with
      | Some physical_Ch =>
          z ← int64_of physical_Ch;
          Ok (<[String.append (slice_0_3 attribute) (slice_last2 attribute):=z]>
                (<[attribute:=get_ADC w]> c))
      | None => Raise KeyError
      end
    else Ok (<[attribute:=get_ADC w]> c).
Proof.
  intros Hat Hg. unfold row_data. fold (get_Channel w) (get_ADC w).
  pose proof (attributes_ok MG_CNCS) as Hall. rewrite Forall_forall in Hall.
  destruct (Hall attribute) as (Hcol & _ & _ & _ & Hch).
  { by eapply list_elem_of_lookup_2. }
  rewrite attributes_getitem, Hat, bind_Ok.
  rewrite row_setitem_ADC, bind_Ok by done.
  rewrite (dict_getitem_Some _ _ _ Hg), bind_Ok.
  destruct (String.length attribute =? 8)%nat eqn:Hlen; [|done].
  destruct (Hch eq_refl) as (Hin & _).
  destruct (ADC_to_Ch !! w_or_g) as [table|] eqn:Htab; cbn [mbind option_bind].
  2:{ by rewrite (dict_getitem_None _ _ Htab). }
  rewrite (dict_getitem_Some _ _ _ Htab), bind_Ok.
  destruct (table !! get_ADC w) as [physical_Ch|] eqn:Hadc.
  2:{ by rewrite (dict_getitem_None _ _ Hadc). }
  rewrite (dict_getitem_Some _ _ _ Hadc), bind_Ok.
  by rewrite row_setitem_column.
Qed.

Lemma row_data_no_attribute (MG_CNCS : bool) (ADC_to_Ch : gmap string (gmap Z scalar))
    (c : gmap string Z) (w : Z) :
  attributes MG_CNCS !! Z.to_nat (get_Channel w) = None →
  row_data MG_CNCS ADC_to_Ch c w = Raise IndexError.
Proof.
  intros Hat. unfold row_data. fold (get_Channel w).
  by rewrite attributes_getitem, Hat.
Qed.

Lemma attributes_group (MG_CNCS : bool) (attribute : string) :
  attribute ∈ attributes MG_CNCS →
  ∃ w_or_g, wires_or_grids !! slice_first attribute = Some w_or_g.
Proof.
  intros Hin. pose proof (attributes_ok MG_CNCS) as Hall.
  rewrite Forall_forall in Hall.
  by destruct (Hall attribute Hin) as (_ & _ & _ & [g Hg] & _); exists g.
Qed.

(** The Data branch raises exactly on the words [data_word_ok] rejects, and
    the exception [data_word_exn] gives. *)
Lemma row_data_exn (MG_CNCS : bool) (ADC_to_Ch : gmap string (gmap Z scalar))
    (c : gmap string Z) (w : Z) :
  match data_word_exn MG_CNCS ADC_to_Ch w with
  | None => ∃ c', row_data MG_CNCS ADC_to_Ch c w = Ok c'
  | Some e => row_data MG_CNCS ADC_to_Ch c w = Raise e
  end.
Proof.
  unfold data_word_exn.
  destruct (attributes MG_CNCS !! Z.to_nat (get_Channel w)) as [attribute|] eqn:Hat.
  2:{ by apply row_data_no_attribute. }
  destruct (attributes_group MG_CNCS attribute) as [g Hg].
  { by eapply list_elem_of_lookup_2. }
  rewrite (row_data_eq _ _ _ _ _ _ Hat Hg), Hg.
  destruct (String.length attribute =? 8)%nat; [|eauto].
  destruct (ADC_to_Ch !! g) as [table|]; cbn [mbind option_bind]; [|done].
  destruct (table !! get_ADC w) as [physical_Ch|]; [|done].
  destruct (int64_of physical_Ch) as [z|e]; [|done].
  rewrite bind_Ok. eauto.
Qed.

Lemma row_data_ok (MG_CNCS : bool) (ADC_to_Ch : gmap string (gmap Z scalar))
    (c : gmap string Z) (w : Z) :
  data_word_ok MG_CNCS ADC_to_Ch w = true →
  ∃ attribute c',
    attributes MG_CNCS !! Z.to_nat (get_Channel w) = Some attribute ∧
    row_data MG_CNCS ADC_to_Ch c w = Ok c' ∧
    c' !! attribute = Some (get_ADC w) ∧
    c' !! "Module" = c !! "Module".
Proof.
  unfold data_word_ok, data_word_exn.
  destruct (attributes MG_CNCS !! Z.to_nat (get_Channel w)) as [attribute|] eqn:Hat;
    [|done].
  intros Hok. exists attribute.
  pose proof (attributes_ok MG_CNCS) as Hall.
  rewrite Forall_forall in Hall.
  destruct (Hall attribute) as (Hcol & Hm & Ht & [g Hg] & Hch).
  { eapply list_elem_of_lookup_2. done. }
  rewrite (row_data_eq _ _ _ _ _ _ Hat Hg). rewrite Hg in Hok.
  destruct (String.length attribute =? 8)%nat.
  - destruct (Hch eq_refl) as (Hin & Hne & Hm' & _).
    destruct (ADC_to_Ch !! g) as [table|] eqn:Htab; cbn [mbind option_bind]; [|done].
    destruct (table !! get_ADC w) as [physical_Ch|]; [|done].
    destruct (int64_of physical_Ch) as [z|e]; [|done].
    rewrite bind_Ok. eexists; split_and!; [done | done | |].
    + rewrite lookup_insert_ne by done. apply lookup_insert_eq.
    + rewrite !lookup_insert_ne by done. done.
  - eexists; split_and!; [done | done | |].
    + apply lookup_insert_eq.
    + by rewrite lookup_insert_ne.
Qed.

Lemma row_data_raise (MG_CNCS : bool) (ADC_to_Ch : gmap string (gmap Z scalar))
    (c : gmap string Z) (w : Z) (e : exn) :
  data_word_exn MG_CNCS ADC_to_Ch w = Some e →
  row_data MG_CNCS ADC_to_Ch c w = Raise e.
Proof.
  intros He. pose proof (row_data_exn MG_CNCS ADC_to_Ch c w) as Hrow.
  by rewrite He in Hrow.
Qed.

(** What a word that is not accepted raises. *)
Lemma data_word_ok_false (MG_CNCS : bool) (ADC_to_Ch : gmap string (gmap Z scalar))
    (w : Z) :
  data_word_ok MG_CNCS ADC_to_Ch w = false →
  ∃ e, data_word_exn MG_CNCS ADC_to_Ch w = Some e.
Proof. unfold data_word_ok. destruct (data_word_exn _ _ _); [eauto | done]. Qed.

(** ** A stream, on rows *)

Lemma row_loop_app (MG_CNCS : bool) (ADC_to_Ch : gmap string (gmap Z scalar))
    (a : rstate) (l1 l2 : list Z) :
  row_loop MG_CNCS ADC_to_Ch a (l1 ++ l2) =
    (a' ← row_loop MG_CNCS ADC_to_Ch a l1; row_loop MG_CNCS ADC_to_Ch a' l2).
Proof.
  revert a. induction l1 as [|w l1 IH]; intros a; simpl; [done|].
  destruct (row_body MG_CNCS ADC_to_Ch a w) as [a1|e]; simpl; [apply IH | done].
Qed.

Lemma row_body_open (MG_CNCS : bool) (ADC_to_Ch : gmap string (gmap Z scalar))
    (a a' : rstate) (w : Z) :
  row_body MG_CNCS ADC_to_Ch a w = Ok a' →
  ropen a' = (if is_Header w then true else if is_EoE w then false else ropen a).
Proof.
  destruct (is_Header w) eqn:Hh.
  { rewrite row_body_Header by done. by intros [= <-]. }
  destruct (ropen a) eqn:Ho.
  2:{ rewrite row_body_closed by done. intros [= <-]. rewrite Ho. by destruct (is_EoE w). }
  destruct (is_EoE w) eqn:He.
  { rewrite row_body_EoE by done. by intros [= <-]. }
  destruct (is_Data w) eqn:Hd.
  { rewrite row_body_Data by done.
    intros (c & _ & [= <-])%bind_Ok_inv. done. }
  rewrite row_body_Other by done. by intros [= <-].
Qed.

Lemma row_loop_open (MG_CNCS : bool) (ADC_to_Ch : gmap string (gmap Z scalar))
    (data : list Z) (a a' : rstate) :
  row_loop MG_CNCS ADC_to_Ch a data = Ok a' →
  ropen a' = open_after (ropen a) data.
Proof.
  revert a. induction data as [|w rest IH]; intros a; simpl.
  - by intros [= <-].
  - intros (a1 & Hb & Hl)%bind_Ok_inv. apply row_body_open in Hb.
    rewrite <- Hb. by apply IH.
Qed.

Local Opaque row_setitem row_data.

(** The rows committed before a word are not looked at. *)
Lemma row_body_frame (MG_CNCS : bool) (ADC_to_Ch : gmap string (gmap Z scalar))
    (rs : list (gmap string Z)) (a : rstate) (w : Z) :
  row_body MG_CNCS ADC_to_Ch (RState (rs ++ rows a) (cur a) (ropen a)) w =
    match row_body MG_CNCS ADC_to_Ch a w with
    | Ok a' => Ok (RState (rs ++ rows a') (cur a') (ropen a'))
    | Raise e => Raise e
    end.
Proof.
  unfold row_body. simpl.
  destruct (Z.land w SignatureMask =? Header).
  { by destruct (row_setitem _ _ _ _). }
  destruct ((Z.land w SignatureMask =? Data) && ropen a).
  { by destruct (row_data _ _ _ _). }
  destruct ((Z.land w SignatureMask =? EoE) && ropen a); [|done].
  destruct (row_setitem _ _ _ _); simpl; [|done]. by rewrite app_assoc.
Qed.

Local Transparent row_setitem row_data.

Lemma row_loop_frame (MG_CNCS : bool) (ADC_to_Ch : gmap string (gmap Z scalar))
    (rs : list (gmap string Z)) (data : list Z) (a : rstate) :
  row_loop MG_CNCS ADC_to_Ch (RState (rs ++ rows a) (cur a) (ropen a)) data =
    match row_loop MG_CNCS ADC_to_Ch a data with
    | Ok a' => Ok (RState (rs ++ rows a') (cur a') (ropen a'))
    | Raise e => Raise e
    end.
Proof.
  revert a. induction data as [|w rest IH]; intros a; simpl; [done|].
  rewrite row_body_frame.
  destruct (row_body MG_CNCS ADC_to_Ch a w) as [a1|e]; simpl; [apply IH | done].
Qed.

Lemma row_loop_prefix (MG_CNCS : bool) (ADC_to_Ch : gmap string (gmap Z scalar))
    (data : list Z) (a a' : rstate) :
  row_loop MG_CNCS ADC_to_Ch a data = Ok a' → ∃ more, rows a' = rows a ++ more.
Proof.
  revert a. induction data as [|w rest IH]; intros a; simpl.
  - intros [= <-]. exists []. by rewrite app_nil_r.
  - intros (a1 & Hb & Hl)%bind_Ok_inv.
    destruct (IH _ Hl) as [more Hmore]. rewrite Hmore.
    destruct (row_body_rows _ _ _ _ _ Hb) as [->|(c & -> & _)]; [eauto|].
    rewrite <- app_assoc. eauto.
Qed.

(** An open event stays open, and commits nothing, until an End-of-Event. *)
Lemma row_loop_no_EoE (MG_CNCS : bool) (ADC_to_Ch : gmap string (gmap Z scalar))
    (tail : list Z) (a : rstate) :
  Forall (λ w, is_EoE w = false) tail →
  Forall (λ w, is_Data w = true → data_word_ok MG_CNCS ADC_to_Ch w = true) tail →
  ropen a = true →
  ∃ a', row_loop MG_CNCS ADC_to_Ch a tail = Ok a' ∧ rows a' = rows a ∧ ropen a' = true.
Proof.
  revert a. induction tail as [|w rest IH]; intros a HE HD Ho; simpl; [eauto|].
  inversion HE as [|? ? He HE']; inversion HD as [|? ? Hd HD']; subst.
  assert (∀ c, row_body MG_CNCS ADC_to_Ch a w = Ok (RState (rows a) c true) →
    ∃ a', row_body MG_CNCS ADC_to_Ch a w ≫= (λ a1, row_loop MG_CNCS ADC_to_Ch a1 rest) = Ok a'
          ∧ rows a' = rows a ∧ ropen a' = true) as Hstep.
  { intros c ->. simpl.
    destruct (IH (RState (rows a) c true) HE' HD' eq_refl) as (a' & ? & ? & ?). eauto. }
  destruct (is_Header w) eqn:Hh.
  { eapply Hstep. by apply row_body_Header. }
  destruct (is_Data w) eqn:Hdw.
  { destruct (row_data_ok MG_CNCS ADC_to_Ch (cur a) w) as (attr & c' & _ & Hc & _);
      [by apply Hd|].
    eapply Hstep. rewrite row_body_Data by done. by rewrite Hc. }
  eapply (Hstep (cur a)). rewrite row_body_Other by done.
  destruct a; simpl in *; by subst.
Qed.

(** A decodable stream does not raise. *)
Lemma row_loop_decodable (MG_CNCS : bool) (ADC_to_Ch : gmap string (gmap Z scalar))
    (data : list Z) (a : rstate) :
  decodable_from MG_CNCS ADC_to_Ch (ropen a) data = true →
  ∃ a', row_loop MG_CNCS ADC_to_Ch a data = Ok a'.
Proof.
  revert a. induction data as [|w rest IH]; intros a; simpl; [eauto|].
  destruct (is_Header w) eqn:Hh.
  { rewrite row_body_Header by done. simpl. intros Hdec. by apply IH. }
  destruct (ropen a) eqn:Ho.
  2:{ rewrite row_body_closed by done. simpl. rewrite andb_false_r.
      intros Hdec. apply IH. rewrite Ho. by destruct (is_EoE w). }
  rewrite andb_true_r. destruct (is_Data w) eqn:Hd.
  { rewrite row_body_Data by done. intros [Hok Hdec]%andb_true_iff.
    destruct (row_data_ok MG_CNCS ADC_to_Ch (cur a) w Hok) as (attr & c' & _ & -> & _).
    simpl. by apply IH. }
  destruct (is_EoE w) eqn:He.
  { rewrite row_body_EoE by done. simpl. intros Hdec. by apply IH. }
  rewrite row_body_Other by done. simpl. intros Hdec. apply IH. by rewrite Ho.
Qed.

Lemma row_body_not_EoE (MG_CNCS : bool) (ADC_to_Ch : gmap string (gmap Z scalar))
    (a a' : rstate) (w : Z) :
  is_EoE w = false → row_body MG_CNCS ADC_to_Ch a w = Ok a' → rows a' = rows a.
Proof.
  intros He. destruct (is_Header w) eqn:Hh.
  { rewrite row_body_Header by done. by intros [= <-]. }
  destruct (ropen a) eqn:Ho.
  2:{ rewrite row_body_closed by done. by intros [= <-]. }
  destruct (is_Data w) eqn:Hd.
  { rewrite row_body_Data by done. by intros (c & _ & [= <-])%bind_Ok_inv. }
  rewrite row_body_Other by done. by intros [= <-].
Qed.

(** On a well-formed stream every End-of-Event commits a row. *)
Lemma row_loop_count (MG_CNCS : bool) (ADC_to_Ch : gmap string (gmap Z scalar))
    (data : list Z) (a a' : rstate) :
  row_loop MG_CNCS ADC_to_Ch a data = Ok a' →
  well_formed_from (ropen a) data = true →
  length (rows a') = (length (rows a) + count_EoE data)%nat.
Proof.
  unfold count_EoE.
  revert a. induction data as [|w rest IH]; intros a; simpl.
  { intros [= <-] _. lia. }
  intros (a1 & Hb & Hl)%bind_Ok_inv.
  destruct (is_Header w) eqn:Hh.
  { destruct (is_Header_true w Hh) as [_ He].
    rewrite filter_cons_False by (by rewrite He).
    rewrite row_body_Header in Hb by done. injection Hb as <-.
    intros [_ Hwf]%andb_true_iff. by rewrite (IH _ Hl). }
  destruct (is_EoE w) eqn:He.
  { intros [Ho Hwf]%andb_true_iff. rewrite filter_cons_True by done.
    rewrite row_body_EoE in Hb by done. injection Hb as <-.
    rewrite (IH _ Hl) by done. simpl. rewrite length_app. simpl. lia. }
  rewrite filter_cons_False by (by rewrite He).
  intros Hwf. pose proof (row_body_open _ _ _ _ _ Hb) as Ho.
  rewrite Hh, He in Ho. rewrite (IH _ Hl) by (by rewrite Ho).
  by rewrite (row_body_not_EoE _ _ _ _ _ He Hb).
Qed.

Lemma row_body_restart (MG_CNCS : bool) (ADC_to_Ch : gmap string (gmap Z scalar))
    (a a1 : rstate) (w : Z) :
  is_EoE w = false → row_body MG_CNCS ADC_to_Ch a w = Ok a1 →
  row_body MG_CNCS ADC_to_Ch (RState [] (cur a) (ropen a)) w =
    Ok (RState [] (cur a1) (ropen a1)).
Proof.
  intros He. destruct (is_Header w) eqn:Hh.
  { rewrite !row_body_Header by done. by intros [= <-]. }
  destruct (ropen a) eqn:Ho.
  2:{ rewrite !row_body_closed by done. intros [= <-]. by rewrite Ho. }
  destruct (is_Data w) eqn:Hd.
  { rewrite !row_body_Data by done. simpl.
    intros (c & -> & [= <-])%bind_Ok_inv. done. }
  rewrite !row_body_Other by done. intros [= <-]. by rewrite Ho.
Qed.

Lemma length_event_spans (data : list Z) : length (event_spans data) = count_EoE data.
Proof.
  unfold count_EoE. induction data as [|w rest IH]; simpl; [done|].
  destruct (is_EoE w) eqn:He.
  - rewrite filter_cons_True by done. simpl. by rewrite IH.
  - rewrite filter_cons_False by (by rewrite He). rewrite <- IH.
    by destruct (event_spans rest).
Qed.

(** Span [i] of a well-formed stream commits row [i], and the same row
    when it is decoded from the state the span starts in. *)
Lemma row_loop_spans (MG_CNCS : bool) (ADC_to_Ch : gmap string (gmap Z scalar))
    (data : list Z) (a a' : rstate) :
  row_loop MG_CNCS ADC_to_Ch a data = Ok a' →
  well_formed_from (ropen a) data = true →
  ∀ i span, event_spans data !! i = Some span →
    ∃ b r e,
      row_loop MG_CNCS ADC_to_Ch
        (match i with O => RState [] (cur a) (ropen a) | S _ => RState [] ∅ false end)
        span = Ok b ∧
      rows b = [r] ∧ rows a' !! (length (rows a) + i)%nat = Some r ∧
      last span = Some e ∧ is_EoE e = true ∧ r !! "ToF" = Some (get_ToF e).
Proof.
  revert a. induction data as [|w rest IH]; intros a; simpl; [done|].
  intros (a1 & Hb & Hl)%bind_Ok_inv.
  destruct (is_Header w) eqn:Hh.
  { destruct (is_Header_true w Hh) as [_ He]. rewrite He.
    intros [_ Hwf]%andb_true_iff i span.
    pose proof (row_body_restart _ _ _ _ _ He Hb) as Hb0.
    pose proof (row_body_not_EoE _ _ _ _ _ He Hb) as Hrows.
    rewrite row_body_Header in Hb by done. injection Hb as <-.
    destruct (event_spans rest) as [|s ss] eqn:Hsps; [done|].
    intros Hsp. destruct i as [|j]; simpl in Hsp.
    - injection Hsp as <-.
      destruct (IH _ Hl Hwf 0%nat s) as (b & r & e & Hrun & ? & ? & Hlast & ? & ?);
        [by rewrite ?Hsps|].
      exists b, r, e. simpl. rewrite Hb0. simpl in *.
      split_and!; try done. destruct s; [done|]. done.
    - destruct (IH _ Hl Hwf (S j) span) as (b & r & e & Hrun & ? & ? & ? & ? & ?);
        [by rewrite ?Hsps|].
      exists b, r, e. simpl in *. done. }
  destruct (is_EoE w) eqn:He.
  { intros [Ho Hwf]%andb_true_iff i span Hsp.
    rewrite row_body_EoE in Hb by done. injection Hb as <-.
    destruct (row_loop_prefix _ _ _ _ _ Hl) as [more Hmore]. simpl in Hmore.
    destruct i as [|j]; simpl in Hsp.
    - injection Hsp as <-.
      eexists _, _, w. simpl. rewrite Ho. rewrite row_body_EoE by done. simpl.
      split_and!; try done.
      + rewrite Hmore, Nat.add_0_r, <- app_assoc. apply list_lookup_middle. done.
      + apply lookup_insert_eq.
    - destruct (IH _ Hl Hwf j span Hsp) as (b & r & e & Hrun & ? & Hlk & ? & ? & ?).
      exists b, r, e. simpl in *. split_and!; try done.
      + by destruct j.
      + rewrite <- Hlk, length_app. simpl. f_equal. lia. }
  intros Hwf i span.
  pose proof (row_body_restart _ _ _ _ _ He Hb) as Hb0.
  pose proof (row_body_not_EoE _ _ _ _ _ He Hb) as Hrows.
  pose proof (row_body_open _ _ _ _ _ Hb) as Ho. rewrite Hh, He in Ho.
  rewrite <- Ho in Hwf.
  destruct (event_spans rest) as [|s ss] eqn:Hsps; [done|].
  intros Hsp. destruct i as [|j]; simpl in Hsp.
  - injection Hsp as <-.
    destruct (IH _ Hl Hwf 0%nat s) as (b & r & e & Hrun & ? & ? & Hlast & ? & ?);
      [by rewrite ?Hsps|].
    exists b, r, e. simpl. rewrite Hb0. simpl in *. rewrite <- Hrows.
    split_and!; try done. destruct s; [done|]. done.
  - destruct (IH _ Hl Hwf (S j) span) as (b & r & e & Hrun & ? & ? & ? & ? & ?);
      [by rewrite ?Hsps|].
    exists b, r, e. simpl in *. rewrite <- Hrows. done.
Qed.

(** ** Tables of rows *)

Lemma nrows_table_of (MG_CNCS : bool) (rs : list (gmap string Z)) :
  nrows (table_of MG_CNCS rs) = length rs.
Proof.
  unfold nrows. rewrite table_of_lookup, decide_True.
  - by rewrite length_fmap.
  - apply elem_of_columns. tauto.
Qed.

Lemma table_of_length (MG_CNCS : bool) (rs : list (gmap string Z)) (key : string)
    (col : list Z) :
  table_of MG_CNCS rs !! key = Some col → length col = length rs.
Proof.
  rewrite table_of_lookup. case_decide; [|done].
  intros [= <-]. by rewrite length_fmap.
Qed.

Lemma cell_table_of (MG_CNCS : bool) (rs : list (gmap string Z)) (key : string) (i : nat) :
  cell (table_of MG_CNCS rs) key i =
    if decide (key ∈ columns MG_CNCS) then (λ r, row_get r key) <$> rs !! i else None.
Proof.
  unfold cell. rewrite table_of_lookup. case_decide; [|done].
  simpl. by rewrite list_lookup_fmap.
Qed.

Lemma cluster_data_Ok (data : list Z) (ADC_to_Ch : gmap string (gmap Z scalar))
    (MG_CNCS : bool) (t : gmap string (list Z)) :
  cluster_data data ADC_to_Ch MG_CNCS = Ok t ↔
  ∃ a, row_loop MG_CNCS ADC_to_Ch (RState [] ∅ false) data = Ok a ∧
       t = table_of MG_CNCS (rows a).
Proof.
  rewrite cluster_data_rows. split.
  - intros (a & Ha & [= <-])%bind_Ok_inv. eauto.
  - intros (a & -> & ->). done.
Qed.

Lemma row_loop_not_EoE (MG_CNCS : bool) (ADC_to_Ch : gmap string (gmap Z scalar))
    (ws : list Z) (a a' : rstate) :
  Forall (λ w, is_EoE w = false) ws →
  row_loop MG_CNCS ADC_to_Ch a ws = Ok a' → rows a' = rows a.
Proof.
  intros Hall. revert a. induction Hall as [|w ws He _ IH]; intros a; simpl.
  - by intros [= <-].
  - intros (a1 & Hb & Hl)%bind_Ok_inv.
    rewrite (IH _ Hl). by eapply row_body_not_EoE.
Qed.

(** The alternation of Headers and End-of-Events is more than what the
    specification asks of a well-formed stream. *)
Lemma well_formed_from_headers_closed (data : list Z) (o : bool) (n : option nat) :
  (if o then n = Some O else n = None ∨ n = Some 1%nat) →
  well_formed_from o data = true → headers_closed_from n data = true.
Proof.
  revert o n. induction data as [|w rest IH]; intros o n Hon; simpl.
  - destruct o; [done|]. by destruct Hon as [->| ->].
  - destruct (is_Header w).
    { destruct o; [done|]. simpl. intros Hwf.
      rewrite (IH true (Some O)) by done.
      by destruct Hon as [->| ->]. }
    destruct (is_EoE w).
    { destruct o; [|done]. simpl. subst n. apply (IH false). by right. }
    by apply IH.
Qed.

Lemma well_formed_headers_closed (data : list Z) :
  well_formed data = true → headers_closed data = true.
Proof. apply well_formed_from_headers_closed. by left. Qed.

(** C2, as amended.  On a stream in which Headers and End-of-Event words
    alternate (a Header only when no event is open, an End-of-Event only
    when one is, none open at the end), and in which no Data word of an
    event raises (its channel has an attribute and, for an attribute with
    an eight-character name, its ADC value is a key of the table of the
    group, with an entry that an int cell can hold), [cluster_data]
    returns a table with as many rows as the
    stream has End-of-Event words; row [i] is the event the [i]-th
    End-of-Event closes: the row the decoder returns for the words after
    the previous End-of-Event up to this one, with this word's time of
    flight.  Rows are in the order of the stream. *)
Theorem cluster_data_well_formed (MG_CNCS : bool) (ADC_to_Ch : gmap string (gmap Z scalar))
    (data : list Z) :
  well_formed data = true → decodable MG_CNCS ADC_to_Ch data = true →
  ∃ t, cluster_data data ADC_to_Ch MG_CNCS = Ok t ∧
    nrows t = count_EoE data ∧
    (∀ key col, t !! key = Some col → length col = count_EoE data) ∧
    length (event_spans data) = count_EoE data ∧
    ∀ i span, event_spans data !! i = Some span →
      ∃ ti e, cluster_data span ADC_to_Ch MG_CNCS = Ok ti ∧ nrows ti = 1%nat ∧
        (∀ key, cell t key i = cell ti key 0) ∧
        last span = Some e ∧ is_EoE e = true ∧ cell t "ToF" i = Some (get_ToF e).
Proof.
  intros Hwf Hdec.
  destruct (row_loop_decodable MG_CNCS ADC_to_Ch data (RState [] ∅ false) Hdec)
    as [a Ha].
  pose proof (row_loop_count _ _ _ _ _ Ha Hwf) as Hcount. simpl in Hcount.
  exists (table_of MG_CNCS (rows a)). split_and!.
  - apply cluster_data_Ok. eauto.
  - by rewrite nrows_table_of.
  - intros key col Hcol. apply table_of_length in Hcol. lia.
  - apply length_event_spans.
  - intros i span Hsp.
    destruct (row_loop_spans _ _ _ _ _ Ha Hwf i span Hsp)
      as (b & r & e & Hb & Hrows & Hr & Hlast & He & Htof).
    simpl in Hr.
    assert (row_loop MG_CNCS ADC_to_Ch (RState [] ∅ false) span = Ok b) as Hb'.
    { by destruct i. }
    exists (table_of MG_CNCS (rows b)), e. split_and!; try done.
    + apply cluster_data_Ok. eauto.
    + by rewrite nrows_table_of, Hrows.
    + intros key. rewrite !cell_table_of, Hrows, Hr. done.
    + rewrite cell_table_of, Hr, decide_True by (apply elem_of_columns; tauto).
      simpl. unfold row_get. by rewrite Htof.
Qed.

(** C6.  A stream that ends while an event is open, a Header and after it
    no End-of-Event: the table [cluster_data] returns is the table it
    returns for the stream without that last span, so that it has no row for
    it; and it returns that table when no Data word of the span raises. *)
Theorem unterminated_event_discarded (MG_CNCS : bool) (ADC_to_Ch : gmap string (gmap Z scalar))
    (pre : list Z) (h : Z) (tail : list Z) :
  is_Header h = true → Forall (λ w, is_EoE w = false) tail →
  (∀ t, cluster_data (pre ++ h :: tail) ADC_to_Ch MG_CNCS = Ok t →
        cluster_data pre ADC_to_Ch MG_CNCS = Ok t) ∧
  (Forall (λ w, is_Data w = true → data_word_ok MG_CNCS ADC_to_Ch w = true) tail →
   cluster_data (pre ++ h :: tail) ADC_to_Ch MG_CNCS = cluster_data pre ADC_to_Ch MG_CNCS).
Proof.
  intros Hh HE. split.
  - intros t (a' & Hrun & ->)%cluster_data_Ok.
    rewrite row_loop_app in Hrun. apply bind_Ok_inv in Hrun as (a & Hpre & Hrest).
    apply cluster_data_Ok. exists a. split; [done|]. f_equal.
    eapply row_loop_not_EoE; [|done].
    constructor; [|done]. by destruct (is_Header_true h Hh).
  - intros HD. rewrite !cluster_data_rows, row_loop_app.
    destruct (row_loop MG_CNCS ADC_to_Ch _ pre) as [a|e]; simpl; [|done].
    rewrite row_body_Header by done. simpl.
    destruct (row_loop_no_EoE MG_CNCS ADC_to_Ch tail
      (RState (rows a) (<["Module":=get_Module h]> (cur a)) true) HE HD eq_refl)
      as (a' & -> & Hrows & _).
    simpl. by rewrite Hrows.
Qed.

(** C3, as amended.  A Data word whose channel is not below the number of
    attributes, met while an event is open, makes [cluster_data] raise
    [IndexError]: the call returns no table, whatever follows the word.
    Met while no event is open, the word is passed over. *)
Theorem channel_out_of_range (MG_CNCS : bool) (ADC_to_Ch : gmap string (gmap Z scalar))
    (pre : list Z) (w : Z) (post : list Z) (t : gmap string (list Z)) :
  cluster_data pre ADC_to_Ch MG_CNCS = Ok t →
  is_Data w = true → Z.of_nat (length (attributes MG_CNCS)) ≤ get_Channel w →
  (open_after false pre = true →
   cluster_data (pre ++ w :: post) ADC_to_Ch MG_CNCS = Raise IndexError) ∧
  (open_after false pre = false →
   cluster_data (pre ++ w :: post) ADC_to_Ch MG_CNCS =
     cluster_data (pre ++ post) ADC_to_Ch MG_CNCS).
Proof.
  intros (a & Hpre & ->)%cluster_data_Ok Hd Hch.
  pose proof (row_loop_open _ _ _ _ _ Hpre) as Ho. simpl in Ho.
  rewrite !cluster_data_rows, !row_loop_app, Hpre. simpl.
  split; intros Hopen; rewrite Hopen in Ho.
  - rewrite row_body_Data by done.
    unfold row_data. fold (get_Channel w). rewrite attributes_getitem.
    rewrite lookup_ge_None_2; [done | lia].
  - rewrite row_body_closed; [done | by destruct (is_Data_true w Hd) | done].
Qed.

(** ** The states the loop reaches *)

Lemma reachable_refines (MG_CNCS : bool) (ADC_to_Ch : gmap string (gmap Z scalar))
    (size : nat) (st : state) :
  reachable MG_CNCS ADC_to_Ch size st →
  ∃ a, refines MG_CNCS size st a ∧ (length (rows a) < size)%nat.
Proof.
  intros (pre & Hlen & Hloop).
  pose proof (loop_refines MG_CNCS ADC_to_Ch size pre
    (State (initial_events MG_CNCS size) false 0) (RState [] ∅ false)) as Hl.
  destruct (row_loop MG_CNCS ADC_to_Ch (RState [] ∅ false) pre) as [a|e] eqn:Hrow.
  - destruct Hl as (st' & Hst' & Href).
    { split_and!; [done | done | apply represents_initial]. }
    { simpl. lia. }
    rewrite Hloop in Hst'. injection Hst' as <-.
    exists a. split; [done|]. apply row_loop_length in Hrow. simpl in Hrow. lia.
  - rewrite Hl in Hloop; [done | | simpl; lia].
    split_and!; [done | done | apply represents_initial].
Qed.

Lemma cell_current (MG_CNCS : bool) (size : nat) (st : state) (a : rstate) (key : string) :
  refines MG_CNCS size st a → (length (rows a) < size)%nat → key ∈ columns MG_CNCS →
  cell (events st) key (index st) = Some (row_get (cur a) key).
Proof.
  intros (Hi & _ & Hrep) Hlt Hin. unfold cell.
  rewrite (Hrep key), decide_True by done. simpl. rewrite Hi.
  unfold column_of. rewrite lookup_take_lt by done.
  apply list_lookup_middle. by rewrite length_fmap.
Qed.

Lemma body_Ok_refines (MG_CNCS : bool) (ADC_to_Ch : gmap string (gmap Z scalar))
    (size : nat) (st : state) (a a' : rstate) (w : Z) :
  refines MG_CNCS size st a → (length (rows a) < size)%nat →
  row_body MG_CNCS ADC_to_Ch a w = Ok a' →
  ∃ st', body MG_CNCS ADC_to_Ch st w = Ok st' ∧ refines MG_CNCS size st' a'.
Proof.
  intros Href Hlt Hrow.
  pose proof (body_refines MG_CNCS ADC_to_Ch size st a w Href Hlt) as Hb.
  by rewrite Hrow in Hb.
Qed.

Lemma body_Raise_refines (MG_CNCS : bool) (ADC_to_Ch : gmap string (gmap Z scalar))
    (size : nat) (st : state) (a : rstate) (w : Z) (e : exn) :
  refines MG_CNCS size st a → (length (rows a) < size)%nat →
  row_body MG_CNCS ADC_to_Ch a w = Raise e →
  body MG_CNCS ADC_to_Ch st w = Raise e.
Proof.
  intros Href Hlt Hrow.
  pose proof (body_refines MG_CNCS ADC_to_Ch size st a w Href Hlt) as Hb.
  by rewrite Hrow in Hb.
Qed.

(** A Data word that is accepted, met in an open event. *)
Lemma body_Data_ok (MG_CNCS : bool) (ADC_to_Ch : gmap string (gmap Z scalar))
    (size : nat) (st : state) (a : rstate) (w : Z) :
  refines MG_CNCS size st a → (length (rows a) < size)%nat →
  isOpen st = true → is_Data w = true → data_word_ok MG_CNCS ADC_to_Ch w = true →
  ∃ st' attribute c',
    attributes MG_CNCS !! Z.to_nat (get_Channel w) = Some attribute ∧
    row_data MG_CNCS ADC_to_Ch (cur a) w = Ok c' ∧
    body MG_CNCS ADC_to_Ch st w = Ok st' ∧
    refines MG_CNCS size st' (RState (rows a) c' true) ∧
    index st' = index st ∧ isOpen st' = true ∧
    cell (events st') attribute (index st) = Some (get_ADC w) ∧
    cell (events st') "Module" (index st) = cell (events st) "Module" (index st).
Proof.
  intros Href Hlt Ho Hd Hok.
  destruct (row_data_ok MG_CNCS ADC_to_Ch (cur a) w Hok)
    as (attribute & c' & Hat & Hrow & Hadc & Hmod).
  assert (ropen a = true) as Hoa.
  { destruct Href as (_ & <- & _). done. }
  destruct (body_Ok_refines MG_CNCS ADC_to_Ch size st a (RState (rows a) c' true) w)
    as (st' & Hb & Href'); [done | done | |].
  { rewrite row_body_Data by done. by rewrite Hrow. }
  assert (index st' = index st) as Hi.
  { destruct Href as (-> & _), Href' as (-> & _). done. }
  assert (attribute ∈ columns MG_CNCS) as Hcol.
  { pose proof (attributes_ok MG_CNCS) as Hall. rewrite Forall_forall in Hall.
    apply Hall. by eapply list_elem_of_lookup_2. }
  exists st', attribute, c'. split_and!; try done.
  - by destruct Href' as (_ & -> & _).
  - rewrite <- Hi. rewrite (cell_current MG_CNCS size st' _ attribute Href') by done.
    simpl. unfold row_get. by rewrite Hadc.
  - rewrite <- Hi at 1.
    rewrite (cell_current MG_CNCS size st' _ "Module" Href'), 
      (cell_current MG_CNCS size st a "Module" Href);
      try done; try (apply elem_of_columns; tauto).
    simpl. unfold row_get. by rewrite Hmod.
Qed.

(** C5.  A Header met while an event is open: the loop body only writes
    the module of the word in the row being filled.  It commits no row
    (the index, and with it the rows the table is cut to, are the same),
    changes no other column and no other cell of the column Module, and
    leaves the event open, so that a Data word after it is written in the
    same row. *)
Theorem header_in_open_event (MG_CNCS : bool) (ADC_to_Ch : gmap string (gmap Z scalar))
    (size : nat) (st : state) (h : Z) :
  reachable MG_CNCS ADC_to_Ch size st → isOpen st = true → is_Header h = true →
  ∃ st', body MG_CNCS ADC_to_Ch st h = Ok st' ∧
    index st' = index st ∧ isOpen st' = true ∧
    (∀ key, key ≠ "Module" → events st' !! key = events st !! key) ∧
    (∀ i, i ≠ index st → cell (events st') "Module" i = cell (events st) "Module" i) ∧
    cell (events st') "Module" (index st) = Some (get_Module h) ∧
    take (index st') <$> events st' = take (index st) <$> events st ∧
    ∀ d, is_Data d = true → data_word_ok MG_CNCS ADC_to_Ch d = true →
      ∃ st'' attribute,
        attributes MG_CNCS !! Z.to_nat (get_Channel d) = Some attribute ∧
        body MG_CNCS ADC_to_Ch st' d = Ok st'' ∧
        index st'' = index st ∧ isOpen st'' = true ∧
        cell (events st'') attribute (index st) = Some (get_ADC d) ∧
        cell (events st'') "Module" (index st) = Some (get_Module h).
Proof.
  intros Hreach Ho Hh.
  destruct (reachable_refines _ _ _ _ Hreach) as (a & Href & Hlt).
  destruct (body_Ok_refines MG_CNCS ADC_to_Ch size st a _ h Href Hlt
    (row_body_Header MG_CNCS ADC_to_Ch a h Hh)) as (st' & Hb & Href').
  assert (cell (events st') "Module" (index st) = Some (get_Module h)) as Hcell.
  { assert (index st' = index st) as <-.
    { destruct Href as (-> & _), Href' as (-> & _). done. }
    rewrite (cell_current MG_CNCS size st' _ "Module" Href');
      [| done | apply elem_of_columns; tauto].
    simpl. unfold row_get. by rewrite lookup_insert_eq. }
  exists st'. split; [done|].
  unfold body in Hb. unfold is_Header in Hh. rewrite Hh in Hb.
  apply bind_Ok_inv in Hb as (ev & Hset & [= <-]); simpl in *.
  unfold events_setitem in Hset.
  apply bind_Ok_inv in Hset as (col & Hcol & Hset).
  apply bind_Ok_inv in Hset as (col' & Hcol' & [= <-]).
  unfold dict_getitem in Hcol. destruct (events st !! "Module") as [c|] eqn:Hm; [|done].
  injection Hcol as ->. unfold array_setitem in Hcol'.
  case_decide; [|done]. apply bind_Ok_inv in Hcol' as (z & _ & [= <-]).
  split_and!; try done.
  - intros key Hkey. by rewrite lookup_insert_ne.
  - intros i Hi. unfold cell. rewrite lookup_insert_eq, Hm. simpl.
    by rewrite list_lookup_insert_ne.
  - apply map_eq. intros key. rewrite !lookup_fmap.
    destruct (decide (key = "Module")) as [->|Hne].
    + rewrite lookup_insert_eq, Hm. simpl. by rewrite take_insert_ge.
    + by rewrite lookup_insert_ne.
  - intros d Hd Hok.
    destruct (body_Data_ok MG_CNCS ADC_to_Ch size _ _ d Href' Hlt eq_refl Hd Hok)
      as (st'' & attribute & c' & Hat & _ & Hb' & _ & Hi & Ho' & Hadc & Hmod).
    exists st'', attribute. simpl in *. split_and!; try done.
    by rewrite Hmod.
Qed.

(** ** The calibration dict *)

Lemma foldl_insert_lookup (v : scalar) (ks : list Z) (t : gmap Z scalar) (k : Z) :
  foldl (λ t i, <[i:=v]> t) t ks !! k = if decide (k ∈ ks) then Some v else t !! k.
Proof.
  revert t. induction ks as [|i ks IH]; intros t.
  - rewrite decide_False; [done | apply not_elem_of_nil].
  - cbn [foldl]. rewrite IH. destruct (decide (k ∈ ks)) as [Hin|Hnin].
    + rewrite decide_True; [done | by right].
    + destruct (decide (k = i)) as [->|Hne].
      * rewrite lookup_insert_eq, decide_True; [done | by left].
      * rewrite lookup_insert_ne by done.
        rewrite decide_False; [done |]. intros [?|?]%elem_of_cons; done.
Qed.

Lemma unmapped_table_lookup (adc : Z) :
  unmapped_table !! adc = if decide (0 ≤ adc < 4096) then Some (of_int (-1)) else None.
Proof.
  unfold unmapped_table. rewrite foldl_insert_lookup, lookup_empty.
  destruct (decide (0 ≤ adc < 4096)) as [Hin|Hnin].
  - rewrite decide_True; [done | apply elem_of_seqZ; lia].
  - rewrite decide_False; [done | rewrite elem_of_seqZ; lia].
Qed.

Lemma full_range_initial (channel_mapping : gmap string (list scalar)) :
  full_range channel_mapping initial_ADC_to_Ch.
Proof.
  assert (∀ adc, 0 ≤ adc < 4096 →
            ∃ ch, unmapped_table !! adc = Some ch ∧ channel_value channel_mapping ch)
    as Hunmapped.
  { intros adc Hadc. exists (of_int (-1)).
    rewrite unmapped_table_lookup, decide_True by done. split; [done | by left]. }
  intros g [-> | ->]; exists unmapped_table; by split.
Qed.

Lemma py_getitem_elem_of {A : Type} (l : list A) (i : Z) (x : A) :
  py_getitem l i = Ok x → x ∈ l.
Proof.
  unfold py_getitem. case_match; [|done].
  destruct (l !! _) as [y|] eqn:Hy; [|done].
  intros [= <-]. by eapply list_elem_of_lookup_2.
Qed.

Lemma full_range_setitem (channel_mapping : gmap string (list scalar))
    (ADC_to_Ch ADC_to_Ch' : gmap string (gmap Z scalar)) (key : string) (k : Z)
    (channel : scalar) :
  channel_value channel_mapping channel →
  ADC_to_Ch_setitem ADC_to_Ch key k channel = Ok ADC_to_Ch' →
  full_range channel_mapping ADC_to_Ch → full_range channel_mapping ADC_to_Ch'.
Proof.
  intros Hval. unfold ADC_to_Ch_setitem, dict_getitem.
  destruct (ADC_to_Ch !! key) as [table|] eqn:Hkey; [|done]. simpl.
  intros [= <-] Hfull g Hg. destruct (Hfull g Hg) as (tg & Htg & Hall).
  destruct (decide (key = g)) as [->|Hne].
  - rewrite lookup_insert_eq. eexists; split; [done|].
    intros adc Hadc. rewrite Htg in Hkey. injection Hkey as <-.
    destruct (decide (k = adc)) as [->|Hne'].
    + rewrite lookup_insert_eq. eauto.
    + rewrite lookup_insert_ne by done. by apply Hall.
  - rewrite lookup_insert_ne by done. eauto.
Qed.

Lemma full_range_assign_loop (channel_mapping : gmap string (list scalar))
    (key : string) (channel : scalar) (ks : list Z)
    (ADC_to_Ch ADC_to_Ch' : gmap string (gmap Z scalar)) :
  channel_value channel_mapping channel →
  assign_loop ADC_to_Ch key channel ks = Ok ADC_to_Ch' →
  full_range channel_mapping ADC_to_Ch → full_range channel_mapping ADC_to_Ch'.
Proof.
  intros Hval. revert ADC_to_Ch. induction ks as [|k ks IH]; intros ADC_to_Ch; simpl.
  - by intros [= <-].
  - intros (t1 & Hset & Hl)%bind_Ok_inv Hfull.
    eapply IH; [done|]. by eapply full_range_setitem.
Qed.

Lemma full_range_small_delimiters_loop (channel_mapping : gmap string (list scalar))
    (key : string) (layers i : nat) (values : list Q) (j : nat) (previous_value : Q)
    (ADC_to_Ch ADC_to_Ch' : gmap string (gmap Z scalar)) :
  small_delimiters_loop channel_mapping key layers i j previous_value values ADC_to_Ch
    = Ok ADC_to_Ch' →
  full_range channel_mapping ADC_to_Ch → full_range channel_mapping ADC_to_Ch'.
Proof.
  revert j previous_value ADC_to_Ch.
  induction values as [|value rest IH]; intros j previous_value ADC_to_Ch; simpl.
  - by intros [= <-].
  - intros (mapping & Hmap & H1)%bind_Ok_inv.
    apply bind_Ok_inv in H1 as (channel & Hch & H2).
    apply bind_Ok_inv in H2 as (t1 & Hassign & Hl). intros Hfull.
    eapply IH; [done|]. eapply full_range_assign_loop; [|done|done].
    right. exists key, mapping. split; [|by eapply py_getitem_elem_of].
    unfold dict_getitem in Hmap. by destruct (channel_mapping !! key) as [m|]; simplify_eq.
Qed.

Lemma full_range_delimiters_loop (channel_mapping : gmap string (list scalar))
    (key : string) (layers : nat) (delimiters : list (Q * Q)) (i : nat)
    (ADC_to_Ch ADC_to_Ch' : gmap string (gmap Z scalar)) :
  delimiters_loop channel_mapping key layers i delimiters ADC_to_Ch = Ok ADC_to_Ch' →
  full_range channel_mapping ADC_to_Ch → full_range channel_mapping ADC_to_Ch'.
Proof.
  revert i ADC_to_Ch.
  induction delimiters as [|[start stop] rest IH]; intros i ADC_to_Ch; simpl.
  - by intros [= <-].
  - intros (mapping & _ & H1)%bind_Ok_inv.
    apply bind_Ok_inv in H1 as (channel & _ & H2).
    apply bind_Ok_inv in H2 as (previous_value & _ & H3).
    apply bind_Ok_inv in H3 as (t1 & Hsmall & Hl). intros Hfull.
    eapply IH; [done|]. by eapply full_range_small_delimiters_loop.
Qed.

Lemma full_range_keys_loop (channel_mapping : gmap string (list scalar))
    (items : list (string * list (Q * Q)))
    (ADC_to_Ch ADC_to_Ch' : gmap string (gmap Z scalar)) :
  keys_loop channel_mapping items ADC_to_Ch = Ok ADC_to_Ch' →
  full_range channel_mapping ADC_to_Ch → full_range channel_mapping ADC_to_Ch'.
Proof.
  revert ADC_to_Ch.
  induction items as [|[key delimiters] rest IH]; intros ADC_to_Ch; simpl.
  - by intros [= <-].
  - intros (layers & _ & H1)%bind_Ok_inv.
    apply bind_Ok_inv in H1 as (t1 & Hdel & Hl). intros Hfull.
    eapply IH; [done|]. by eapply full_range_delimiters_loop.
Qed.

(** The dict [get_ADC_to_Ch] returns has an entry for every raw value
    from 0 to 4095: -1 or a channel of the mapping. *)
Lemma get_ADC_to_Ch_full_range (delimiters_table : list (string * list (Q * Q)))
    (channel_mapping : gmap string (list scalar)) (ADC_to_Ch : gmap string (gmap Z scalar)) :
  get_ADC_to_Ch delimiters_table channel_mapping = Ok ADC_to_Ch →
  full_range channel_mapping ADC_to_Ch.
Proof.
  unfold get_ADC_to_Ch. intros (wires & _ & Hget)%bind_Ok_inv.
  eapply full_range_keys_loop; [done | apply full_range_initial].
Qed.

Lemma wires_or_grids_lookup (s w_or_g : string) :
  wires_or_grids !! s = Some w_or_g → w_or_g = "Wires" ∨ w_or_g = "Grids".
Proof.
  unfold wires_or_grids.
  destruct (decide (s = "g")) as [->|Hg].
  { rewrite lookup_insert_eq. intros [= <-]. by right. }
  rewrite lookup_insert_ne by done.
  destruct (decide (s = "w")) as [->|Hw].
  { rewrite lookup_insert_eq. intros [= <-]. by left. }
  by rewrite lookup_insert_ne.
Qed.

(** C4, as amended.  A Data word that selects an attribute with an
    eight-character name, met while an event is open: the table of the
    attribute's group, in the dict [get_ADC_to_Ch] has returned, has an
    entry for every raw value below 4096, the sentinel -1 or a channel of
    the mapping.  When the ADC value of the word is a key of that table, the
    integer of the entry is written in the channel column of the row being
    filled, if the entry has one that the cell can hold: the sentinel is
    stored as -1 and an integer channel that fits as it is; an entry that is
    NaN, as the mapping read from the sheet can hold, makes the store raise
    [ValueError], and one that is infinite or does not fit,
    [OverflowError].  When the ADC
    value is no key of the table, which is the case of the values from 4096
    on that no range of the delimiters reaches, the loop body raises
    [KeyError]. *)
Theorem calibration_lookup (delimiters_table : list (string * list (Q * Q)))
    (channel_mapping : gmap string (list scalar)) (ADC_to_Ch : gmap string (gmap Z scalar))
    (MG_CNCS : bool) (size : nat) (st : state) (w : Z) (attribute : string) :
  get_ADC_to_Ch delimiters_table channel_mapping = Ok ADC_to_Ch →
  reachable MG_CNCS ADC_to_Ch size st → isOpen st = true → is_Data w = true →
  attributes MG_CNCS !! Z.to_nat (get_Channel w) = Some attribute →
  String.length attribute = 8%nat →
  ∃ w_or_g table,
    wires_or_grids !! slice_first attribute = Some w_or_g ∧
    ADC_to_Ch !! w_or_g = Some table ∧
    (∀ adc, 0 ≤ adc < 4096 →
       ∃ ch, table !! adc = Some ch ∧ channel_value channel_mapping ch) ∧
    match table !! get_ADC w with
    | Some physical_Ch =>
        match int64_of physical_Ch with
        | Ok z =>
            ∃ st', body MG_CNCS ADC_to_Ch st w = Ok st' ∧
              cell (events st')
                (String.append (slice_0_3 attribute) (slice_last2 attribute)) (index st)
                = Some z ∧
              cell (events st') attribute (index st) = Some (get_ADC w) ∧
              index st' = index st ∧ isOpen st' = true
        | Raise e => body MG_CNCS ADC_to_Ch st w = Raise e
        end
    | None => body MG_CNCS ADC_to_Ch st w = Raise KeyError
    end ∧
    int64_of (of_int (-1)) = Ok (-1) ∧
    int64_of NaN = Raise ValueError ∧
    (∀ negative, int64_of (Inf negative) = Raise OverflowError) ∧
    ∀ z : Z, int64_of (of_int z) =
      if decide (- 2 ^ 63 ≤ z < 2 ^ 63) then Ok z else Raise OverflowError.
Proof.
  intros Hget Hreach Ho Hd Hat Hlen.
  destruct (reachable_refines _ _ _ _ Hreach) as (a & Href & Hlt).
  pose proof (attributes_ok MG_CNCS) as Hall. rewrite Forall_forall in Hall.
  destruct (Hall attribute) as (Hcol & Hm & Ht & [g Hg] & Hch).
  { by eapply list_elem_of_lookup_2. }
  apply Nat.eqb_eq in Hlen. destruct (Hch Hlen) as (Hin & Hne & _).
  destruct (get_ADC_to_Ch_full_range _ _ _ Hget g (wires_or_grids_lookup _ _ Hg))
    as (table & Htab & Hfull).
  exists g, table. split_and!; try done.
  2:{ intros z. case_decide as Hz; [by apply int64_of_int|].
      unfold int64_of, of_int. rewrite py_int_inject_Z.
      destruct (- 2 ^ 63 <=? z) eqn:Hlo; [|done].
      destruct (z <? 2 ^ 63) eqn:Hhi; [|done].
      apply Z.leb_le in Hlo. apply Z.ltb_lt in Hhi. lia. }
  assert (ropen a = true) as Hoa by (by destruct Href as (_ & <- & _)).
  pose proof (row_data_eq MG_CNCS ADC_to_Ch (cur a) w attribute g Hat Hg) as Hrow.
  rewrite Hlen, Htab in Hrow. cbn [mbind option_bind] in Hrow.
  destruct (table !! get_ADC w) as [physical_Ch|] eqn:Hadc.
  - destruct (int64_of physical_Ch) as [z|e] eqn:Hz.
    + rewrite bind_Ok in Hrow.
      destruct (body_Ok_refines MG_CNCS ADC_to_Ch size st a
        (RState (rows a)
           (<[String.append (slice_0_3 attribute) (slice_last2 attribute):=z]>
              (<[attribute:=get_ADC w]> (cur a))) true) w Href Hlt)
        as (st' & Hb & Href').
      { rewrite row_body_Data by done. rewrite Hrow. done. }
      assert (index st' = index st) as Hi.
      { destruct Href as (-> & _), Href' as (-> & _). done. }
      exists st'. split_and!; try done.
      * rewrite <- Hi, (cell_current _ _ _ _ _ Href') by done.
        simpl. unfold row_get. by rewrite lookup_insert_eq.
      * rewrite <- Hi, (cell_current _ _ _ _ _ Href') by done.
        simpl. unfold row_get. rewrite lookup_insert_ne by done.
        by rewrite lookup_insert_eq.
      * by destruct Href' as (_ & -> & _).
    + eapply body_Raise_refines; [done | done |].
      rewrite row_body_Data by done. by rewrite Hrow.
  - eapply body_Raise_refines; [done | done |].
    rewrite row_body_Data by done. by rewrite Hrow.
Qed.

(** C10.  The loop body reads the signature, the channel and the ADC
    value of a word and nothing else: in an open event every word with the
    two top bits 00, whatever its sub-signature (bits 21 to 29), is
    handled as the Data word with the same bits 16-20 and 0-13.  Bits 16-20
    select the attribute and bits 0-13 are stored in its column, in the row
    being filled; a channel that selects no attribute raises [IndexError],
    and a word that is not accepted for its calibration entry the exception
    of the lookup or of the store.
    An Extended-Timestamp word, the sub-signature [DataExTs] with sixteen
    bits of time stamp, has channel 0: the fourteen low bits of the time
    stamp are stored as the raw value of the first attribute. *)
Theorem data_word_sub_signature (MG_CNCS : bool) (ADC_to_Ch : gmap string (gmap Z scalar))
    (size : nat) (st : state) :
  reachable MG_CNCS ADC_to_Ch size st → isOpen st = true →
  (∀ w, Z.land w SignatureMask = Data →
     (∀ w', Z.land w' SignatureMask = Data →
        (w' / 2 ^ 16) mod 2 ^ 5 = (w / 2 ^ 16) mod 2 ^ 5 →
        w' mod 2 ^ 14 = w mod 2 ^ 14 →
        body MG_CNCS ADC_to_Ch st w' = body MG_CNCS ADC_to_Ch st w) ∧
     match attributes MG_CNCS !! Z.to_nat ((w / 2 ^ 16) mod 2 ^ 5) with
     | None => body MG_CNCS ADC_to_Ch st w = Raise IndexError
     | Some attribute =>
         (data_word_ok MG_CNCS ADC_to_Ch w = true →
          ∃ st', body MG_CNCS ADC_to_Ch st w = Ok st' ∧
            cell (events st') attribute (index st) = Some (w mod 2 ^ 14) ∧
            index st' = index st ∧ isOpen st' = true) ∧
         (data_word_ok MG_CNCS ADC_to_Ch w = false →
          ∃ e, data_word_exn MG_CNCS ADC_to_Ch w = Some e ∧
               body MG_CNCS ADC_to_Ch st w = Raise e)
     end) ∧
  (∀ p, 0 ≤ p < 2 ^ 16 →
     Z.land (DataExTs + p) SignatureMask = Data ∧
     Z.land (DataExTs + p) SubSignatureMask = DataExTs ∧
     ∃ st' attribute,
       attributes MG_CNCS !! 0%nat = Some attribute ∧
       body MG_CNCS ADC_to_Ch st (DataExTs + p) = Ok st' ∧
       cell (events st') attribute (index st) = Some (p mod 2 ^ 14) ∧
       index st' = index st ∧ isOpen st' = true).
Proof.
  intros Hreach Ho.
  destruct (reachable_refines _ _ _ _ Hreach) as (a & Href & Hlt).
  assert (ropen a = true) as Hoa by (by destruct Href as (_ & <- & _)).
  split.
  - intros w Hsig. split.
    + intros w' Hsig' Hch Hadc. unfold body.
      fold (get_Channel w) (get_ADC w) (get_Channel w') (get_ADC w').
      rewrite Hsig, Hsig', !get_Channel_spec, !get_ADC_spec, Hch, Hadc. done.
    + assert (is_Data w = true) as Hd by (unfold is_Data; by rewrite Hsig).
      rewrite <- get_Channel_spec, <- get_ADC_spec.
      destruct (attributes MG_CNCS !! Z.to_nat (get_Channel w)) as [attribute|] eqn:Hat.
      * split; intros Hok.
        -- destruct (body_Data_ok MG_CNCS ADC_to_Ch size st a w Href Hlt Ho Hd Hok)
             as (st' & attribute' & c' & Hat' & _ & Hb & _ & Hi & Ho' & Hadc & _).
           rewrite Hat in Hat'. injection Hat' as <-. eauto.
        -- destruct (data_word_ok_false _ _ _ Hok) as [e He]. exists e.
           split; [done|]. eapply body_Raise_refines; [done | done |].
           rewrite row_body_Data by done.
           by rewrite (row_data_raise MG_CNCS ADC_to_Ch (cur a) w e He).
      * eapply body_Raise_refines; [done | done |].
        rewrite row_body_Data by done. unfold row_data.
        fold (get_Channel w). by rewrite attributes_getitem, Hat.
  - intros p Hp. destruct (ExTs_word_fields p Hp) as (Hsig & Hsub & Hch & Hadc).
    split; [done|]. split; [done|].
    assert (is_Data (DataExTs + p) = true) as Hd by (unfold is_Data; by rewrite Hsig).
    assert (data_word_ok MG_CNCS ADC_to_Ch (DataExTs + p) = true) as Hok.
    { unfold data_word_ok, data_word_exn. rewrite Hch. by destruct MG_CNCS. }
    destruct (body_Data_ok MG_CNCS ADC_to_Ch size st a _ Href Hlt Ho Hd Hok)
      as (st' & attribute & c' & Hat & _ & Hb & _ & Hi & Ho' & Hcell & _).
    rewrite Hch in Hat. rewrite Hadc in Hcell. exists st', attribute. done.
Qed.

(** ** Rounding the delimiters *)

Lemma Qfloor_half (k : Z) : Qfloor (inject_Z k + (1 # 2)) = k.
Proof.
  unfold Qfloor, Qplus, inject_Z. simpl.
  symmetry. apply Z.div_unique with (r := 1); lia.
Qed.

Lemma py_round_half (x : Q) (k : Z) :
  (x == inject_Z k + (1 # 2))%Q → py_round x = if Z.even k then k else k + 1.
Proof.
  intros Hx. unfold py_round.
  assert (Qfloor x = k) as -> by (rewrite Hx; apply Qfloor_half).
  assert (Qcompare (x - inject_Z k) (1 # 2) = Eq) as ->; [|done].
  apply Qeq_alt. rewrite Hx. ring.
Qed.

Lemma py_round_nearest (x : Q) : (Qabs (x - inject_Z (py_round x)) <= 1 # 2)%Q.
Proof.
  unfold py_round.
  pose proof (Qfloor_le x) as Hlo. pose proof (Qlt_floor x) as Hhi.
  rewrite inject_Z_plus in Hhi. change (inject_Z 1) with 1%Q in Hhi.
  apply Qabs_Qle_condition.
  destruct (Qcompare (x - inject_Z (Qfloor x)) (1 # 2)) eqn:Hc;
    [apply Qeq_alt in Hc; destruct (Z.even (Qfloor x))
    | apply Qlt_alt in Hc | apply Qgt_alt in Hc];
    rewrite ?inject_Z_plus; change (inject_Z 1) with 1%Q;
    revert Hlo Hhi Hc; generalize (inject_Z (Qfloor x)); intros q Hlo Hhi Hc; lra.
Qed.

Lemma assign_loop_eq (ADC_to_Ch : gmap string (gmap Z scalar)) (key : string)
    (channel : scalar) (ks : list Z) (table : gmap Z scalar) :
  ADC_to_Ch !! key = Some table →
  assign_loop ADC_to_Ch key channel ks =
    Ok (<[key:=foldl (λ t k, <[k:=channel]> t) table ks]> ADC_to_Ch).
Proof.
  revert ADC_to_Ch table. induction ks as [|k ks IH]; intros ADC_to_Ch table Hkey.
  - cbn [assign_loop foldl]. by rewrite insert_id.
  - cbn [assign_loop foldl]. unfold ADC_to_Ch_setitem.
    rewrite (dict_getitem_Some _ _ _ Hkey), !bind_Ok.
    rewrite (IH _ (<[k:=channel]> table)) by apply lookup_insert_eq.
    by rewrite insert_insert_eq.
Qed.

Lemma py_getitem_nat {A : Type} (l : list A) (n : nat) :
  py_getitem l (Z.of_nat n) =
    match l !! n with Some x => Ok x | None => Raise IndexError end.
Proof. rewrite py_getitem_nonneg by lia. by rewrite Nat2Z.id. Qed.

(** C7, as amended.  One step of the loop over the small delimiters of
    [get_ADC_to_Ch], for delimiters within the fourteen bits of a raw
    value: the channel of the step is given to the raw values
    from [lo] up to, not including, [hi], and to no other, where [lo] and
    [hi] are the previous delimiter and the delimiter of the step, rounded
    by [round]: each is a nearest integer of its delimiter, and the even one
    when the delimiter is half way between two integers, so that [k + 0.5]
    gives [k] when [k] is even and [k + 1] when [k] is odd. *)
Theorem small_delimiters_round (channel_mapping : gmap string (list scalar))
    (key : string) (layers i j : nat) (previous_value value : Q)
    (ADC_to_Ch : gmap string (gmap Z scalar)) (mapping : list scalar)
    (channel : scalar) (table : gmap Z scalar) :
  channel_mapping !! key = Some mapping →
  mapping !! (i * layers + j)%nat = Some channel →
  ADC_to_Ch !! key = Some table →
  (0 <= previous_value <= 16384)%Q → (0 <= value <= 16384)%Q →
  ∃ lo hi table',
    small_delimiters_loop channel_mapping key layers i j previous_value [value] ADC_to_Ch
      = Ok (<[key:=table']> ADC_to_Ch) ∧
    (∀ adc, table' !! adc =
       if decide (lo ≤ adc < hi) then Some channel else table !! adc) ∧
    (Qabs (previous_value - inject_Z lo) <= 1 # 2)%Q ∧
    (Qabs (value - inject_Z hi) <= 1 # 2)%Q ∧
    (∀ k, (previous_value == inject_Z k + (1 # 2))%Q →
          lo = if Z.even k then k else k + 1) ∧
    (∀ k, (value == inject_Z k + (1 # 2))%Q → hi = if Z.even k then k else k + 1).
Proof.
  intros Hmap Hch Hkey _ _.
  exists (py_round previous_value), (py_round value).
  eexists. split_and!.
  - cbn [small_delimiters_loop].
    rewrite (dict_getitem_Some _ _ _ Hmap), bind_Ok, py_getitem_nat, Hch, bind_Ok.
    rewrite (assign_loop_eq _ _ _ _ _ Hkey), bind_Ok. reflexivity.
  - intros adc. rewrite foldl_insert_lookup.
    destruct (decide (adc ∈ seqZ (py_round previous_value)
                              (py_round value - py_round previous_value))) as [Hin|Hin].
    + rewrite decide_True; [done|]. apply elem_of_seqZ in Hin. lia.
    + rewrite decide_False; [done|]. rewrite elem_of_seqZ in Hin. lia.
  - apply py_round_nearest.
  - apply py_round_nearest.
  - intros k. apply py_round_half.
  - intros k. apply py_round_half.
Qed.

(** ** A calibration table *)

(** C8.  The loop over the delimiters of one key, with three layers, the
    single range from 0 to 12 and the channels 10, 11, 12: the raw values
    0 to 3 go to channel 10, 4 to 7 to channel 11, 8 to 11 to channel 12;
    12 and every other raw value below 4096 keep -1; the table has no other
    key, and the table of the other group is left as it was. *)
Theorem calibration_round_trip :
  ∃ ADC_to_Ch table,
    delimiters_loop (<["Wires":=[of_int 10; of_int 11; of_int 12]]> ∅) "Wires" 3 0
      [(0%Q, 12%Q)] initial_ADC_to_Ch = Ok ADC_to_Ch ∧
    ADC_to_Ch !! "Wires" = Some table ∧
    ADC_to_Ch !! "Grids" = Some unmapped_table ∧
    ∀ adc : Z,
      table !! adc =
        if decide (0 ≤ adc < 4) then Some (of_int 10)
        else if decide (4 ≤ adc < 8) then Some (of_int 11)
        else if decide (8 ≤ adc < 12) then Some (of_int 12)
        else if decide (12 ≤ adc < 4096) then Some (of_int (-1))
        else None.
Proof.
  pose (expected := λ adc : Z,
        (if decide (0 ≤ adc < 4) then Some (of_int 10)
         else if decide (4 ≤ adc < 8) then Some (of_int 11)
         else if decide (8 ≤ adc < 12) then Some (of_int 12)
         else if decide (12 ≤ adc < 4096) then Some (of_int (-1))
         else None) : option scalar).
  assert (match delimiters_loop (<["Wires":=[of_int 10; of_int 11; of_int 12]]> ∅)
                  "Wires" 3 0 [(0%Q, 12%Q)] initial_ADC_to_Ch with
          | Ok d =>
              match d !! "Wires", d !! "Grids" with
              | Some t, Some g =>
                  forallb (λ adc, bool_decide (t !! adc = expected adc)) (seqZ 0 4096)
                  && forallb (λ kv, bool_decide (0 ≤ kv.1 < 4096)) (map_to_list t)
                  && bool_decide (g = unmapped_table)
              | _, _ => false
              end
          | Raise _ => false
          end = true) as Hcheck.
  { vm_compute. reflexivity. }
  destruct (delimiters_loop _ _ _ _ _ _) as [d|e]; [|done].
  destruct (d !! "Wires") as [t|] eqn:Ht; [|done].
  destruct (d !! "Grids") as [g|] eqn:Hg; [|done].
  apply andb_true_iff in Hcheck as [[Hin Hdom]%andb_true_iff ->%bool_decide_eq_true].
  rewrite forallb_forall in Hin. rewrite forallb_forall in Hdom.
  exists d, t. split_and!; try done.
  intros adc. fold (expected adc).
  destruct (decide (0 ≤ adc < 4096)) as [Hr|Hr].
  - apply (bool_decide_eq_true _). apply Hin.
    apply list_elem_of_In, elem_of_seqZ. lia.
  - destruct (t !! adc) as [v|] eqn:Hv.
    + exfalso. apply Hr.
      assert (bool_decide (0 ≤ (adc, v).1 < 4096) = true) as Hb.
      { apply Hdom. by apply list_elem_of_In, elem_of_map_to_list. }
      by apply bool_decide_eq_true in Hb.
    + unfold expected. repeat case_decide; try done; lia.
Qed.

(** ** One event *)

(** C9, as amended.  Header (module 0), Data (channel 0, ADC 5),
    End-of-Event (time of flight 7), with the eight attributes of the
    reduced layout: the table has one row, with ToF = 7 and wADC_1 = 5 and 0
    in every other column, Module, wChADC_1 and wCh_1 among them, whatever
    the calibration dict, which is not read: wADC_1 is not a name of eight
    characters. *)
Theorem scenario_one_event (ADC_to_Ch : gmap string (gmap Z scalar)) :
  ∃ t, cluster_data [0x40000000; 0x00000005; 0xC0000007] ADC_to_Ch true = Ok t ∧
    nrows t = 1%nat ∧
    ∀ key, cell t key 0 =
      if decide (key ∈ columns true)
      then Some (if decide (key = "ToF") then 7
                 else if decide (key = "wADC_1") then 5 else 0)
      else None.
Proof.
  exists (<["ToF":=[7]]> (<["wADC_1":=[5]]> (initial_events true 1))).
  split_and!.
  - vm_compute. reflexivity.
  - reflexivity.
  - intros key. unfold cell.
    destruct (decide (key = "ToF")) as [->|Ht]; [reflexivity|].
    rewrite lookup_insert_ne by done.
    destruct (decide (key = "wADC_1")) as [->|Hw]; [reflexivity|].
    rewrite lookup_insert_ne by done.
    rewrite initial_events_lookup. by case_decide.
Qed.

(** ** The properties at concrete inputs *)

(** The calibration dict of the example tables. *)
Lemma demo_ADC_to_Ch :
  ∃ ADC_to_Ch wires,
    get_ADC_to_Ch demo_delimiters_table demo_channel_mapping = Ok ADC_to_Ch ∧
    ADC_to_Ch !! "Wires" = Some wires ∧
    wires !! 5 = Some (of_int 101) ∧ wires !! 4096 = None.
Proof.
  assert (match get_ADC_to_Ch demo_delimiters_table demo_channel_mapping with
          | Ok d =>
              match d !! "Wires" with
              | Some wires =>
                  bool_decide (wires !! 5 = Some (of_int 101))
                  && bool_decide (wires !! 4096 = None)
              | None => false
              end
          | Raise _ => false
          end = true) as Hcheck by (vm_compute; reflexivity).
  destruct (get_ADC_to_Ch _ _) as [d|e]; [|done].
  destruct (d !! "Wires") as [wires|] eqn:Hw; [|done].
  apply andb_true_iff in Hcheck as [H5%bool_decide_eq_true H4096%bool_decide_eq_true].
  by exists d, wires.
Qed.

Lemma data_word_exn_grouped (MG_CNCS : bool) (ADC_to_Ch : gmap string (gmap Z scalar))
    (w : Z) (attribute w_or_g : string) (table : gmap Z scalar) :
  attributes MG_CNCS !! Z.to_nat (get_Channel w) = Some attribute →
  (String.length attribute =? 8)%nat = true →
  wires_or_grids !! slice_first attribute = Some w_or_g →
  ADC_to_Ch !! w_or_g = Some table →
  data_word_exn MG_CNCS ADC_to_Ch w =
    match table !! get_ADC w with
    | None => Some KeyError
    | Some physical_Ch =>
        match int64_of physical_Ch with Ok _ => None | Raise e => Some e end
    end.
Proof. unfold data_word_exn. by intros -> -> -> ->. Qed.

(** A Data word that is not accepted, met in an open event, ends the call. *)
Lemma cluster_data_Data_raise (MG_CNCS : bool) (ADC_to_Ch : gmap string (gmap Z scalar))
    (pre : list Z) (w : Z) (post : list Z) (t : gmap string (list Z)) (e : exn) :
  cluster_data pre ADC_to_Ch MG_CNCS = Ok t → open_after false pre = true →
  is_Data w = true → data_word_exn MG_CNCS ADC_to_Ch w = Some e →
  cluster_data (pre ++ w :: post) ADC_to_Ch MG_CNCS = Raise e.
Proof.
  intros (a & Hpre & ->)%cluster_data_Ok Hopen Hd Hok.
  pose proof (row_loop_open _ _ _ _ _ Hpre) as Ho. simpl in Ho. rewrite Hopen in Ho.
  rewrite cluster_data_rows, row_loop_app, Hpre. simpl.
  rewrite row_body_Data by done.
  by rewrite (row_data_raise MG_CNCS ADC_to_Ch (cur a) w e Hok).
Qed.

Lemma cluster_data_well_formed_witness :
  well_formed [0x40000000; 0x00000005; 0xC0000007] = true ∧
  decodable true ∅ [0x40000000; 0x00000005; 0xC0000007] = true ∧
  ∃ t, cluster_data [0x40000000; 0x00000005; 0xC0000007] ∅ true = Ok t ∧
       nrows t = 1%nat.
Proof.
  split; [reflexivity|]. split; [reflexivity|].
  destruct (cluster_data_well_formed true ∅ [0x40000000; 0x00000005; 0xC0000007]
              eq_refl eq_refl) as (t & Ht & Hn & _).
  exists t. split; [exact Ht | exact Hn].
Defined.

(** C2 does not hold as it is worded.  A stream with no Header has every
    Header followed by exactly one End-of-Event, and its End-of-Event words
    commit no row.  And where Headers and End-of-Events alternate, a Data
    word with an ADC value the calibration table has no key for (channel 2,
    wChADC_1, and ADC 4096) makes the call raise: no table is returned. *)
Lemma rows_per_EoE_counterexample :
  ∃ ADC_to_Ch,
    get_ADC_to_Ch demo_delimiters_table demo_channel_mapping = Ok ADC_to_Ch ∧
    (headers_closed [0xC0000000] = true ∧ count_EoE [0xC0000000] = 1%nat ∧
     ∃ t, cluster_data [0xC0000000] ADC_to_Ch true = Ok t ∧ nrows t = 0%nat) ∧
    (headers_closed [0x40000000; 0x00021000; 0xC0000007] = true ∧
     well_formed [0x40000000; 0x00021000; 0xC0000007] = true ∧
     count_EoE [0x40000000; 0x00021000; 0xC0000007] = 1%nat ∧
     cluster_data [0x40000000; 0x00021000; 0xC0000007] ADC_to_Ch true = Raise KeyError).
Proof.
  destruct demo_ADC_to_Ch as (d & wires & Hget & Hw & _ & H4096).
  exists d. split; [exact Hget|]. split.
  - split; [reflexivity|]. split; [reflexivity|].
    exists (initial_events true 0). split; [vm_compute; reflexivity | reflexivity].
  - split; [reflexivity|]. split; [reflexivity|]. split; [reflexivity|].
    apply (cluster_data_Data_raise true d [0x40000000] 0x00021000 [0xC0000007]
             (initial_events true 0)); [reflexivity | reflexivity | reflexivity |].
    rewrite (data_word_exn_grouped true d _ "wChADC_1" "Wires" wires)
      by (reflexivity || exact Hw).
    change (get_ADC 0x00021000) with 4096. by rewrite H4096.
Qed.

Lemma channel_out_of_range_witness :
  cluster_data [0x40000000] ∅ true = Ok (initial_events true 0) ∧
  is_Data 0x001F0005 = true ∧
  Z.of_nat (length (attributes true)) ≤ get_Channel 0x001F0005 ∧
  open_after false [0x40000000] = true ∧
  cluster_data ([0x40000000] ++ 0x001F0005 :: [0xC0000007]) ∅ true = Raise IndexError.
Proof.
  assert (cluster_data [0x40000000] ∅ true = Ok (initial_events true 0)) as Hpre
    by (vm_compute; reflexivity).
  assert (Z.of_nat (length (attributes true)) ≤ get_Channel 0x001F0005) as Hch
    by (vm_compute; discriminate).
  split; [exact Hpre|]. split; [reflexivity|]. split; [exact Hch|].
  split; [reflexivity|].
  exact (proj1 (channel_out_of_range true ∅ [0x40000000] 0x001F0005 [0xC0000007]
                  (initial_events true 0) Hpre eq_refl Hch) eq_refl).
Defined.

(** C3 does not hold: Header, a Data word with channel 31, End-of-Event,
    with the eight attributes of the reduced layout.  The word is not
    passed over; [attributes[31]] raises and the call returns no table. *)
Lemma channel_skip_counterexample :
  is_Data 0x001F0005 = true ∧ get_Channel 0x001F0005 = 31 ∧
  length (attributes true) = 8%nat ∧
  ∃ ADC_to_Ch,
    get_ADC_to_Ch demo_delimiters_table demo_channel_mapping = Ok ADC_to_Ch ∧
    cluster_data [0x40000000; 0x001F0005; 0xC0000007] ADC_to_Ch true = Raise IndexError.
Proof.
  split; [reflexivity|]. split; [reflexivity|]. split; [reflexivity|].
  destruct demo_ADC_to_Ch as (d & _ & Hget & _).
  exists d. split; [exact Hget|]. vm_compute. reflexivity.
Qed.

Lemma reachable_after_Header (ADC_to_Ch : gmap string (gmap Z scalar)) :
  reachable true ADC_to_Ch 3 (State (initial_events true 3) true 0).
Proof.
  exists [0x40000000]. split; [simpl; lia|]. vm_compute. reflexivity.
Qed.

Lemma calibration_lookup_witness :
  ∃ ADC_to_Ch st',
    get_ADC_to_Ch demo_delimiters_table demo_channel_mapping = Ok ADC_to_Ch ∧
    attributes true !! Z.to_nat (get_Channel 0x00020005) = Some "wChADC_1" ∧
    body true ADC_to_Ch (State (initial_events true 3) true 0) 0x00020005 = Ok st' ∧
    cell (events st') "wCh_1" 0 = Some 101.
Proof.
  destruct demo_ADC_to_Ch as (d & wires & Hget & Hw & H5 & _).
  destruct (calibration_lookup demo_delimiters_table demo_channel_mapping d true 3
              (State (initial_events true 3) true 0) 0x00020005 "wChADC_1"
              Hget (reachable_after_Header d) eq_refl eq_refl eq_refl eq_refl)
    as (g & table & Hg & Htab & _ & Hm & _).
  assert (g = "Wires") as -> by (vm_compute in Hg; congruence).
  rewrite Hw in Htab. injection Htab as <-.
  change (get_ADC 0x00020005) with 5 in Hm. rewrite H5 in Hm.
  rewrite int64_of_int in Hm by lia.
  destruct Hm as (st' & Hb & Hc & _).
  exists d, st'. split; [exact Hget|]. split; [reflexivity|].
  split; [exact Hb | exact Hc].
Defined.

(** C4 does not hold: the ADC field has fourteen bits and the table of
    [get_ADC_to_Ch] has keys up to 4095.  Header, a Data word with channel 2
    (wChADC_1) and ADC 4096, End-of-Event: the lookup raises [KeyError], no
    -1 is recorded and no table is returned. *)
Lemma adc_without_key_counterexample :
  get_ADC 0x00021000 = 4096 ∧
  attributes true !! Z.to_nat (get_Channel 0x00021000) = Some "wChADC_1" ∧
  ∃ ADC_to_Ch wires,
    get_ADC_to_Ch demo_delimiters_table demo_channel_mapping = Ok ADC_to_Ch ∧
    ADC_to_Ch !! "Wires" = Some wires ∧ wires !! 4096 = None ∧
    cluster_data [0x40000000; 0x00021000; 0xC0000007] ADC_to_Ch true = Raise KeyError.
Proof.
  split; [reflexivity|]. split; [reflexivity|].
  destruct demo_ADC_to_Ch as (d & wires & Hget & Hw & _ & H4096).
  exists d, wires. split; [exact Hget|]. split; [exact Hw|]. split; [exact H4096|].
  apply (cluster_data_Data_raise true d [0x40000000] 0x00021000 [0xC0000007]
           (initial_events true 0)); [reflexivity | reflexivity | reflexivity |].
  rewrite (data_word_exn_grouped true d _ "wChADC_1" "Wires" wires)
    by (reflexivity || exact Hw).
  change (get_ADC 0x00021000) with 4096. by rewrite H4096.
Qed.

Lemma header_in_open_event_witness :
  isOpen (State (initial_events true 3) true 0) = true ∧
  is_Header 0x40070000 = true ∧
  ∃ st', body true ∅ (State (initial_events true 3) true 0) 0x40070000 = Ok st' ∧
         index st' = 0%nat ∧ cell (events st') "Module" 0 = Some 7.
Proof.
  split; [reflexivity|]. split; [reflexivity|].
  destruct (header_in_open_event true ∅ 3 (State (initial_events true 3) true 0)
              0x40070000 (reachable_after_Header ∅) eq_refl eq_refl)
    as (st' & Hb & Hi & _ & _ & _ & Hc & _).
  exists st'. split; [exact Hb|]. split; [exact Hi | exact Hc].
Defined.

Lemma unterminated_event_discarded_witness :
  is_Header 0x40010000 = true ∧
  cluster_data ([0x40000000; 0x00000005; 0xC0000007] ++ 0x40010000 :: [0x00010003])
    ∅ true =
  cluster_data [0x40000000; 0x00000005; 0xC0000007] ∅ true.
Proof.
  split; [reflexivity|].
  assert (Forall (λ w, is_EoE w = false) [0x00010003]) as HE.
  { apply Forall_cons_2; [reflexivity | apply Forall_nil_2]. }
  apply (proj2 (unterminated_event_discarded true ∅
                  [0x40000000; 0x00000005; 0xC0000007] 0x40010000 [0x00010003]
                  eq_refl HE)).
  apply Forall_cons_2; [intros _; reflexivity | apply Forall_nil_2].
Defined.

Lemma data_word_sub_signature_witness :
  isOpen (State (initial_events true 3) true 0) = true ∧
  Z.land 0x04810005 SignatureMask = Data ∧
  Z.land 0x04810005 SubSignatureMask = DataExTs ∧
  body true ∅ (State (initial_events true 3) true 0) 0x00010005 =
  body true ∅ (State (initial_events true 3) true 0) 0x04810005.
Proof.
  split; [reflexivity|]. split; [reflexivity|]. split; [reflexivity|].
  apply (proj1 (proj1 (data_word_sub_signature true ∅ 3
                         (State (initial_events true 3) true 0)
                         (reachable_after_Header ∅) eq_refl)
                  0x04810005 eq_refl));
    reflexivity.
Defined.

Lemma small_delimiters_round_witness :
  ∃ table',
    small_delimiters_loop (<["Wires":=[of_int 7]]> ∅) "Wires" 16 0 0
      (1 # 2) [(5 # 2)%Q] (<["Wires":=∅]> ∅)
      = Ok (<["Wires":=table']> (<["Wires":=∅]> ∅)) ∧
    table' !! 0 = Some (of_int 7) ∧ table' !! 1 = Some (of_int 7) ∧ table' !! 2 = None.
Proof.
  assert ((<["Wires":=[of_int 7]]> ∅ : gmap string (list scalar)) !! "Wires"
          = Some [of_int 7]) as Hmap by (vm_compute; reflexivity).
  assert ((<["Wires":=∅]> ∅ : gmap string (gmap Z scalar)) !! "Wires" = Some ∅)
    as Hkey by (vm_compute; reflexivity).
  assert (0 <= 1 # 2 <= 16384)%Q as Hprev by (split; discriminate).
  assert (0 <= 5 # 2 <= 16384)%Q as Hvalue by (split; discriminate).
  destruct (small_delimiters_round (<["Wires":=[of_int 7]]> ∅) "Wires" 16 0 0
              (1 # 2) (5 # 2) (<["Wires":=∅]> ∅) [of_int 7] (of_int 7) ∅
              Hmap eq_refl Hkey Hprev Hvalue)
    as (lo & hi & table' & Hrun & Hlook & _ & _ & Hlo & Hhi).
  assert (lo = 0) as Hlo0 by (apply (Hlo 0); reflexivity).
  assert (hi = 2) as Hhi2 by (apply (Hhi 2); reflexivity).
  rewrite Hlo0, Hhi2 in Hlook.
  exists table'. split; [exact Hrun|]. rewrite !Hlook.
  split; [reflexivity|]. split; reflexivity.
Defined.

(** C7 does not hold: 0.5 is rounded to 0 and 2.5 to 2.  For the range
    from 0 to 8 of the wires, with their sixteen layers, the delimiters 0,
    0.5, 1, 1.5, ... give the bounds 0, 0, 1, 2, 2, 2, ...: the first
    interval, from 0 to 0, is empty, and [get_ADC_to_Ch] gives the raw value
    0 the second channel of the mapping, 101, the raw value 1 the third and
    the raw value 2 the sixth; rounding half away from zero makes the first
    interval the one from 0 to 1, and gives the raw value 0 the first
    channel, 100. *)
Lemma round_half_counterexample :
  py_round (inject_Z 0 + (1 # 2)) = 0 ∧ py_round (inject_Z 2 + (1 # 2)) = 2 ∧
  py_round <$> linspace 0 8 (16 + 1) =
    [0; 0; 1; 2; 2; 2; 3; 4; 4; 4; 5; 6; 6; 6; 7; 8; 8] ∧
  ∃ ADC_to_Ch wires,
    get_ADC_to_Ch [("Wires", [(0%Q, 8%Q)])] demo_channel_mapping = Ok ADC_to_Ch ∧
    ADC_to_Ch !! "Wires" = Some wires ∧
    wires !! 0 = Some (of_int 101) ∧ wires !! 1 = Some (of_int 102) ∧ wires !! 2 = Some (of_int 105).
Proof.
  split; [reflexivity|]. split; [reflexivity|]. split; [vm_compute; reflexivity|].
  assert (match get_ADC_to_Ch [("Wires", [(0%Q, 8%Q)])] demo_channel_mapping with
          | Ok d =>
              match d !! "Wires" with
              | Some wires =>
                  bool_decide (wires !! 0 = Some (of_int 101))
                  && bool_decide (wires !! 1 = Some (of_int 102))
                  && bool_decide (wires !! 2 = Some (of_int 105))
              | None => false
              end
          | Raise _ => false
          end = true) as Hcheck by (vm_compute; reflexivity).
  destruct (get_ADC_to_Ch _ _) as [d|e]; [|done].
  destruct (d !! "Wires") as [wires|] eqn:Hw; [|done].
  apply andb_true_iff in Hcheck as [[H0 H1]%andb_true_iff H2].
  apply bool_decide_eq_true in H0, H1, H2.
  by exists d, wires.
Qed.

(** C9 does not hold: with a calibration dict in which the raw value 5 of
    the wires is channel 101, the row has 0 in wChADC_1, and in wCh_1. *)
Lemma scenario_calibrated_counterexample :
  ∃ ADC_to_Ch wires t,
    get_ADC_to_Ch demo_delimiters_table demo_channel_mapping = Ok ADC_to_Ch ∧
    ADC_to_Ch !! "Wires" = Some wires ∧ wires !! 5 = Some (of_int 101) ∧
    cluster_data [0x40000000; 0x00000005; 0xC0000007] ADC_to_Ch true = Ok t ∧
    cell t "wChADC_1" 0 = Some 0 ∧ cell t "wCh_1" 0 = Some 0 ∧
    cell t "wADC_1" 0 = Some 5.
Proof.
  destruct demo_ADC_to_Ch as (d & wires & Hget & Hw & H5 & _).
  exists d, wires, (<["ToF":=[7]]> (<["wADC_1":=[5]]> (initial_events true 1))).
  split; [exact Hget|]. split; [exact Hw|]. split; [exact H5|].
  split; [vm_compute; reflexivity|].
  split; [reflexivity|]. split; reflexivity.
Qed.

(** * More properties of [cluster_data] *)

Lemma cluster_data_of_rows (data : list Z) (ADC_to_Ch : gmap string (gmap Z scalar))
    (MG_CNCS : bool) (a : rstate) :
  row_loop MG_CNCS ADC_to_Ch (RState [] ∅ false) data = Ok a →
  cluster_data data ADC_to_Ch MG_CNCS = Ok (table_of MG_CNCS (rows a)).
Proof. intros Hrun. apply cluster_data_Ok. eauto. Qed.

(** ** The shape of the table *)

(** X1.  A table [cluster_data] returns has the columns Module, ToF, the
    attributes and the channels of the layout and no other, and its columns
    have all the same length. *)
Theorem cluster_data_shape (data : list Z) (ADC_to_Ch : gmap string (gmap Z scalar))
    (MG_CNCS : bool) (t : gmap string (list Z)) :
  cluster_data data ADC_to_Ch MG_CNCS = Ok t →
  (∀ key, is_Some (t !! key) ↔ key ∈ columns MG_CNCS) ∧
  (∀ key col, t !! key = Some col → length col = nrows t) ∧
  (nrows t ≤ length data)%nat.
Proof.
  intros (a & Hrun & ->)%cluster_data_Ok. split_and!.
  - intros key. rewrite table_of_lookup. case_decide.
    + split; [done | by eexists].
    + split; [by intros [? ?] | done].
  - intros key col Hcol. rewrite nrows_table_of. by eapply table_of_length.
  - rewrite nrows_table_of. apply row_loop_length in Hrun. simpl in Hrun. lia.
Qed.

Lemma cluster_data_shape_witness :
  cluster_data [0x40000000; 0xC0000007] ∅ false =
    Ok (table_of false [<["ToF":=7]> (<["Module":=0]> ∅)]) ∧
  ∀ key, is_Some (table_of false [<["ToF":=7]> (<["Module":=0]> ∅)] !! key)
         ↔ key ∈ columns false.
Proof.
  assert (cluster_data [0x40000000; 0xC0000007] ∅ false
          = Ok (table_of false [<["ToF":=7]> (<["Module":=0]> ∅)])) as Hrun.
  { apply (cluster_data_of_rows _ _ _ (RState [<["ToF":=7]> (<["Module":=0]> ∅)] ∅ false)).
    vm_compute. reflexivity. }
  split; [exact Hrun|].
  exact (proj1 (cluster_data_shape _ _ _ _ Hrun)).
Defined.

(** ** Words that are passed over *)

Lemma table_of_nil (MG_CNCS : bool) : table_of MG_CNCS [] = initial_events MG_CNCS 0.
Proof.
  apply map_eq. intros key. rewrite table_of_lookup, initial_events_lookup.
  by case_decide.
Qed.

Lemma row_loop_no_Header (MG_CNCS : bool) (ADC_to_Ch : gmap string (gmap Z scalar))
    (data : list Z) (a : rstate) :
  Forall (λ w, is_Header w = false) data → ropen a = false →
  row_loop MG_CNCS ADC_to_Ch a data = Ok a.
Proof.
  intros Hall Ho. induction Hall as [|w rest Hw _ IH]; simpl; [done|].
  rewrite row_body_closed by done. simpl. exact IH.
Qed.

(** X2.  On a stream with no Header [cluster_data] reads no field of any
    word: it does not raise, whatever the channels and ADC values of the
    Data words, and returns the table with no row. *)
Theorem cluster_data_no_Header (data : list Z) (ADC_to_Ch : gmap string (gmap Z scalar))
    (MG_CNCS : bool) :
  Forall (λ w, is_Header w = false) data →
  cluster_data data ADC_to_Ch MG_CNCS = Ok (initial_events MG_CNCS 0).
Proof.
  intros Hall. rewrite cluster_data_rows.
  rewrite row_loop_no_Header by done. simpl. by rewrite table_of_nil.
Qed.

Lemma cluster_data_no_Header_witness :
  Forall (λ w, is_Header w = false) [0x001F3FFF; 0xC0000001] ∧
  cluster_data [0x001F3FFF; 0xC0000001] ∅ true = Ok (initial_events true 0).
Proof.
  assert (Forall (λ w, is_Header w = false) [0x001F3FFF; 0xC0000001]) as Hall.
  { apply Forall_cons_2; [reflexivity|].
    apply Forall_cons_2; [reflexivity | apply Forall_nil_2]. }
  split; [exact Hall|]. exact (cluster_data_no_Header _ ∅ true Hall).
Defined.

Lemma row_loop_filter_signature (MG_CNCS : bool) (ADC_to_Ch : gmap string (gmap Z scalar))
    (data : list Z) (a : rstate) :
  row_loop MG_CNCS ADC_to_Ch a (filter (λ w, has_signature w = true) data) =
  row_loop MG_CNCS ADC_to_Ch a data.
Proof.
  revert a. induction data as [|w rest IH]; intros a; [done|].
  destruct (has_signature w) eqn:Hs.
  - rewrite filter_cons_True by done. simpl.
    destruct (row_body MG_CNCS ADC_to_Ch a w); simpl; [apply IH | done].
  - rewrite filter_cons_False by (by rewrite Hs). simpl.
    unfold has_signature in Hs.
    apply orb_false_iff in Hs as [[Hh Hd]%orb_false_iff He].
    rewrite row_body_Other by done. simpl. apply IH.
Qed.

(** X3.  The words with signature 10, neither Header nor Data nor
    End-of-Event, have no effect wherever they stand: the stream without
    them gives the same result. *)
Theorem cluster_data_filter_signature (data : list Z)
    (ADC_to_Ch : gmap string (gmap Z scalar)) (MG_CNCS : bool) :
  cluster_data (filter (λ w, has_signature w = true) data) ADC_to_Ch MG_CNCS =
  cluster_data data ADC_to_Ch MG_CNCS.
Proof. by rewrite !cluster_data_rows, row_loop_filter_signature. Qed.

(** ** The first exception ends the call *)

(** X4.  When [cluster_data] raises on a stream it raises the same
    exception on every stream that starts with it: the words after the one
    that raises are not read. *)
Theorem cluster_data_raise_prefix (pre post : list Z)
    (ADC_to_Ch : gmap string (gmap Z scalar)) (MG_CNCS : bool) (e : exn) :
  cluster_data pre ADC_to_Ch MG_CNCS = Raise e →
  cluster_data (pre ++ post) ADC_to_Ch MG_CNCS = Raise e.
Proof.
  rewrite !cluster_data_rows, row_loop_app.
  destruct (row_loop MG_CNCS ADC_to_Ch _ pre) as [a|e']; simpl; [done|].
  by intros [= <-].
Qed.

Lemma cluster_data_raise_prefix_witness :
  cluster_data [0x40000000; 0x001F0000] ∅ true = Raise IndexError ∧
  cluster_data ([0x40000000; 0x001F0000] ++ [0xC0000000]) ∅ true = Raise IndexError.
Proof.
  assert (cluster_data [0x40000000; 0x001F0000] ∅ true = Raise IndexError) as Hpre
    by (vm_compute; reflexivity).
  split; [exact Hpre|].
  exact (cluster_data_raise_prefix _ [0xC0000000] ∅ true IndexError Hpre).
Defined.

(** ** The calibration dict is read at the ADC values only *)

Lemma row_data_ext (MG_CNCS : bool) (ADC_to_Ch ADC_to_Ch' : gmap string (gmap Z scalar))
    (c : gmap string Z) (w : Z) :
  (∀ w_or_g adc, 0 ≤ adc < 2 ^ 14 →
     ADC_to_Ch !! w_or_g ≫= (λ table, table !! adc) =
     ADC_to_Ch' !! w_or_g ≫= (λ table, table !! adc)) →
  row_data MG_CNCS ADC_to_Ch c w = row_data MG_CNCS ADC_to_Ch' c w.
Proof.
  intros Hext.
  destruct (attributes MG_CNCS !! Z.to_nat (get_Channel w)) as [attribute|] eqn:Hat.
  - destruct (attributes_group MG_CNCS attribute) as [g Hg].
    { by eapply list_elem_of_lookup_2. }
    rewrite !(row_data_eq _ _ _ _ _ _ Hat Hg).
    rewrite Hext; [done|]. pose proof (get_ADC_range w). lia.
  - by rewrite !row_data_no_attribute.
Qed.

Lemma row_loop_ext (MG_CNCS : bool) (ADC_to_Ch ADC_to_Ch' : gmap string (gmap Z scalar))
    (data : list Z) (a : rstate) :
  (∀ w_or_g adc, 0 ≤ adc < 2 ^ 14 →
     ADC_to_Ch !! w_or_g ≫= (λ table, table !! adc) =
     ADC_to_Ch' !! w_or_g ≫= (λ table, table !! adc)) →
  row_loop MG_CNCS ADC_to_Ch a data = row_loop MG_CNCS ADC_to_Ch' a data.
Proof.
  intros Hext. revert a. induction data as [|w rest IH]; intros a; simpl; [done|].
  assert (row_body MG_CNCS ADC_to_Ch a w = row_body MG_CNCS ADC_to_Ch' a w) as ->.
  { unfold row_body. by rewrite (row_data_ext _ _ _ _ _ Hext). }
  destruct (row_body MG_CNCS ADC_to_Ch' a w); simpl; [apply IH | done].
Qed.

(** X5.  [cluster_data] reads the calibration dict at ADC values of
    fourteen bits only: two dicts with the same entries for the raw values
    from 0 to 16383 give the same result, table or exception. *)
Theorem cluster_data_calibration_ext (data : list Z)
    (ADC_to_Ch ADC_to_Ch' : gmap string (gmap Z scalar)) (MG_CNCS : bool) :
  (∀ w_or_g adc, 0 ≤ adc < 2 ^ 14 →
     ADC_to_Ch !! w_or_g ≫= (λ table, table !! adc) =
     ADC_to_Ch' !! w_or_g ≫= (λ table, table !! adc)) →
  cluster_data data ADC_to_Ch MG_CNCS = cluster_data data ADC_to_Ch' MG_CNCS.
Proof.
  intros Hext. by rewrite !cluster_data_rows, (row_loop_ext _ _ _ _ _ Hext).
Qed.

Lemma cluster_data_calibration_ext_witness :
  cluster_data [0x40000000; 0x00020005; 0xC0000007]
    (<["Wires":=<[5:=of_int 101]> ∅]> ∅) true =
  cluster_data [0x40000000; 0x00020005; 0xC0000007]
    (<["Wires":=<[20000:=of_int 7]> (<[5:=of_int 101]> ∅)]> ∅) true.
Proof.
  apply cluster_data_calibration_ext. intros g adc Hadc.
  destruct (decide (g = "Wires")) as [->|Hne].
  - rewrite !lookup_insert_eq. simpl.
    assert (20000 ≠ adc) as Hne by (change (2 ^ 14) with 16384 in Hadc; lia).
    by rewrite (lookup_insert_ne _ _ _ _ Hne).
  - by rewrite !lookup_insert_ne.
Defined.

(** ** Streams cut between two events *)

Lemma row_body_tidy (MG_CNCS : bool) (ADC_to_Ch : gmap string (gmap Z scalar))
    (a a' : rstate) (w : Z) :
  row_body MG_CNCS ADC_to_Ch a w = Ok a' →
  (ropen a = false → cur a = ∅) → ropen a' = false → cur a' = ∅.
Proof.
  intros Hb Htidy Ho'.
  destruct (row_body_rows _ _ _ _ _ Hb) as [Hrows|(c & _ & Hc & _)]; [|done].
  pose proof (row_body_open _ _ _ _ _ Hb) as Ho. rewrite Ho' in Ho.
  destruct (is_Header w) eqn:Hh; [done|].
  destruct (ropen a) eqn:Hoa.
  - destruct (is_EoE w) eqn:He; [|done].
    rewrite row_body_EoE in Hb by done. by injection Hb as <-.
  - rewrite row_body_closed in Hb by done. injection Hb as <-. by apply Htidy.
Qed.

Lemma row_loop_tidy (MG_CNCS : bool) (ADC_to_Ch : gmap string (gmap Z scalar))
    (data : list Z) (a a' : rstate) :
  row_loop MG_CNCS ADC_to_Ch a data = Ok a' →
  (ropen a = false → cur a = ∅) → ropen a' = false → cur a' = ∅.
Proof.
  revert a. induction data as [|w rest IH]; intros a; simpl.
  - intros [= <-]. auto.
  - intros (a1 & Hb & Hl)%bind_Ok_inv Htidy. apply (IH _ Hl).
    by eapply row_body_tidy.
Qed.

Lemma table_of_app (MG_CNCS : bool) (rs1 rs2 : list (gmap string Z)) :
  table_of MG_CNCS (rs1 ++ rs2) = stack (table_of MG_CNCS rs1) (table_of MG_CNCS rs2).
Proof.
  apply map_eq. intros key. unfold stack.
  rewrite map_lookup_zip_with, !table_of_lookup.
  case_decide; [|done]. simpl. by rewrite fmap_app.
Qed.

(** X6.  A stream cut where no event is open can be decoded in two
    pieces: the rows of the second piece under the rows of the first are the
    table of the whole stream, and the whole raises when a piece does. *)
Theorem cluster_data_app (s1 s2 : list Z) (ADC_to_Ch : gmap string (gmap Z scalar))
    (MG_CNCS : bool) :
  open_after false s1 = false →
  cluster_data (s1 ++ s2) ADC_to_Ch MG_CNCS =
    (t1 ← cluster_data s1 ADC_to_Ch MG_CNCS;
     t2 ← cluster_data s2 ADC_to_Ch MG_CNCS;
     Ok (stack t1 t2)).
Proof.
  intros Hclosed. rewrite !cluster_data_rows, row_loop_app.
  destruct (row_loop MG_CNCS ADC_to_Ch _ s1) as [a1|e] eqn:H1; simpl; [|done].
  pose proof (row_loop_open _ _ _ _ _ H1) as Ho. simpl in Ho. rewrite Hclosed in Ho.
  pose proof (row_loop_tidy _ _ _ _ _ H1 (λ _, eq_refl) Ho) as Hcur.
  pose proof (row_loop_frame MG_CNCS ADC_to_Ch (rows a1) s2 (RState [] ∅ false)) as Hf.
  simpl in Hf. rewrite app_nil_r in Hf.
  destruct a1 as [rs c o]. simpl in *. subst c o. rewrite Hf. clear Hf.
  destruct (row_loop MG_CNCS ADC_to_Ch (RState [] ∅ false) s2) as [a2|e]; simpl; [|done].
  by rewrite table_of_app.
Qed.

Lemma cluster_data_app_witness :
  open_after false [0x40000000; 0xC0000001] = false ∧
  cluster_data ([0x40000000; 0xC0000001] ++ [0x40010000; 0xC0000002]) ∅ true =
    (t1 ← cluster_data [0x40000000; 0xC0000001] ∅ true;
     t2 ← cluster_data [0x40010000; 0xC0000002] ∅ true;
     Ok (stack t1 t2)).
Proof.
  split; [reflexivity|].
  exact (cluster_data_app [0x40000000; 0xC0000001] [0x40010000; 0xC0000002] ∅ true
           eq_refl).
Defined.

(** ** The events of any stream *)

Lemma row_data_Ok_ok (MG_CNCS : bool) (ADC_to_Ch : gmap string (gmap Z scalar))
    (c c' : gmap string Z) (w : Z) :
  row_data MG_CNCS ADC_to_Ch c w = Ok c' → data_word_ok MG_CNCS ADC_to_Ch w = true.
Proof.
  intros Hrow. destruct (data_word_ok MG_CNCS ADC_to_Ch w) eqn:Hok; [done|].
  destruct (data_word_ok_false _ _ _ Hok) as [e He].
  by rewrite (row_data_raise _ _ c _ _ He) in Hrow.
Qed.

Lemma row_data_Module (MG_CNCS : bool) (ADC_to_Ch : gmap string (gmap Z scalar))
    (c c' : gmap string Z) (w : Z) :
  row_data MG_CNCS ADC_to_Ch c w = Ok c' → c' !! "Module" = c !! "Module".
Proof.
  intros Hrow.
  destruct (row_data_ok MG_CNCS ADC_to_Ch c w (row_data_Ok_ok _ _ _ _ _ Hrow))
    as (attribute & c'' & _ & Hrow' & _ & Hmod).
  rewrite Hrow in Hrow'. by injection Hrow' as <-.
Qed.

Lemma row_loop_closed_events (MG_CNCS : bool) (ADC_to_Ch : gmap string (gmap Z scalar))
    (data : list Z) (a a' : rstate) :
  row_loop MG_CNCS ADC_to_Ch a data = Ok a' →
  ∃ rs, rows a' = rows a ++ rs ∧
    (λ r, (row_get r "Module", row_get r "ToF")) <$> rs =
      closed_events (if ropen a then Some (row_get (cur a) "Module") else None) data.
Proof.
  revert a. induction data as [|w rest IH]; intros a; simpl.
  { intros [= <-]. exists []. by rewrite app_nil_r. }
  intros (a1 & Hb & Hl)%bind_Ok_inv.
  destruct (IH _ Hl) as (rs & Hrows & Hev).
  destruct (is_Header w) eqn:Hh.
  { rewrite row_body_Header in Hb by done. injection Hb as <-. simpl in *.
    exists rs. split; [done|]. rewrite Hev. unfold row_get.
    by rewrite lookup_insert_eq. }
  destruct (ropen a) eqn:Ho.
  2:{ rewrite row_body_closed in Hb by done. injection Hb as <-.
      rewrite Ho in Hev. exists rs. split; [done|]. by destruct (is_EoE w). }
  destruct (is_EoE w) eqn:He.
  { rewrite row_body_EoE in Hb by done. injection Hb as <-. simpl in *.
    exists (<["ToF":=get_ToF w]> (cur a) :: rs). split.
    - by rewrite Hrows, <- app_assoc.
    - rewrite fmap_cons, Hev. unfold row_get.
      by rewrite lookup_insert_eq, lookup_insert_ne. }
  destruct (is_Data w) eqn:Hd.
  { rewrite row_body_Data in Hb by done.
    apply bind_Ok_inv in Hb as (c' & Hrow & [= <-]). simpl in *.
    exists rs. split; [done|]. rewrite Hev. unfold row_get.
    by rewrite (row_data_Module _ _ _ _ _ Hrow). }
  rewrite row_body_Other in Hb by done. injection Hb as <-.
  rewrite Ho in Hev. by exists rs.
Qed.

Lemma length_closed_events (data : list Z) (m : option Z) :
  (length (closed_events m data) ≤ count_EoE data)%nat ∧
  (length (closed_events m data) ≤
     (if m is Some _ then 1 else 0) + count_Header data)%nat.
Proof.
  unfold count_EoE, count_Header.
  revert m. induction data as [|w rest IH]; intros m; simpl.
  { split; lia. }
  destruct (is_Header w) eqn:Hh.
  { destruct (is_Header_true w Hh) as [_ He].
    rewrite filter_cons_False by (by rewrite He).
    rewrite (filter_cons_True (λ w, is_Header w = true)) by done. simpl.
    destruct (IH (Some (get_Module w))) as [H1 H2]. split; lia. }
  rewrite (filter_cons_False (λ w, is_Header w = true)) by (by rewrite Hh).
  destruct (is_EoE w) eqn:He.
  { rewrite filter_cons_True by done. simpl.
    destruct (IH None) as [H1 H2]. destruct m; simpl; split; lia. }
  rewrite filter_cons_False by (by rewrite He).
  apply IH.
Qed.

(** X7.  On any stream, the rows of the table are the events that an
    End-of-Event closes while a Header has opened one, in the order of the
    stream: Module holds the module of the last Header before the
    End-of-Event and ToF its time of flight.  There are no more rows than
    End-of-Event words, and no more than Headers. *)
Theorem cluster_data_events (data : list Z) (ADC_to_Ch : gmap string (gmap Z scalar))
    (MG_CNCS : bool) (t : gmap string (list Z)) :
  cluster_data data ADC_to_Ch MG_CNCS = Ok t →
  t !! "Module" = Some (fst <$> closed_events None data) ∧
  t !! "ToF" = Some (snd <$> closed_events None data) ∧
  nrows t = length (closed_events None data) ∧
  (nrows t ≤ count_EoE data)%nat ∧ (nrows t ≤ count_Header data)%nat.
Proof.
  intros (a & Hrun & ->)%cluster_data_Ok.
  destruct (row_loop_closed_events _ _ _ _ _ Hrun) as (rs & Hrows & Hev).
  simpl in *. subst rs.
  assert (length (rows a) = length (closed_events None data)) as Hlen.
  { by rewrite <- Hev, length_fmap. }
  destruct (length_closed_events data None) as [H1 H2].
  rewrite nrows_table_of, !table_of_lookup.
  rewrite !decide_True by (apply elem_of_columns; tauto).
  split_and!; [| |done|simpl in H2; lia..].
  - by rewrite <- Hev, <- list_fmap_compose.
  - by rewrite <- Hev, <- list_fmap_compose.
Qed.

Lemma cluster_data_events_witness :
  cluster_data [0xC0000009; 0x40070000; 0x40030000; 0xC0000005; 0xC0000006] ∅ true =
    Ok (table_of true [<["ToF":=5]> (<["Module":=3]> ∅)]) ∧
  table_of true [<["ToF":=5]> (<["Module":=3]> ∅)] !! "Module" =
    Some (fst <$> closed_events None
                    [0xC0000009; 0x40070000; 0x40030000; 0xC0000005; 0xC0000006]) ∧
  closed_events None [0xC0000009; 0x40070000; 0x40030000; 0xC0000005; 0xC0000006] =
    [(3, 5)].
Proof.
  assert (cluster_data [0xC0000009; 0x40070000; 0x40030000; 0xC0000005; 0xC0000006] ∅ true
          = Ok (table_of true [<["ToF":=5]> (<["Module":=3]> ∅)])) as Hrun.
  { apply (cluster_data_of_rows _ _ _ (RState [<["ToF":=5]> (<["Module":=3]> ∅)] ∅ false)).
    vm_compute. reflexivity. }
  split; [exact Hrun|]. split; [|reflexivity].
  exact (proj1 (cluster_data_events _ _ _ _ Hrun)).
Defined.

(** ** A second Header in an event *)

Lemma row_data_insert_Module (MG_CNCS : bool) (ADC_to_Ch : gmap string (gmap Z scalar))
    (c : gmap string Z) (w m : Z) :
  row_data MG_CNCS ADC_to_Ch (<["Module":=m]> c) w =
    match row_data MG_CNCS ADC_to_Ch c w with
    | Ok c' => Ok (<["Module":=m]> c')
    | Raise e => Raise e
    end.
Proof.
  destruct (attributes MG_CNCS !! Z.to_nat (get_Channel w)) as [attribute|] eqn:Hat.
  2:{ by rewrite !row_data_no_attribute. }
  pose proof (attributes_ok MG_CNCS) as Hall. rewrite Forall_forall in Hall.
  destruct (Hall attribute) as (_ & Hm & _ & [g Hg] & Hch).
  { by eapply list_elem_of_lookup_2. }
  rewrite !(row_data_eq _ _ _ _ _ _ Hat Hg).
  destruct (String.length attribute =? 8)%nat.
  - destruct (Hch eq_refl) as (_ & _ & Hm' & _).
    destruct (ADC_to_Ch !! g ≫= _) as [p|]; [|done].
    destruct (int64_of p) as [z|e]; [|done]. rewrite !bind_Ok.
    f_equal. rewrite (insert_insert_ne _ "Module") by done.
    by rewrite (insert_insert_ne _ "Module") by done.
  - f_equal. by rewrite (insert_insert_ne _ "Module") by done.
Qed.

Lemma row_loop_insert_Module (MG_CNCS : bool) (ADC_to_Ch : gmap string (gmap Z scalar))
    (ws : list Z) (rs : list (gmap string Z)) (c : gmap string Z) (m : Z) :
  Forall (λ w, is_Header w = false ∧ is_EoE w = false) ws →
  row_loop MG_CNCS ADC_to_Ch (RState rs (<["Module":=m]> c) true) ws =
    (a' ← row_loop MG_CNCS ADC_to_Ch (RState rs c true) ws;
     Ok (RState (rows a') (<["Module":=m]> (cur a')) true)).
Proof.
  intros Hws. revert c. induction Hws as [|w ws [Hh He] _ IH]; intros c; [done|].
  cbn [row_loop]. destruct (is_Data w) eqn:Hd.
  - rewrite !row_body_Data by done. cbn [cur rows].
    rewrite row_data_insert_Module.
    destruct (row_data MG_CNCS ADC_to_Ch c w) as [c'|e]; [|done].
    rewrite !bind_Ok. apply IH.
  - rewrite !row_body_Other by done. rewrite !bind_Ok. apply IH.
Qed.

(** X8.  A Header met while an event is open does not start a new row: if
    no Header and no End-of-Event lies between two Headers, the words
    between them stay in the event and only the module of the second Header
    is kept, so the stream decodes like the one with the first Header
    removed and the second moved to its place. *)
Theorem cluster_data_second_Header (pre ws post : list Z) (h1 h2 : Z)
    (ADC_to_Ch : gmap string (gmap Z scalar)) (MG_CNCS : bool) :
  is_Header h1 = true → is_Header h2 = true →
  Forall (λ w, is_Header w = false ∧ is_EoE w = false) ws →
  cluster_data (pre ++ h1 :: ws ++ h2 :: post) ADC_to_Ch MG_CNCS =
    cluster_data (pre ++ h2 :: ws ++ post) ADC_to_Ch MG_CNCS.
Proof.
  intros H1 H2 Hws. rewrite !cluster_data_rows. f_equal.
  rewrite !row_loop_app.
  destruct (row_loop MG_CNCS ADC_to_Ch (RState [] ∅ false) pre) as [a|e]; [|done].
  rewrite !bind_Ok. cbn [row_loop].
  rewrite !row_body_Header, !bind_Ok by done.
  rewrite !row_loop_app, !row_loop_insert_Module by done.
  destruct (row_loop MG_CNCS ADC_to_Ch (RState (rows a) (cur a) true) ws) as [a'|e];
    [|done].
  rewrite !bind_Ok. cbn [row_loop].
  rewrite row_body_Header, bind_Ok by done. cbn [cur rows].
  by rewrite insert_insert_eq.
Qed.

Lemma cluster_data_second_Header_witness :
  cluster_data ([] ++ 0x40010000 :: [0x00000005] ++ 0x40020000 :: [0xC0000007]) ∅ true =
    cluster_data ([] ++ 0x40020000 :: [0x00000005] ++ [0xC0000007]) ∅ true.
Proof.
  apply cluster_data_second_Header; [reflexivity | reflexivity |].
  repeat constructor.
Defined.

(** ** Two Data words of one channel *)

Lemma row_data_twice (MG_CNCS : bool) (ADC_to_Ch : gmap string (gmap Z scalar))
    (c c1 : gmap string Z) (d1 d2 : Z) :
  get_Channel d1 = get_Channel d2 →
  row_data MG_CNCS ADC_to_Ch c d1 = Ok c1 →
  row_data MG_CNCS ADC_to_Ch c1 d2 = row_data MG_CNCS ADC_to_Ch c d2.
Proof.
  intros Hch Hrow.
  destruct (attributes MG_CNCS !! Z.to_nat (get_Channel d1)) as [attribute|] eqn:Hat.
  2:{ by rewrite row_data_no_attribute in Hrow. }
  pose proof (attributes_ok MG_CNCS) as Hall. rewrite Forall_forall in Hall.
  destruct (Hall attribute) as (_ & _ & _ & [g Hg] & Hok).
  { by eapply list_elem_of_lookup_2. }
  rewrite (row_data_eq _ _ _ _ _ _ Hat Hg) in Hrow.
  rewrite Hch in Hat. rewrite !(row_data_eq _ _ _ _ _ _ Hat Hg).
  destruct (String.length attribute =? 8)%nat.
  - destruct (Hok eq_refl) as (_ & Hne & _).
    destruct (ADC_to_Ch !! g ≫= (λ table, table !! get_ADC d1)) as [p1|]; [|done].
    apply bind_Ok_inv in Hrow as (z1 & _ & [= <-]).
    destruct (ADC_to_Ch !! g ≫= (λ table, table !! get_ADC d2)) as [p2|]; [|done].
    destruct (int64_of p2) as [z2|e]; [|done]. rewrite !bind_Ok.
    f_equal. apply map_eq. intros k. rewrite !lookup_insert.
    by repeat case_decide.
  - injection Hrow as <-. by rewrite insert_insert_eq.
Qed.

(** X9.  Of two consecutive Data words with the same channel only the
    second leaves a trace, provided the first is one the decoder accepts
    (its channel has an attribute and, for a grouped attribute, its adc is
    a key of the group's table with an entry an int cell can hold): the columns the first wrote are
    overwritten by the second, and an error of the second is the same with
    or without the first. *)
Theorem cluster_data_overwrite (pre post : list Z) (d1 d2 : Z)
    (ADC_to_Ch : gmap string (gmap Z scalar)) (MG_CNCS : bool) :
  is_Data d1 = true → is_Data d2 = true →
  get_Channel d1 = get_Channel d2 →
  data_word_ok MG_CNCS ADC_to_Ch d1 = true →
  cluster_data (pre ++ d1 :: d2 :: post) ADC_to_Ch MG_CNCS =
    cluster_data (pre ++ d2 :: post) ADC_to_Ch MG_CNCS.
Proof.
  intros H1 H2 Hch Hok. rewrite !cluster_data_rows. f_equal.
  rewrite !row_loop_app.
  destruct (row_loop MG_CNCS ADC_to_Ch (RState [] ∅ false) pre) as [a|e]; [|done].
  rewrite !bind_Ok. cbn [row_loop].
  destruct (ropen a) eqn:Ho.
  - rewrite (row_body_Data _ _ a d1), (row_body_Data _ _ a d2) by done.
    destruct (row_data_ok MG_CNCS ADC_to_Ch (cur a) d1 Hok)
      as (attribute & c1 & _ & Hrow & _).
    rewrite Hrow, !bind_Ok.
    rewrite row_body_Data by done. cbn [cur rows].
    by rewrite (row_data_twice _ _ _ _ _ _ Hch Hrow).
  - destruct (is_Data_true d1 H1) as [Hh1 _].
    by rewrite (row_body_closed _ _ a d1), bind_Ok by done.
Qed.

Lemma cluster_data_overwrite_witness :
  cluster_data ([0x40000000] ++ 0x00000005 :: 0x00000006 :: [0xC0000007]) ∅ true =
    cluster_data ([0x40000000] ++ 0x00000006 :: [0xC0000007]) ∅ true.
Proof.
  apply cluster_data_overwrite; reflexivity.
Defined.

(** ** What the cells hold *)

Lemma columns_NoDup (MG_CNCS : bool) : NoDup (columns MG_CNCS).
Proof.
  destruct MG_CNCS;
    apply (bool_decide_unpack (NoDup _)); vm_compute; exact I.
Qed.

Lemma columns_disjoint (MG_CNCS : bool) (key : string) :
  (key ∈ attributes MG_CNCS → key ≠ "Module" ∧ key ≠ "ToF" ∧ key ∉ channels MG_CNCS) ∧
  (key ∈ channels MG_CNCS → key ≠ "Module" ∧ key ≠ "ToF").
Proof.
  pose proof (columns_NoDup MG_CNCS) as Hnd. unfold columns in Hnd.
  apply NoDup_cons in Hnd as [Hm Hnd]. apply NoDup_cons in Hnd as [Ht Hnd].
  apply NoDup_app in Hnd as (_ & Hdis & _).
  rewrite not_elem_of_cons, elem_of_app in Hm. rewrite elem_of_app in Ht.
  split; intros Hin; split_and!; try (intros ->; tauto). by apply Hdis.
Qed.

Lemma channel_attribute_channels (MG_CNCS : bool) (attribute : string) :
  attribute ∈ attributes MG_CNCS →
  (String.length attribute =? 8)%nat = true →
  String.append (slice_0_3 attribute) (slice_last2 attribute) ∈ channels MG_CNCS.
Proof.
  assert (Forall (λ a, (String.length a =? 8)%nat = true →
            String.append (slice_0_3 a) (slice_last2 a) ∈ channels MG_CNCS)
            (attributes MG_CNCS)) as Hall.
  { destruct MG_CNCS; apply (bool_decide_unpack (Forall _ _)); vm_compute; exact I. }
  rewrite Forall_forall in Hall. apply Hall.
Qed.

Lemma value_ok_zero (MG_CNCS : bool) (ADC_to_Ch : gmap string (gmap Z scalar)) (key : string) :
  value_ok MG_CNCS ADC_to_Ch key 0.
Proof. unfold value_ok. split_and!; intros _; lia. Qed.

Lemma value_ok_insert (MG_CNCS : bool) (ADC_to_Ch : gmap string (gmap Z scalar))
    (c : gmap string Z) (k : string) (v : Z) :
  value_ok MG_CNCS ADC_to_Ch k v →
  (∀ key, value_ok MG_CNCS ADC_to_Ch key (row_get c key)) →
  ∀ key, value_ok MG_CNCS ADC_to_Ch key (row_get (<[k:=v]> c) key).
Proof.
  intros Hv Hc key. unfold row_get. rewrite lookup_insert.
  case_decide as Hk; [by subst | apply Hc].
Qed.

Lemma value_ok_Module (MG_CNCS : bool) (ADC_to_Ch : gmap string (gmap Z scalar)) (w : Z) :
  value_ok MG_CNCS ADC_to_Ch "Module" (get_Module w).
Proof.
  destruct (columns_disjoint MG_CNCS "Module") as [Ha Hc].
  unfold value_ok. split_and!; [|done|intros []%Ha; done|intros []%Hc; done].
  intros _. rewrite get_Module_spec. apply Z.mod_pos_bound. lia.
Qed.

Lemma value_ok_ToF (MG_CNCS : bool) (ADC_to_Ch : gmap string (gmap Z scalar)) (w : Z) :
  value_ok MG_CNCS ADC_to_Ch "ToF" (get_ToF w).
Proof.
  destruct (columns_disjoint MG_CNCS "ToF") as [Ha Hc].
  unfold value_ok. split_and!; [done| |intros (_ & ? & _)%Ha; done|intros []%Hc; done].
  intros _. rewrite get_ToF_spec. apply Z.mod_pos_bound. lia.
Qed.

Lemma value_ok_attribute (MG_CNCS : bool) (ADC_to_Ch : gmap string (gmap Z scalar))
    (attribute : string) (w : Z) :
  attribute ∈ attributes MG_CNCS →
  value_ok MG_CNCS ADC_to_Ch attribute (get_ADC w).
Proof.
  intros Hin. destruct (columns_disjoint MG_CNCS attribute) as [Ha _].
  destruct (Ha Hin) as (Hm & Ht & Hc).
  unfold value_ok. split_and!; try done.
  intros _. pose proof (get_ADC_range w). change (2 ^ 14) with 16384. lia.
Qed.

Lemma value_ok_channel (MG_CNCS : bool) (ADC_to_Ch : gmap string (gmap Z scalar))
    (key w_or_g : string) (w : Z) (p : scalar) (z : Z) :
  key ∈ channels MG_CNCS →
  ADC_to_Ch !! w_or_g ≫= (λ table, table !! get_ADC w) = Some p →
  int64_of p = Ok z →
  value_ok MG_CNCS ADC_to_Ch key z.
Proof.
  intros Hin Hp Hz. destruct (columns_disjoint MG_CNCS key) as [Ha Hc].
  destruct (Hc Hin) as (Hm & Ht).
  unfold value_ok. split_and!; try done.
  - intros Hat. by destruct (Ha Hat) as (_ & _ & ?).
  - intros _. right. destruct (ADC_to_Ch !! w_or_g) as [table|] eqn:Htab; [|done].
    exists w_or_g, table, (get_ADC w), p. split_and!; try done;
      pose proof (get_ADC_range w); change (2 ^ 14) with 16384; lia.
Qed.

Lemma row_data_value_ok (MG_CNCS : bool) (ADC_to_Ch : gmap string (gmap Z scalar))
    (c c' : gmap string Z) (w : Z) :
  row_data MG_CNCS ADC_to_Ch c w = Ok c' →
  (∀ key, value_ok MG_CNCS ADC_to_Ch key (row_get c key)) →
  ∀ key, value_ok MG_CNCS ADC_to_Ch key (row_get c' key).
Proof.
  intros Hrow Hc.
  destruct (attributes MG_CNCS !! Z.to_nat (get_Channel w)) as [attribute|] eqn:Hat.
  2:{ by rewrite row_data_no_attribute in Hrow. }
  assert (attribute ∈ attributes MG_CNCS) as Hin by (by eapply list_elem_of_lookup_2).
  pose proof (attributes_ok MG_CNCS) as Hall. rewrite Forall_forall in Hall.
  destruct (Hall attribute Hin) as (_ & _ & _ & [g Hg] & _).
  rewrite (row_data_eq _ _ _ _ _ _ Hat Hg) in Hrow.
  destruct (String.length attribute =? 8)%nat eqn:Hlen.
  - destruct (ADC_to_Ch !! g ≫= _) as [p|] eqn:Hp; [|done].
    apply bind_Ok_inv in Hrow as (z & Hz & [= <-]). apply value_ok_insert.
    + eapply value_ok_channel; [|exact Hp|exact Hz]. by apply channel_attribute_channels.
    + apply value_ok_insert; [by apply value_ok_attribute | done].
  - injection Hrow as <-. apply value_ok_insert; [by apply value_ok_attribute | done].
Qed.

Lemma row_body_value_ok (MG_CNCS : bool) (ADC_to_Ch : gmap string (gmap Z scalar))
    (a a' : rstate) (w : Z) :
  row_body MG_CNCS ADC_to_Ch a w = Ok a' →
  Forall (λ r, ∀ key, value_ok MG_CNCS ADC_to_Ch key (row_get r key)) (rows a) →
  (∀ key, value_ok MG_CNCS ADC_to_Ch key (row_get (cur a) key)) →
  Forall (λ r, ∀ key, value_ok MG_CNCS ADC_to_Ch key (row_get r key)) (rows a') ∧
  (∀ key, value_ok MG_CNCS ADC_to_Ch key (row_get (cur a') key)).
Proof.
  intros Hb Hrs Hc. destruct (is_Header w) eqn:Hh.
  { rewrite row_body_Header in Hb by done. injection Hb as <-. cbn [rows cur].
    split; [done|]. apply value_ok_insert; [apply value_ok_Module | done]. }
  destruct (ropen a) eqn:Ho.
  2:{ rewrite row_body_closed in Hb by done. by injection Hb as <-. }
  destruct (is_EoE w) eqn:He.
  { rewrite row_body_EoE in Hb by done. injection Hb as <-. cbn [rows cur].
    split.
    - apply Forall_app. split; [done|]. constructor; [|done].
      apply value_ok_insert; [apply value_ok_ToF | done].
    - intros key. unfold row_get. rewrite lookup_empty. apply value_ok_zero. }
  destruct (is_Data w) eqn:Hd.
  { rewrite row_body_Data in Hb by done.
    apply bind_Ok_inv in Hb as (c' & Hrow & [= <-]). cbn [rows cur].
    split; [done|]. by eapply row_data_value_ok. }
  rewrite row_body_Other in Hb by done. by injection Hb as <-.
Qed.

Lemma row_loop_value_ok (MG_CNCS : bool) (ADC_to_Ch : gmap string (gmap Z scalar))
    (data : list Z) (a a' : rstate) :
  row_loop MG_CNCS ADC_to_Ch a data = Ok a' →
  Forall (λ r, ∀ key, value_ok MG_CNCS ADC_to_Ch key (row_get r key)) (rows a) →
  (∀ key, value_ok MG_CNCS ADC_to_Ch key (row_get (cur a) key)) →
  Forall (λ r, ∀ key, value_ok MG_CNCS ADC_to_Ch key (row_get r key)) (rows a').
Proof.
  revert a. induction data as [|w rest IH]; intros a; cbn [row_loop].
  { by intros [= <-]. }
  intros (a1 & Hb & Hl)%bind_Ok_inv Hrs Hc.
  destruct (row_body_value_ok _ _ _ _ _ Hb Hrs Hc) as [Hrs1 Hc1].
  by apply (IH a1).
Qed.

(** X10.  Every cell of a returned table is in the range of the field it
    was decoded from: a Module is below 2^8, a ToF below 2^30, an attribute
    (a raw adc) below 2^14, none is negative; and a cell of a channel
    column is 0 or the int stored for an entry of one of the calibration
    tables at a 14-bit adc. *)
Theorem cluster_data_cell_range (data : list Z) (ADC_to_Ch : gmap string (gmap Z scalar))
    (MG_CNCS : bool) (t : gmap string (list Z)) (key : string) (i : nat) (v : Z) :
  cluster_data data ADC_to_Ch MG_CNCS = Ok t →
  cell t key i = Some v →
  (key = "Module" → 0 ≤ v < 2 ^ 8) ∧
  (key = "ToF" → 0 ≤ v < 2 ^ 30) ∧
  (key ∈ attributes MG_CNCS → 0 ≤ v < 2 ^ 14) ∧
  (key ∈ channels MG_CNCS →
   v = 0 ∨ ∃ w_or_g table adc physical_Ch,
     ADC_to_Ch !! w_or_g = Some table ∧ 0 ≤ adc < 2 ^ 14 ∧
     table !! adc = Some physical_Ch ∧ int64_of physical_Ch = Ok v).
Proof.
  intros (a & Hrun & ->)%cluster_data_Ok Hcell.
  rewrite cell_table_of in Hcell. case_decide; [|done].
  destruct (rows a !! i) as [r|] eqn:Hr; [|done]. injection Hcell as <-.
  assert (Forall (λ r, ∀ key, value_ok MG_CNCS ADC_to_Ch key (row_get r key)) (rows a))
    as Hall.
  { eapply row_loop_value_ok; [exact Hrun|done|]. intros k. cbn [cur].
    unfold row_get. rewrite lookup_empty. apply value_ok_zero. }
  rewrite Forall_forall in Hall.
  apply (Hall r). by eapply list_elem_of_lookup_2.
Qed.

Lemma cluster_data_cell_range_witness :
  cluster_data [0x40FF0000; 0x00003FFF; 0xC0000007] ∅ true =
    Ok (table_of true [<["ToF":=7]> (<["wADC_1":=16383]> (<["Module":=255]> ∅))]) ∧
  cell (table_of true [<["ToF":=7]> (<["wADC_1":=16383]> (<["Module":=255]> ∅))])
    "wADC_1" 0 = Some 16383 ∧
  0 ≤ 16383 < 2 ^ 14.
Proof.
  assert (cluster_data [0x40FF0000; 0x00003FFF; 0xC0000007] ∅ true =
    Ok (table_of true [<["ToF":=7]> (<["wADC_1":=16383]> (<["Module":=255]> ∅))]))
    as Hrun.
  { apply (cluster_data_of_rows _ _ _
             (RState [<["ToF":=7]> (<["wADC_1":=16383]> (<["Module":=255]> ∅))] ∅ false)).
    vm_compute. reflexivity. }
  split; [exact Hrun|]. split; [reflexivity|].
  refine (proj1 (proj2 (proj2 (cluster_data_cell_range _ _ _ _ "wADC_1" 0%nat 16383
                                 Hrun eq_refl))) _).
  apply (bool_decide_unpack (_ ∈ _)). vm_compute. exact I.
Defined.

(** ** The row of one event *)

Lemma attributes_inj (MG_CNCS : bool) (k k' : nat) (attribute : string) :
  attributes MG_CNCS !! k = Some attribute → attributes MG_CNCS !! k' = Some attribute →
  k = k'.
Proof.
  pose proof (columns_NoDup MG_CNCS) as Hnd. unfold columns in Hnd.
  apply NoDup_cons in Hnd as [_ Hnd]. apply NoDup_cons in Hnd as [_ Hnd].
  apply NoDup_app in Hnd as (Hnd & _). by apply NoDup_lookup.
Qed.

Lemma channel_attribute_inj (MG_CNCS : bool) (k k' : nat) (a a' : string) :
  attributes MG_CNCS !! k = Some a → attributes MG_CNCS !! k' = Some a' →
  (String.length a =? 8)%nat = true → (String.length a' =? 8)%nat = true →
  String.append (slice_0_3 a) (slice_last2 a) =
    String.append (slice_0_3 a') (slice_last2 a') →
  k = k'.
Proof.
  intros Hk Hk'.
  assert (Forall (λ i, Forall (λ j,
            (String.length (default "" (attributes MG_CNCS !! i)) =? 8)%nat = true →
            (String.length (default "" (attributes MG_CNCS !! j)) =? 8)%nat = true →
            String.append (slice_0_3 (default "" (attributes MG_CNCS !! i)))
                          (slice_last2 (default "" (attributes MG_CNCS !! i))) =
              String.append (slice_0_3 (default "" (attributes MG_CNCS !! j)))
                            (slice_last2 (default "" (attributes MG_CNCS !! j))) →
            i = j)
            (seq 0 (length (attributes MG_CNCS))))
          (seq 0 (length (attributes MG_CNCS)))) as Hall.
  { destruct MG_CNCS; apply (bool_decide_unpack (Forall _ _)); vm_compute; exact I. }
  rewrite Forall_forall in Hall.
  assert (k ∈ seq 0 (length (attributes MG_CNCS))) as Hin.
  { apply elem_of_seq. apply lookup_lt_Some in Hk. lia. }
  specialize (Hall k Hin). rewrite Forall_forall in Hall.
  assert (k' ∈ seq 0 (length (attributes MG_CNCS))) as Hin'.
  { apply elem_of_seq. apply lookup_lt_Some in Hk'. lia. }
  specialize (Hall k' Hin'). rewrite Hk, Hk' in Hall. exact Hall.
Qed.

(** What a Data word leaves in the columns of the attribute of channel [k]. *)
Lemma row_data_lookup (MG_CNCS : bool) (ADC_to_Ch : gmap string (gmap Z scalar))
    (c c1 : gmap string Z) (w : Z) (k : nat) (attribute : string) :
  row_data MG_CNCS ADC_to_Ch c w = Ok c1 →
  attributes MG_CNCS !! k = Some attribute →
  row_get c1 attribute =
    (if decide (Z.to_nat (get_Channel w) = k) then get_ADC w else row_get c attribute) ∧
  ((String.length attribute =? 8)%nat = true →
   ∀ w_or_g, wires_or_grids !! slice_first attribute = Some w_or_g →
   Some (row_get c1 (String.append (slice_0_3 attribute) (slice_last2 attribute))) =
     if decide (Z.to_nat (get_Channel w) = k)
     then (ADC_to_Ch !! w_or_g ≫= (λ table, table !! get_ADC w)) ≫= stored
     else Some (row_get c (String.append (slice_0_3 attribute) (slice_last2 attribute)))).
Proof.
  intros Hrow Hk.
  destruct (attributes MG_CNCS !! Z.to_nat (get_Channel w)) as [attribute'|] eqn:Hat.
  2:{ by rewrite row_data_no_attribute in Hrow. }
  assert (attribute ∈ attributes MG_CNCS) as Hin by (by eapply list_elem_of_lookup_2).
  assert (attribute' ∈ attributes MG_CNCS) as Hin' by (by eapply list_elem_of_lookup_2).
  destruct (attributes_group MG_CNCS attribute' Hin') as [g' Hg'].
  rewrite (row_data_eq _ _ _ _ _ _ Hat Hg') in Hrow.
  destruct (columns_disjoint MG_CNCS attribute) as [Hdis _].
  destruct (Hdis Hin) as (_ & _ & Hnch).
  destruct (columns_disjoint MG_CNCS attribute') as [Hdis' _].
  destruct (Hdis' Hin') as (_ & _ & Hnch').
  assert (attribute' = attribute ↔ Z.to_nat (get_Channel w) = k) as Hsame.
  { split; [intros ->; by eapply attributes_inj | intros Hc; congruence]. }
  unfold row_get.
  destruct (String.length attribute' =? 8)%nat eqn:Hlen'.
  - pose proof (channel_attribute_channels _ _ Hin' Hlen') as Hch'.
    destruct (ADC_to_Ch !! g' ≫= _) as [p|] eqn:Hp; [|done].
    apply bind_Ok_inv in Hrow as (z & Hz & [= <-]). split.
    + rewrite lookup_insert_ne by (intros Heq; by rewrite Heq in Hch').
      rewrite lookup_insert. by repeat case_decide; try tauto.
    + intros Hlen g Hg.
      pose proof (channel_attribute_channels _ _ Hin Hlen) as Hch.
      rewrite lookup_insert. case_decide as Heq.
      * assert (Z.to_nat (get_Channel w) = k) as Hc
          by (by eapply channel_attribute_inj).
        rewrite decide_True by done.
        assert (attribute' = attribute) as -> by (by apply Hsame).
        rewrite Hg in Hg'. injection Hg' as <-. rewrite Hp.
        cbn [mbind option_bind]. unfold stored. by rewrite Hz.
      * rewrite decide_False.
        2:{ intros Hc. apply Hsame in Hc. by subst. }
        rewrite lookup_insert_ne; [done|].
        intros ->. by apply Hnch'.
  - injection Hrow as <-. split.
    + rewrite lookup_insert. by repeat case_decide; try tauto.
    + intros Hlen g Hg.
      pose proof (channel_attribute_channels _ _ Hin Hlen) as Hch.
      rewrite decide_False.
      2:{ intros Hc. apply Hsame in Hc. subst. congruence. }
      rewrite lookup_insert_ne; [done|].
      intros ->. by apply Hnch'.
Qed.

Lemma last_Data_cons (k : nat) (w : Z) (rest : list Z) :
  last_Data k (w :: rest) =
    match last_Data k rest with
    | Some d => Some d
    | None =>
        if is_Data w then if decide (Z.to_nat (get_Channel w) = k) then Some w else None
        else None
    end.
Proof.
  unfold last_Data.
  destruct (decide (is_Data w = true ∧ Z.to_nat (get_Channel w) = k)) as [[Hd Hc]|Hn].
  - rewrite filter_cons_True by done. rewrite Hd, decide_True by done.
    rewrite last_cons. by destruct (last _).
  - rewrite filter_cons_False by done. destruct (last _); [done|].
    destruct (is_Data w); [|done]. case_decide; [tauto | done].
Qed.

Lemma row_loop_event (MG_CNCS : bool) (ADC_to_Ch : gmap string (gmap Z scalar))
    (body : list Z) (rs : list (gmap string Z)) (c : gmap string Z) (a' : rstate)
    (k : nat) (attribute : string) :
  Forall (λ w, is_Header w = false ∧ is_EoE w = false) body →
  row_loop MG_CNCS ADC_to_Ch (RState rs c true) body = Ok a' →
  attributes MG_CNCS !! k = Some attribute →
  rows a' = rs ∧ ropen a' = true ∧
  row_get (cur a') "Module" = row_get c "Module" ∧
  row_get (cur a') attribute =
    match last_Data k body with
    | Some d => get_ADC d
    | None => row_get c attribute
    end ∧
  ((String.length attribute =? 8)%nat = true →
   ∀ w_or_g, wires_or_grids !! slice_first attribute = Some w_or_g →
   Some (row_get (cur a') (String.append (slice_0_3 attribute) (slice_last2 attribute))) =
     match last_Data k body with
     | Some d => (ADC_to_Ch !! w_or_g ≫= (λ table, table !! get_ADC d)) ≫= stored
     | None => Some (row_get c (String.append (slice_0_3 attribute) (slice_last2 attribute)))
     end).
Proof.
  intros Hbody. revert c. induction Hbody as [|w rest [Hh He] _ IH]; intros c.
  { intros [= <-] _. cbn [rows cur ropen]. unfold last_Data.
    rewrite filter_nil. cbn [last]. done. }
  cbn [row_loop]. intros (a1 & Hb & Hl)%bind_Ok_inv Hk.
  rewrite last_Data_cons. destruct (is_Data w) eqn:Hd.
  - rewrite row_body_Data in Hb by done. cbn [rows cur] in Hb.
    apply bind_Ok_inv in Hb as (c1 & Hrow & [= <-]).
    destruct (IH _ Hl Hk) as (Hrows & Ho & Hm & Hattr & Hchan).
    destruct (row_data_lookup _ _ _ _ _ _ _ Hrow Hk) as [Hattr1 Hchan1].
    split_and!; [done|done| | |].
    + rewrite Hm. unfold row_get. by rewrite (row_data_Module _ _ _ _ _ Hrow).
    + rewrite Hattr. destruct (last_Data k rest); [done|].
      rewrite Hattr1. by case_decide.
    + intros Hlen g Hg. rewrite (Hchan Hlen g Hg).
      destruct (last_Data k rest); [done|].
      rewrite (Hchan1 Hlen g Hg). by case_decide.
  - rewrite row_body_Other in Hb by done. injection Hb as <-.
    destruct (IH _ Hl Hk) as (Hrows & Ho & Hm & Hattr & Hchan).
    split_and!; [done|done|done| |].
    + rewrite Hattr. by destruct (last_Data k rest).
    + intros Hlen g Hg. rewrite (Hchan Hlen g Hg). by destruct (last_Data k rest).
Qed.

(** X11.  The row of an event.  When the words before a Header leave no
    event open and no Header or End-of-Event lies between the Header and
    the next End-of-Event, every table returned has, at the row after those
    of the words before, the module of the Header, the time of flight of
    the End-of-Event and, for the attribute of each channel, the adc of the
    last Data word of that channel in the event, or 0 when there is none;
    the channel column of a grouped attribute holds the int stored for
    the entry of the group's table at that adc, or 0. *)
Theorem cluster_data_event_row (pre body post : list Z) (h e : Z)
    (ADC_to_Ch : gmap string (gmap Z scalar)) (MG_CNCS : bool)
    (t1 t : gmap string (list Z)) (k : nat) (attribute : string) :
  cluster_data pre ADC_to_Ch MG_CNCS = Ok t1 →
  open_after false pre = false →
  is_Header h = true → is_EoE e = true →
  Forall (λ w, is_Header w = false ∧ is_EoE w = false) body →
  cluster_data (pre ++ h :: body ++ e :: post) ADC_to_Ch MG_CNCS = Ok t →
  attributes MG_CNCS !! k = Some attribute →
  cell t "Module" (nrows t1) = Some (get_Module h) ∧
  cell t "ToF" (nrows t1) = Some (get_ToF e) ∧
  cell t attribute (nrows t1) =
    Some (match last_Data k body with Some d => get_ADC d | None => 0 end) ∧
  ((String.length attribute =? 8)%nat = true →
   ∀ w_or_g, wires_or_grids !! slice_first attribute = Some w_or_g →
   cell t (String.append (slice_0_3 attribute) (slice_last2 attribute)) (nrows t1) =
     match last_Data k body with
     | Some d => (ADC_to_Ch !! w_or_g ≫= (λ table, table !! get_ADC d)) ≫= stored
     | None => Some 0
     end).
Proof.
  intros (a0 & Hpre & ->)%cluster_data_Ok Hclosed Hh He Hbody
    (a & Hrun & ->)%cluster_data_Ok Hk.
  rewrite row_loop_app, Hpre, bind_Ok in Hrun.
  pose proof (row_loop_open _ _ _ _ _ Hpre) as Ho0. cbn [ropen] in Ho0.
  rewrite Hclosed in Ho0.
  assert (cur a0 = ∅) as Hcur0 by (by eapply row_loop_tidy).
  cbn [row_loop] in Hrun. rewrite row_body_Header, bind_Ok in Hrun by done.
  rewrite row_loop_app in Hrun. apply bind_Ok_inv in Hrun as (a1 & Hev & Hrun).
  destruct (row_loop_event _ _ _ _ _ _ _ _ Hbody Hev Hk)
    as (Hrows1 & Ho1 & Hm & Hattr & Hchan).
  cbn [row_loop] in Hrun. rewrite row_body_EoE, bind_Ok in Hrun by done.
  destruct (row_loop_prefix _ _ _ _ _ Hrun) as [more Hrows]. cbn [rows] in Hrows.
  assert (attribute ∈ attributes MG_CNCS) as Hin by (by eapply list_elem_of_lookup_2).
  destruct (columns_disjoint MG_CNCS attribute) as [Hdis _].
  destruct (Hdis Hin) as (HnM & HnT & _).
  assert (rows a !! nrows (table_of MG_CNCS (rows a0)) =
          Some (<["ToF":=get_ToF e]> (cur a1))) as Hrow.
  { rewrite nrows_table_of, Hrows, Hrows1, <- app_assoc.
    by rewrite lookup_app_r, Nat.sub_diag by lia. }
  rewrite !cell_table_of, Hrow. cbn [fmap option_fmap option_map].
  rewrite !decide_True by (apply elem_of_columns; tauto).
  rewrite Hcur0 in Hm, Hattr, Hchan. unfold row_get in *.
  rewrite lookup_insert_eq in Hm.
  rewrite lookup_insert_ne, lookup_empty in Hattr by done.
  split_and!.
  - rewrite lookup_insert_ne by done. by rewrite Hm.
  - by rewrite lookup_insert_eq.
  - rewrite lookup_insert_ne by done. by rewrite Hattr.
  - intros Hlen g Hg.
    pose proof (channel_attribute_channels _ _ Hin Hlen) as Hch.
    destruct (columns_disjoint MG_CNCS
                (String.append (slice_0_3 attribute) (slice_last2 attribute)))
      as [_ Hdisc].
    destruct (Hdisc Hch) as [HcM HcT].
    rewrite decide_True by (apply elem_of_columns; tauto).
    specialize (Hchan Hlen g Hg).
    rewrite lookup_insert_ne, lookup_empty in Hchan by done.
    rewrite lookup_insert_ne by done. exact Hchan.
Qed.

Lemma cluster_data_event_row_witness :
  cluster_data ([] ++ 0x40010000 :: [0x00020005; 0x00020006] ++ 0xC0000007 :: [])
    (<["Wires":=<[5:=of_int 101]> (<[6:=of_int 102]> ∅)]> ∅) true =
    Ok (table_of true
          [<["ToF":=7]> (<["wCh_1":=102]> (<["wChADC_1":=6]> (<["Module":=1]> ∅)))]) ∧
  last_Data 2 [0x00020005; 0x00020006] = Some 0x00020006 ∧
  cell (table_of true
          [<["ToF":=7]> (<["wCh_1":=102]> (<["wChADC_1":=6]> (<["Module":=1]> ∅)))])
    "wChADC_1" (nrows (table_of true [])) = Some 6.
Proof.
  assert (cluster_data ([] ++ 0x40010000 :: [0x00020005; 0x00020006] ++ 0xC0000007 :: [])
            (<["Wires":=<[5:=of_int 101]> (<[6:=of_int 102]> ∅)]> ∅) true =
          Ok (table_of true
                [<["ToF":=7]> (<["wCh_1":=102]> (<["wChADC_1":=6]> (<["Module":=1]> ∅)))]))
    as Hrun.
  { apply (cluster_data_of_rows _ _ _
             (RState [<["ToF":=7]> (<["wCh_1":=102]> (<["wChADC_1":=6]>
                                                        (<["Module":=1]> ∅)))] ∅ false)).
    vm_compute. reflexivity. }
  assert (cluster_data [] (<["Wires":=<[5:=of_int 101]> (<[6:=of_int 102]> ∅)]> ∅) true =
            Ok (table_of true [])) as Hpre.
  { apply (cluster_data_of_rows _ _ _ (RState [] ∅ false)). reflexivity. }
  assert (Forall (λ w, is_Header w = false ∧ is_EoE w = false) [0x00020005; 0x00020006])
    as Hbody by (repeat constructor).
  split; [exact Hrun|]. split; [reflexivity|].
  exact (proj1 (proj2 (proj2
           (cluster_data_event_row [] [0x00020005; 0x00020006] [] 0x40010000 0xC0000007
              _ true _ _ 2 "wChADC_1" Hpre eq_refl eq_refl eq_refl Hbody Hrun eq_refl)))).
Defined.

(** ** When a table is returned *)

Lemma row_loop_Ok_decodable (MG_CNCS : bool) (ADC_to_Ch : gmap string (gmap Z scalar))
    (data : list Z) (a a' : rstate) :
  row_loop MG_CNCS ADC_to_Ch a data = Ok a' →
  decodable_from MG_CNCS ADC_to_Ch (ropen a) data = true.
Proof.
  revert a. induction data as [|w rest IH]; intros a; [done|].
  cbn [row_loop decodable_from]. intros (a1 & Hb & Hl)%bind_Ok_inv.
  apply IH in Hl. pose proof (row_body_open _ _ _ _ _ Hb) as Ho. rewrite Ho in Hl.
  destruct (is_Header w) eqn:Hh; [done|].
  destruct (ropen a) eqn:Hoa.
  2:{ rewrite andb_false_r. by destruct (is_EoE w). }
  rewrite andb_true_r. destruct (is_Data w) eqn:Hd.
  - destruct (is_Data_true w Hd) as [_ He]. rewrite He in Hl.
    rewrite row_body_Data in Hb by done.
    apply bind_Ok_inv in Hb as (c' & Hrow & _).
    by rewrite (row_data_Ok_ok _ _ _ _ _ Hrow).
  - by destruct (is_EoE w).
Qed.

(** X12.  [cluster_data] returns a table exactly when every Data word that
    arrives while an event is open is one the loop body accepts: its
    channel has an attribute and, for an attribute with an eight-character
    name, its adc is a key of the table of the group and the entry found
    there is one the int cell can hold (not a NaN, and within 64 bits once
    truncated).  Headers,
    End-of-Event words, words of no known kind and Data words outside an
    event never make it raise. *)
Theorem cluster_data_returns (data : list Z) (ADC_to_Ch : gmap string (gmap Z scalar))
    (MG_CNCS : bool) :
  (∃ t, cluster_data data ADC_to_Ch MG_CNCS = Ok t) ↔
  decodable MG_CNCS ADC_to_Ch data = true.
Proof.
  unfold decodable. split.
  - intros [t (a & Hrun & _)%cluster_data_Ok].
    by apply row_loop_Ok_decodable in Hrun.
  - intros Hdec.
    destruct (row_loop_decodable MG_CNCS ADC_to_Ch data (RState [] ∅ false) Hdec)
      as [a Hrun].
    exists (table_of MG_CNCS (rows a)). apply cluster_data_Ok. eauto.
Qed.

(** * More properties of [get_ADC_to_Ch] *)

(** ** The calibration dict: when it is built *)

Lemma same_but_refl (key : string) (ADC_to_Ch : gmap string (gmap Z scalar)) :
  same_but key ADC_to_Ch ADC_to_Ch.
Proof. by intros k. Qed.

Lemma same_but_trans (key : string) (d1 d2 d3 : gmap string (gmap Z scalar)) :
  same_but key d1 d2 → same_but key d2 d3 → same_but key d1 d3.
Proof.
  intros H12 H23 k. destruct (H12 k) as [Ha Hb], (H23 k) as [Hc Hd]. split.
  - intros Hne. by rewrite Hc, Ha.
  - by rewrite Hd.
Qed.

Lemma same_but_insert (key : string) (ADC_to_Ch : gmap string (gmap Z scalar))
    (table table' : gmap Z scalar) :
  ADC_to_Ch !! key = Some table → same_but key ADC_to_Ch (<[key:=table']> ADC_to_Ch).
Proof.
  intros Hkey k. split.
  - intros Hne. by rewrite lookup_insert_ne.
  - destruct (decide (key = k)) as [<-|Hne].
    + rewrite lookup_insert_eq, Hkey. by split; eauto.
    + by rewrite lookup_insert_ne.
Qed.

Lemma assign_loop_same_but (ADC_to_Ch ADC_to_Ch' : gmap string (gmap Z scalar)) (key : string)
    (channel : scalar) (ks : list Z) :
  assign_loop ADC_to_Ch key channel ks = Ok ADC_to_Ch' → same_but key ADC_to_Ch ADC_to_Ch'.
Proof.
  destruct (ADC_to_Ch !! key) as [table|] eqn:Hkey.
  - rewrite (assign_loop_eq _ _ _ _ _ Hkey). intros [= <-]. by eapply same_but_insert.
  - destruct ks as [|k ks]; cbn [assign_loop].
    + intros [= <-]. apply same_but_refl.
    + unfold ADC_to_Ch_setitem. by rewrite (dict_getitem_None _ _ Hkey).
Qed.

Lemma small_delimiters_loop_Ok (channel_mapping : gmap string (list scalar)) (key : string)
    (layers i : nat) (values : list Q) (j : nat) (previous_value : Q)
    (ADC_to_Ch : gmap string (gmap Z scalar)) (mapping : list scalar) (table : gmap Z scalar) :
  channel_mapping !! key = Some mapping → ADC_to_Ch !! key = Some table →
  (i * layers + j + length values ≤ length mapping)%nat →
  ∃ table', small_delimiters_loop channel_mapping key layers i j previous_value values
              ADC_to_Ch = Ok (<[key:=table']> ADC_to_Ch).
Proof.
  intros Hmap. revert j previous_value ADC_to_Ch table.
  induction values as [|value rest IH]; intros j previous_value ADC_to_Ch table Hkey Hlen.
  - exists table. cbn [small_delimiters_loop]. by rewrite insert_id.
  - cbn [small_delimiters_loop]. cbn [length] in Hlen.
    rewrite (dict_getitem_Some _ _ _ Hmap), bind_Ok, py_getitem_nat.
    destruct (lookup_lt_is_Some_2 mapping (i * layers + j)) as [channel Hch]; [lia|].
    rewrite Hch, bind_Ok, (assign_loop_eq _ _ _ _ _ Hkey), bind_Ok.
    set (table1 := foldl _ table _).
    destruct (IH (S j) value (<[key:=table1]> ADC_to_Ch) table1) as [table' Hrest];
      [apply lookup_insert_eq | lia |].
    exists table'. rewrite Hrest. by rewrite insert_insert_eq.
Qed.

Lemma small_delimiters_loop_Ok_inv (channel_mapping : gmap string (list scalar)) (key : string)
    (layers i : nat) (values : list Q) (j : nat) (previous_value : Q)
    (ADC_to_Ch ADC_to_Ch' : gmap string (gmap Z scalar)) :
  small_delimiters_loop channel_mapping key layers i j previous_value values ADC_to_Ch
    = Ok ADC_to_Ch' →
  same_but key ADC_to_Ch ADC_to_Ch' ∧
  (values = [] ∨
   ∃ mapping, channel_mapping !! key = Some mapping ∧
     (i * layers + j + length values ≤ length mapping)%nat).
Proof.
  revert j previous_value ADC_to_Ch.
  induction values as [|value rest IH]; intros j previous_value ADC_to_Ch.
  - cbn [small_delimiters_loop]. intros [= <-]. split; [apply same_but_refl | by left].
  - cbn [small_delimiters_loop].
    intros (mapping & Hmap & H1)%bind_Ok_inv.
    apply bind_Ok_inv in H1 as (channel & Hch & H2).
    apply bind_Ok_inv in H2 as (d1 & Hassign & Hrest).
    unfold dict_getitem in Hmap.
    destruct (channel_mapping !! key) as [m|] eqn:Hm; [|done]. injection Hmap as ->.
    rewrite py_getitem_nat in Hch.
    destruct (mapping !! (i * layers + j)%nat) as [x|] eqn:Hx; [|done].
    apply lookup_lt_Some in Hx.
    destruct (IH _ _ _ Hrest) as [Hsame Hcond]. split.
    + eapply same_but_trans; [by eapply assign_loop_same_but | done].
    + right. exists mapping. split; [done|]. cbn [length].
      destruct Hcond as [->|(m' & Hm' & Hlen)]; [cbn [length]; lia|].
      assert (m' = mapping) as -> by congruence. lia.
Qed.

Lemma length_linspace (start stop : Q) (num : nat) :
  length (linspace start stop num) = num.
Proof.
  unfold linspace. destruct num as [|[|n]]; [done..|].
  by rewrite length_insert, length_map, length_seq.
Qed.

Lemma linspace_first (start stop : Q) (layers : nat) :
  ∃ previous_value, py_getitem (linspace start stop (layers + 1)) 0 = Ok previous_value.
Proof.
  change 0 with (Z.of_nat 0). rewrite py_getitem_nat.
  destruct (lookup_lt_is_Some_2 (linspace start stop (layers + 1)) 0) as [x ->]; [|eauto].
  rewrite length_linspace. lia.
Qed.

Lemma delimiters_loop_Ok (channel_mapping : gmap string (list scalar)) (key : string)
    (layers : nat) (delimiters : list (Q * Q)) (i : nat)
    (ADC_to_Ch : gmap string (gmap Z scalar)) (mapping : list scalar) (table : gmap Z scalar) :
  (0 < layers)%nat →
  channel_mapping !! key = Some mapping → ADC_to_Ch !! key = Some table →
  ((i + length delimiters) * layers ≤ length mapping)%nat →
  ∃ table', delimiters_loop channel_mapping key layers i delimiters ADC_to_Ch
              = Ok (<[key:=table']> ADC_to_Ch).
Proof.
  intros Hlayers Hmap. revert i ADC_to_Ch table.
  induction delimiters as [|[start stop] rest IH]; intros i ADC_to_Ch table Hkey Hlen.
  - exists table. cbn [delimiters_loop]. by rewrite insert_id.
  - cbn [delimiters_loop]. cbn [length] in Hlen.
    rewrite (dict_getitem_Some _ _ _ Hmap), bind_Ok, py_getitem_nat.
    destruct (lookup_lt_is_Some_2 mapping i) as [channel ->]; [nia|].
    rewrite bind_Ok.
    destruct (linspace_first start stop layers) as [previous_value ->].
    rewrite bind_Ok.
    destruct (small_delimiters_loop_Ok channel_mapping key layers i
                (drop 1 (linspace start stop (layers + 1))) 0 previous_value
                ADC_to_Ch mapping table Hmap Hkey) as [table1 ->].
    { rewrite length_drop, length_linspace. nia. }
    rewrite bind_Ok.
    destruct (IH (S i) (<[key:=table1]> ADC_to_Ch) table1) as [table' Hrest];
      [apply lookup_insert_eq | nia |].
    exists table'. rewrite Hrest. by rewrite insert_insert_eq.
Qed.

Lemma delimiters_loop_Ok_inv (channel_mapping : gmap string (list scalar)) (key : string)
    (layers : nat) (delimiters : list (Q * Q)) (i : nat)
    (ADC_to_Ch ADC_to_Ch' : gmap string (gmap Z scalar)) :
  (0 < layers)%nat →
  delimiters_loop channel_mapping key layers i delimiters ADC_to_Ch = Ok ADC_to_Ch' →
  same_but key ADC_to_Ch ADC_to_Ch' ∧
  (delimiters = [] ∨
   ∃ mapping, channel_mapping !! key = Some mapping ∧
     ((i + length delimiters) * layers ≤ length mapping)%nat).
Proof.
  intros Hlayers. revert i ADC_to_Ch.
  induction delimiters as [|[start stop] rest IH]; intros i ADC_to_Ch.
  - cbn [delimiters_loop]. intros [= <-]. split; [apply same_but_refl | by left].
  - cbn [delimiters_loop].
    intros (mapping & Hmap & H1)%bind_Ok_inv.
    apply bind_Ok_inv in H1 as (channel & Hch & H2).
    apply bind_Ok_inv in H2 as (previous_value & _ & H3).
    apply bind_Ok_inv in H3 as (d1 & Hsmall & Hrest).
    unfold dict_getitem in Hmap.
    destruct (channel_mapping !! key) as [m|] eqn:Hm; [|done]. injection Hmap as ->.
    destruct (small_delimiters_loop_Ok_inv _ _ _ _ _ _ _ _ _ Hsmall) as [Hsame1 Hcond1].
    destruct (IH _ _ Hrest) as [Hsame Hcond]. split.
    + by eapply same_but_trans.
    + right. exists mapping. split; [done|]. cbn [length].
      destruct Hcond as [->|(m' & Hm' & Hlen)].
      * destruct Hcond1 as [Hnil|(m' & Hm' & Hlen)].
        { apply (f_equal length) in Hnil.
          rewrite length_drop, length_linspace in Hnil. cbn [length] in Hnil. lia. }
        assert (m' = mapping) as -> by congruence.
        rewrite length_drop, length_linspace in Hlen. cbn [length]. nia.
      * assert (m' = mapping) as -> by congruence. nia.
Qed.

Lemma layers_dict_lookup (key : string) (layers : nat) :
  layers_dict !! key = Some layers →
  (key = "Wires" ∧ layers = 16%nat) ∨ (key = "Grids" ∧ layers = 12%nat).
Proof.
  unfold layers_dict.
  destruct (decide (key = "Grids")) as [->|Hg].
  { rewrite lookup_insert_eq. intros [= <-]. by right. }
  rewrite lookup_insert_ne by done.
  destruct (decide (key = "Wires")) as [->|Hw].
  { rewrite lookup_insert_eq. intros [= <-]. by left. }
  by rewrite lookup_insert_ne.
Qed.

Lemma initial_ADC_to_Ch_lookup (key : string) :
  initial_ADC_to_Ch !! key =
    if decide (key = "Wires" ∨ key = "Grids") then Some unmapped_table else None.
Proof.
  unfold initial_ADC_to_Ch.
  destruct (decide (key = "Grids")) as [->|Hg].
  { rewrite lookup_insert_eq, decide_True by (by right). done. }
  rewrite lookup_insert_ne by done.
  destruct (decide (key = "Wires")) as [->|Hw].
  { rewrite lookup_insert_eq, decide_True by (by left). done. }
  rewrite lookup_insert_ne, lookup_empty by done.
  rewrite decide_False by (intros [?|?]; done). done.
Qed.

Lemma keys_loop_Ok (channel_mapping : gmap string (list scalar))
    (items : list (string * list (Q * Q))) (ADC_to_Ch : gmap string (gmap Z scalar)) :
  (∀ key, is_Some (ADC_to_Ch !! key) ↔ key = "Wires" ∨ key = "Grids") →
  Forall (item_ok channel_mapping) items →
  ∃ ADC_to_Ch', keys_loop channel_mapping items ADC_to_Ch = Ok ADC_to_Ch'.
Proof.
  intros Hkeys Hall. revert ADC_to_Ch Hkeys.
  induction Hall as [|[key delimiters] rest (layers & Hlayers & Hitem) _ IH];
    intros ADC_to_Ch Hkeys.
  { by eexists. }
  cbn [keys_loop]. cbn [fst snd] in *.
  rewrite (dict_getitem_Some _ _ _ Hlayers), bind_Ok.
  assert (0 < layers)%nat as Hpos.
  { destruct (layers_dict_lookup _ _ Hlayers) as [[_ ->]|[_ ->]]; lia. }
  assert (is_Some (ADC_to_Ch !! key)) as [table Hkey].
  { apply Hkeys. destruct (layers_dict_lookup _ _ Hlayers) as [[-> _]|[-> _]]; tauto. }
  assert (∃ table', delimiters_loop channel_mapping key layers 0 delimiters ADC_to_Ch
                      = Ok (<[key:=table']> ADC_to_Ch)) as [table' ->].
  { destruct Hitem as [->|(mapping & Hmap & Hlen)].
    - exists table. cbn [delimiters_loop]. by rewrite insert_id.
    - by eapply delimiters_loop_Ok. }
  rewrite bind_Ok. apply IH. intros k.
  destruct (same_but_insert key ADC_to_Ch table table' Hkey k) as [_ ->]. apply Hkeys.
Qed.

Lemma keys_loop_Ok_inv (channel_mapping : gmap string (list scalar))
    (items : list (string * list (Q * Q))) (ADC_to_Ch ADC_to_Ch' : gmap string (gmap Z scalar)) :
  keys_loop channel_mapping items ADC_to_Ch = Ok ADC_to_Ch' →
  Forall (item_ok channel_mapping) items ∧
  (∀ key, is_Some (ADC_to_Ch' !! key) ↔ is_Some (ADC_to_Ch !! key)) ∧
  (∀ key, key ∉ items.*1 → ADC_to_Ch' !! key = ADC_to_Ch !! key).
Proof.
  revert ADC_to_Ch.
  induction items as [|[key delimiters] rest IH]; intros ADC_to_Ch; cbn [keys_loop].
  { intros [= <-]. done. }
  intros (layers & Hlayers & H1)%bind_Ok_inv.
  apply bind_Ok_inv in H1 as (d1 & Hdel & Hrest).
  unfold dict_getitem in Hlayers.
  destruct (layers_dict !! key) as [l|] eqn:Hl; [|done]. injection Hlayers as ->.
  assert (0 < layers)%nat as Hpos.
  { destruct (layers_dict_lookup _ _ Hl) as [[_ ->]|[_ ->]]; lia. }
  destruct (delimiters_loop_Ok_inv _ _ _ _ _ _ _ Hpos Hdel) as [Hsame Hcond].
  destruct (IH _ Hrest) as (Hall & Hsome & Hother).
  split_and!.
  - constructor; [|done]. exists layers. split; [done|]. cbn [fst snd].
    destruct Hcond as [->|(mapping & Hmap & Hlen)]; [by left|].
    right. exists mapping. split; [done|]. lia.
  - intros k. rewrite Hsome. apply Hsame.
  - intros k Hk. rewrite fmap_cons, not_elem_of_cons in Hk. destruct Hk as [Hne Hk].
    rewrite (Hother k Hk). by apply Hsame.
Qed.

(** X13.  When [get_ADC_to_Ch] returns a dict, the channel mapping has the
    key 'Wires' (line 167 reads it), every key of the delimiters table is
    'Wires' or 'Grids' and, for every key that has delimiters, the channel
    mapping has the key, with a channel for each of the 16 (wires) or 12
    (grids) layers of each delimiter.  For delimiters whose bounds are raw
    values, these conditions are also enough for a dict to be returned;
    when one fails the function raises and returns nothing. *)
Theorem get_ADC_to_Ch_returns (delimiters_table : list (string * list (Q * Q)))
    (channel_mapping : gmap string (list scalar)) :
  ((∃ ADC_to_Ch, get_ADC_to_Ch delimiters_table channel_mapping = Ok ADC_to_Ch) →
   is_Some (channel_mapping !! "Wires") ∧
   Forall (λ item, ∃ layers, layers_dict !! item.1 = Some layers ∧
             (item.2 = [] ∨
              ∃ mapping, channel_mapping !! item.1 = Some mapping ∧
                (length item.2 * layers ≤ length mapping)%nat))
          delimiters_table) ∧
  (raw_bounds delimiters_table →
   is_Some (channel_mapping !! "Wires") →
   Forall (λ item, ∃ layers, layers_dict !! item.1 = Some layers ∧
             (item.2 = [] ∨
              ∃ mapping, channel_mapping !! item.1 = Some mapping ∧
                (length item.2 * layers ≤ length mapping)%nat))
          delimiters_table →
   ∃ ADC_to_Ch, get_ADC_to_Ch delimiters_table channel_mapping = Ok ADC_to_Ch).
Proof.
  unfold get_ADC_to_Ch. split.
  - intros [ADC_to_Ch (wires & Hwires & Hrun)%bind_Ok_inv]. split.
    + unfold dict_getitem in Hwires. by destruct (channel_mapping !! "Wires"); eauto.
    + by destruct (keys_loop_Ok_inv _ _ _ _ Hrun) as [Hall _].
  - intros _ [wires Hwires] Hall.
    rewrite (dict_getitem_Some _ _ _ Hwires), bind_Ok.
    apply keys_loop_Ok; [|done].
    intros key. rewrite initial_ADC_to_Ch_lookup. case_decide; [by split; eauto|].
    split; [by intros [? ?] | done].
Qed.

Lemma get_ADC_to_Ch_returns_witness :
  ∃ ADC_to_Ch,
    get_ADC_to_Ch [("Wires", [(0%Q, 64%Q)])] demo_channel_mapping = Ok ADC_to_Ch.
Proof.
  apply (proj2 (get_ADC_to_Ch_returns [("Wires", [(0%Q, 64%Q)])] demo_channel_mapping)).
  - apply Forall_cons_2; [|apply Forall_nil_2].
    apply Forall_cons_2; [|apply Forall_nil_2].
    cbn [fst snd]. unfold Qle. cbn. lia.
  - exists (of_int <$> seqZ 100 16). vm_compute. reflexivity.
  - apply Forall_cons_2; [|apply Forall_nil_2].
    exists 16%nat. split; [vm_compute; reflexivity|]. right.
    exists (of_int <$> seqZ 100 16). split; [vm_compute; reflexivity|].
    rewrite length_fmap, length_seqZ. cbn. lia.
Defined.

(** X14.  The dict [get_ADC_to_Ch] returns has the two keys 'Wires' and
    'Grids' and no other, and the table of a key that the delimiters table
    does not have is the initial one: -1 at every raw value from 0 to 4095
    and no entry elsewhere. *)
Theorem get_ADC_to_Ch_keys (delimiters_table : list (string * list (Q * Q)))
    (channel_mapping : gmap string (list scalar)) (ADC_to_Ch : gmap string (gmap Z scalar)) :
  get_ADC_to_Ch delimiters_table channel_mapping = Ok ADC_to_Ch →
  (∀ key, is_Some (ADC_to_Ch !! key) ↔ key = "Wires" ∨ key = "Grids") ∧
  (∀ key table, key ∉ delimiters_table.*1 → ADC_to_Ch !! key = Some table →
     ∀ adc, table !! adc = if decide (0 ≤ adc < 4096) then Some (of_int (-1)) else None).
Proof.
  unfold get_ADC_to_Ch. intros (wires & _ & Hrun)%bind_Ok_inv.
  destruct (keys_loop_Ok_inv _ _ _ _ Hrun) as (_ & Hsome & Hother). split.
  - intros key. rewrite Hsome, initial_ADC_to_Ch_lookup.
    case_decide; [by split; eauto|]. split; [by intros [? ?] | done].
  - intros key table Hkey Hlook adc. rewrite (Hother key Hkey) in Hlook.
    rewrite initial_ADC_to_Ch_lookup in Hlook. case_decide; [|done].
    assert (table = unmapped_table) as -> by congruence.
    apply unmapped_table_lookup.
Qed.

Lemma get_ADC_to_Ch_keys_witness :
  get_ADC_to_Ch [("Wires", [])] (<["Wires":=[]]> ∅) = Ok initial_ADC_to_Ch ∧
  (is_Some (initial_ADC_to_Ch !! "Grids") ↔ "Grids" = "Wires" ∨ "Grids" = "Grids").
Proof.
  assert (get_ADC_to_Ch [("Wires", [])] (<["Wires":=[]]> ∅) = Ok initial_ADC_to_Ch)
    as Hrun.
  { unfold get_ADC_to_Ch.
    assert ((<["Wires":=[]]> ∅ : gmap string (list scalar)) !! "Wires" = Some [])
      as Hwires by (vm_compute; reflexivity).
    rewrite (dict_getitem_Some _ _ _ Hwires), bind_Ok. cbn [keys_loop].
    rewrite (dict_getitem_Some layers_dict "Wires" 16%nat eq_refl), bind_Ok.
    cbn [delimiters_loop]. by rewrite bind_Ok. }
  split; [exact Hrun|].
  exact (proj1 (get_ADC_to_Ch_keys _ _ _ Hrun) "Grids").
Defined.

(** ** The calibration dict: a range cut in equal parts *)







(** * The tables read from the spreadsheets *)

Lemma length_omap_lookup {A : Type} (rows : list (list A)) (n : nat) :
  Forall (λ row, (n < length row)%nat) rows →
  length (omap (λ row, row !! n) rows) = length rows.
Proof.
  induction 1 as [|row rest Hrow _ IH]; [done|]. cbn [omap list_omap].
  destruct (lookup_lt_is_Some_2 row n Hrow) as [x ->]. cbn [length]. by rewrite IH.
Qed.

Lemma channel_mappings_loop_Ok (rows : list (list scalar)) (wires grids : list scalar) :
  Forall (λ row, (4 ≤ length row)%nat) rows →
  channel_mappings_loop rows wires grids =
    Ok (wires ++ omap (λ row, row !! 1%nat) rows,
        grids ++ filter (λ c, isnan c = false) (omap (λ row, row !! 3%nat) rows)).
Proof.
  intros Hall. revert wires grids.
  induction Hall as [|row rest Hrow _ IH]; intros wires grids.
  { cbn [channel_mappings_loop omap list_omap]. by rewrite filter_nil, !app_nil_r. }
  cbn [channel_mappings_loop omap list_omap].
  change 1 with (Z.of_nat 1). change 3 with (Z.of_nat 3). rewrite !py_getitem_nat.
  destruct (lookup_lt_is_Some_2 row 1) as [w Hw]; [lia|].
  destruct (lookup_lt_is_Some_2 row 3) as [g Hg]; [lia|].
  rewrite Hw, Hg, !bind_Ok. destruct (isnan g) eqn:Hnan; cbn [negb].
  - rewrite IH, filter_cons_False by (by rewrite Hnan). by rewrite <- app_assoc.
  - rewrite IH, filter_cons_True by done. by rewrite <- !app_assoc.
Qed.


Lemma channel_mappings_loop_Raise (rows : list (list scalar)) (wires grids : list scalar) :
  Exists (λ row, (length row < 4)%nat) rows →
  channel_mappings_loop rows wires grids = Raise IndexError.
Proof.
  revert wires grids. induction rows as [|row rest IH]; intros wires grids Hex.
  { by apply Exists_nil in Hex. }
  cbn [channel_mappings_loop].
  change 1 with (Z.of_nat 1). change 3 with (Z.of_nat 3). rewrite !py_getitem_nat.
  destruct (row !! 1%nat) as [w|] eqn:Hw; [|done]. rewrite bind_Ok.
  destruct (row !! 3%nat) as [g|] eqn:Hg; [|done]. rewrite bind_Ok.
  apply Exists_cons in Hex as [Hrow|Hrest].
  { apply lookup_lt_Some in Hg. lia. }
  destruct (negb (isnan g)); by apply IH.
Qed.

(** X16.  [import_channel_mappings] passes over the first row of the
    sheet.  When every other row has four cells or more, 'Wires' is the
    second cell of each of these rows in order, NaN included, and 'Grids'
    the fourth cells that are not NaN: 'Grids' holds no NaN and is no
    longer than 'Wires', which has one entry for each row.  When one of
    these rows has fewer than four cells the function raises
    [IndexError]. *)
Theorem import_channel_mappings_spec (matrix : list (list scalar)) :
  (Forall (λ row, (4 ≤ length row)%nat) (drop 1 matrix) →
   ∃ wires grids,
     import_channel_mappings matrix = Ok (<["Grids":=grids]> (<["Wires":=wires]> ∅)) ∧
     wires = omap (λ row, row !! 1%nat) (drop 1 matrix) ∧
     grids = filter (λ c, isnan c = false) (omap (λ row, row !! 3%nat) (drop 1 matrix)) ∧
     length wires = (length matrix - 1)%nat ∧
     (length grids ≤ length wires)%nat ∧
     Forall (λ c, isnan c = false) grids) ∧
  (Exists (λ row, (length row < 4)%nat) (drop 1 matrix) →
   import_channel_mappings matrix = Raise IndexError).
Proof.
  unfold import_channel_mappings. split.
  - intros Hall. rewrite (channel_mappings_loop_Ok _ _ _ Hall), bind_Ok.
    cbn [fst snd app]. eexists _, _. split; [done|].
    assert (∀ n, Forall (λ row : list scalar, (n < length row)%nat) (drop 1 matrix) →
                 length (omap (λ row, row !! n) (drop 1 matrix)) = (length matrix - 1)%nat)
      as Hlen.
    { intros n Hn. rewrite (length_omap_lookup _ _ Hn). apply length_drop. }
    split_and!; try done.
    + apply Hlen. eapply Forall_impl; [done|]. intros row Hrow. simpl in Hrow. lia.
    + rewrite (Hlen 1%nat), <- (Hlen 3%nat).
      * apply length_filter.
      * eapply Forall_impl; [done|]. intros row Hrow. simpl in Hrow. lia.
      * eapply Forall_impl; [done|]. intros row Hrow. simpl in Hrow. lia.
    + apply Forall_forall. by intros c [Hc _]%list_elem_of_filter.
  - intros Hex. by rewrite (channel_mappings_loop_Raise _ _ _ Hex).
Qed.

Lemma import_channel_mappings_spec_witness :
  (∃ wires grids,
     import_channel_mappings
       [[NaN]; [Num 0; Num 79; NaN; Num 95]; [Num 1; NaN; NaN; NaN]]
       = Ok (<["Grids":=grids]> (<["Wires":=wires]> ∅)) ∧
     wires = [Num 79; NaN] ∧ grids = [Num 95]) ∧
  import_channel_mappings [[NaN]; [Num 0; Num 79; NaN]] = Raise IndexError.
Proof.
  split.
  - destruct (proj1 (import_channel_mappings_spec
                       [[NaN]; [Num 0; Num 79; NaN; Num 95]; [Num 1; NaN; NaN; NaN]]))
      as (wires & grids & Hrun & Hw & Hg & _).
    { repeat constructor. }
    exists wires, grids. split_and!; [exact Hrun | exact Hw | exact Hg].
  - apply (proj2 (import_channel_mappings_spec [[NaN]; [Num 0; Num 79; NaN]])).
    apply Exists_cons_hd. simpl. lia.
Defined.

Lemma delimiter_table_loop_Ok (rows : list (list scalar)) (wires grids : list (scalar * scalar)) :
  Forall (λ row, (3 ≤ length row)%nat ∧
                 (isnan (default NaN (row !! 2%nat)) = false → 4 ≤ length row)%nat) rows →
  delimiter_table_loop rows wires grids =
    Ok (wires ++
          ((λ row, (default NaN (row !! 0%nat), default NaN (row !! 1%nat))) <$> rows),
        grids ++
          ((λ row, (default NaN (row !! 2%nat), default NaN (row !! 3%nat))) <$>
             filter (λ row, isnan (default NaN (row !! 2%nat)) = false) rows)).
Proof.
  intros Hall. revert wires grids.
  induction Hall as [|row rest [Hrow Hrow4] _ IH]; intros wires grids.
  { cbn [delimiter_table_loop fmap list_fmap]. by rewrite filter_nil, !app_nil_r. }
  cbn [delimiter_table_loop].
  change 0 with (Z.of_nat 0) at 1. change 1 with (Z.of_nat 1).
  change 2 with (Z.of_nat 2). change 3 with (Z.of_nat 3). rewrite !py_getitem_nat.
  destruct (lookup_lt_is_Some_2 row 0) as [w0 Hw0]; [lia|].
  destruct (lookup_lt_is_Some_2 row 1) as [w1 Hw1]; [lia|].
  destruct (lookup_lt_is_Some_2 row 2) as [g0 Hg0]; [lia|].
  rewrite Hw0, Hw1, Hg0, !bind_Ok. rewrite Hg0 in Hrow4. cbn [default] in Hrow4.
  rewrite fmap_cons, Hw0, Hw1. cbn [default].
  destruct (isnan g0) eqn:Hnan; cbn [negb].
  - rewrite IH, filter_cons_False by (rewrite Hg0; cbn; by rewrite Hnan).
    by rewrite <- app_assoc.
  - destruct (lookup_lt_is_Some_2 row 3) as [g3 Hg3]; [by apply Hrow4|].
    rewrite Hg3, bind_Ok, IH.
    rewrite filter_cons_True by (rewrite Hg0; exact Hnan).
    rewrite fmap_cons, Hg0, Hg3. cbn [default]. by rewrite <- !app_assoc.
Qed.

Lemma delimiter_table_loop_Raise (rows : list (list scalar))
    (wires grids : list (scalar * scalar)) :
  Exists (λ row, (length row < 3)%nat ∨
                 (isnan (default NaN (row !! 2%nat)) = false ∧ length row < 4)%nat) rows →
  delimiter_table_loop rows wires grids = Raise IndexError.
Proof.
  revert wires grids. induction rows as [|row rest IH]; intros wires grids Hex.
  { by apply Exists_nil in Hex. }
  cbn [delimiter_table_loop].
  change 0 with (Z.of_nat 0) at 1. change 1 with (Z.of_nat 1).
  change 2 with (Z.of_nat 2). change 3 with (Z.of_nat 3). rewrite !py_getitem_nat.
  destruct (row !! 0%nat) as [w0|] eqn:Hw0; [|done]. rewrite bind_Ok.
  destruct (row !! 1%nat) as [w1|] eqn:Hw1; [|done]. rewrite bind_Ok.
  destruct (row !! 2%nat) as [g0|] eqn:Hg0; [|done]. rewrite bind_Ok.
  apply Exists_cons in Hex as [Hrow|Hrest].
  - destruct Hrow as [Hrow|[Hnan Hrow]]; [apply lookup_lt_Some in Hg0; lia|].
    rewrite Hg0 in Hnan. cbn in Hnan. rewrite Hnan. cbn [negb].
    rewrite bind_Ok. destruct (row !! 3%nat) as [g3|] eqn:Hg3; [|done].
    apply lookup_lt_Some in Hg3. lia.
  - destruct (isnan g0); cbn [negb]; [by apply IH|].
    rewrite bind_Ok. destruct (row !! 3%nat) as [g3|] eqn:Hg3; [|done].
    rewrite bind_Ok. by apply IH.
Qed.

(** X17.  [import_delimiter_table] passes over the first row of the sheet.
    When every other row has three cells or more, and four where the third
    is not NaN, 'Wires' is the pair of the first two cells of each of these
    rows in order, and 'Grids' the pair of the third and fourth cells of
    the rows whose third cell is not NaN, so that no grid delimiter starts
    with NaN; 'Wires' has one pair for each row and 'Grids' no more.  A row
    that is too short makes the function raise [IndexError]. *)
Theorem import_delimiter_table_spec (matrix : list (list scalar)) :
  (Forall (λ row, (3 ≤ length row)%nat ∧
                  (isnan (default NaN (row !! 2%nat)) = false → 4 ≤ length row)%nat)
          (drop 1 matrix) →
   ∃ wires grids,
     import_delimiter_table matrix = Ok (<["Grids":=grids]> (<["Wires":=wires]> ∅)) ∧
     wires = (λ row, (default NaN (row !! 0%nat), default NaN (row !! 1%nat))) <$>
               drop 1 matrix ∧
     grids = (λ row, (default NaN (row !! 2%nat), default NaN (row !! 3%nat))) <$>
               filter (λ row, isnan (default NaN (row !! 2%nat)) = false) (drop 1 matrix) ∧
     length wires = (length matrix - 1)%nat ∧
     (length grids ≤ length wires)%nat ∧
     Forall (λ g, isnan g.1 = false) grids) ∧
  (Exists (λ row, (length row < 3)%nat ∨
                  (isnan (default NaN (row !! 2%nat)) = false ∧ length row < 4)%nat)
          (drop 1 matrix) →
   import_delimiter_table matrix = Raise IndexError).
Proof.
  unfold import_delimiter_table. split.
  - intros Hall. rewrite (delimiter_table_loop_Ok _ _ _ Hall), bind_Ok.
    cbn [fst snd app]. eexists _, _. split; [done|].
    split_and!; try done.
    + by rewrite length_fmap, length_drop.
    + rewrite !length_fmap. apply length_filter.
    + apply Forall_fmap, Forall_forall. by intros row [Hrow _]%list_elem_of_filter.
  - intros Hex. by rewrite (delimiter_table_loop_Raise _ _ _ Hex).
Qed.

Lemma import_delimiter_table_spec_witness :
  (∃ wires grids,
     import_delimiter_table
       [[NaN]; [Num 100; Num 200; Num 50; Num 90]; [Num 200; Num 300; NaN]]
       = Ok (<["Grids":=grids]> (<["Wires":=wires]> ∅)) ∧
     wires = [(Num 100, Num 200); (Num 200, Num 300)] ∧ grids = [(Num 50, Num 90)]) ∧
  import_delimiter_table [[NaN]; [Num 100; Num 200; Num 50]] = Raise IndexError.
Proof.
  split.
  - destruct (proj1 (import_delimiter_table_spec
                       [[NaN]; [Num 100; Num 200; Num 50; Num 90]; [Num 200; Num 300; NaN]]))
      as (wires & grids & Hrun & Hw & Hg & _).
    { repeat constructor; simpl; try lia; done. }
    exists wires, grids. split_and!; [exact Hrun | exact Hw | exact Hg].
  - apply (proj2 (import_delimiter_table_spec [[NaN]; [Num 100; Num 200; Num 50]])).
    apply Exists_cons_hd. right. split; [done | simpl; lia].
Defined.
